(** * A lab component-lending tracker: Local Store, Sync Facade, Auth flows

    Shallow embedding of
      - [src/services/dataService.ts]        (Local Store, module [DataService])
      - [src/services/hybridDataService.ts]  (Sync Facade, module [HybridDataService])
      - [src/context/AuthContext.tsx]        (login / register / logout, module [AuthContext])
    together with the parts of [src/services/firebaseService.ts] the facade
    depends on (as an interface of possibly failing remote calls).

    Modelling conventions.
      - Instants.  The code stores instants as ISO-8601 strings produced by
        [new Date().toISOString()] and reads them back with [new Date(s)];
        both directions are exact at millisecond precision, so an instant is
        a [Z] number of milliseconds.
      - The clock.  Every [new Date()] / [Date.now()] is one read of the
        host clock; the host gives the value of the n-th read and the world
        counts the reads made so far.
      - localStorage.  Four slots; [setItem] is taken to succeed (the quota
        error that [saveData] would log is outside the model).  A slot holds
        nothing, a string [JSON.parse] rejects, or a parsed value.
      - Exceptions.  A computation yields a value or throws; [try_catch] is
        the [try { .. } catch { .. }] of the source.
      - Objects mutated in place.  A method that assigns to fields of its
        argument ([addUser] resets two counters, the facade overwrites
        [id]) returns the argument as the caller sees it afterwards. *)

From Stdlib Require Import ZArith Bool Ascii String.
From stdpp Require Import base gmap strings list pretty.

Local Open Scope Z_scope.
Local Open Scope string_scope.

(** ** JavaScript truthiness for the [a || b] defaults of the source *)

Definition str_or (s d : string) : string :=
  if bool_decide (s = "") then d else s.

Definition opt_str_or (o : option string) (d : string) : string :=
  match o with
  | Some s => str_or s d
  | None => d
  end.

Definition num_or (n d : Z) : Z :=
  if bool_decide (n = 0) then d else n.

Definition opt_num_truthy (o : option Z) : option Z :=
  match o with
  | Some n => if bool_decide (n = 0) then None else Some n
  | None => None
  end.

(** ** Entities

    Modelled from the spec: the [../types] module (User, Component,
    BorrowRequest, Notification, LoginSession, SystemData) is imported by
    every source file but is not part of the sources; the records below
    carry the fields of the spec's data model, with the optional ones
    ([rollNo], [mobile], [lastLoginAt], [logoutTime], [sessionDuration])
    as options. *)

Inductive Role := student | admin.

Inductive RequestStatus := pending | approved | rejected | returned.

Module User.
Record t := mk {
  id : string;
  name : string;
  email : string;
  role : Role;
  rollNo : option string;
  mobile : option string;
  registeredAt : Z;
  lastLoginAt : option Z;
  loginCount : Z;
  isActive : bool
}.

Definition set_id (v : string) (u : t) : t :=
  mk v (name u) (email u) (role u) (rollNo u) (mobile u)
     (registeredAt u) (lastLoginAt u) (loginCount u) (isActive u).
Definition set_lastLoginAt (v : option Z) (u : t) : t :=
  mk (id u) (name u) (email u) (role u) (rollNo u) (mobile u)
     (registeredAt u) v (loginCount u) (isActive u).
Definition set_loginCount (v : Z) (u : t) : t :=
  mk (id u) (name u) (email u) (role u) (rollNo u) (mobile u)
     (registeredAt u) (lastLoginAt u) v (isActive u).
Definition set_isActive (v : bool) (u : t) : t :=
  mk (id u) (name u) (email u) (role u) (rollNo u) (mobile u)
     (registeredAt u) (lastLoginAt u) (loginCount u) v.
End User.

Module Component.
Record t := mk {
  id : string;
  name : string;
  totalQuantity : Z;
  availableQuantity : Z;
  category : string;
  description : string
}.

Definition set_id (v : string) (c : t) : t :=
  mk v (name c) (totalQuantity c) (availableQuantity c) (category c)
     (description c).
End Component.

Module BorrowRequest.
Record t := mk {
  id : string;
  studentId : string;
  componentId : string;
  status : RequestStatus;
  dueDate : Z;
  createdAt : Z
}.

Definition set_id (v : string) (r : t) : t :=
  mk v (studentId r) (componentId r) (status r) (dueDate r) (createdAt r).
End BorrowRequest.

Module Notification.
Record t := mk {
  id : string;
  userId : string;
  title : string;
  message : string;
  type : string;
  read : bool;
  createdAt : Z
}.

Definition set_id (v : string) (n : t) : t :=
  mk v (userId n) (title n) (message n) (type n) (read n) (createdAt n).
Definition set_read (v : bool) (n : t) : t :=
  mk (id n) (userId n) (title n) (message n) (type n) v (createdAt n).
End Notification.

Module LoginSession.
Record t := mk {
  id : string;
  userId : string;
  userEmail : string;
  userName : string;
  userRole : Role;
  loginTime : Z;
  logoutTime : option Z;
  sessionDuration : option Z;
  ipAddress : string;
  userAgent : string;
  deviceInfo : string;
  isActive : bool
}.

Definition set_id (v : string) (s : t) : t :=
  mk v (userId s) (userEmail s) (userName s) (userRole s) (loginTime s)
     (logoutTime s) (sessionDuration s) (ipAddress s) (userAgent s)
     (deviceInfo s) (isActive s).

(** The three assignments of [endLoginSession]'s [forEach] body. *)
Definition close (logout : Z) (duration : Z) (s : t) : t :=
  mk (id s) (userId s) (userEmail s) (userName s) (userRole s) (loginTime s)
     (Some logout) (Some duration) (ipAddress s) (userAgent s)
     (deviceInfo s) false.
End LoginSession.

Record SystemData := mkSystemData {
  users : list User.t;
  components : list Component.t;
  requests : list BorrowRequest.t;
  notifications : list Notification.t;
  loginSessions : list LoginSession.t
}.

Record SystemStats := mkSystemStats {
  totalUsers : nat;
  activeUsers : nat;
  totalLogins : Z;
  onlineUsers : nat;
  totalRequests : nat;
  pendingRequests : nat;
  totalComponents : nat;
  overdueItems : nat
}.

(** ** The host: localStorage, the clock, the browser *)

(** What [localStorage.getItem] followed by [JSON.parse] can meet. *)
Inductive item (A : Type) :=
  | Missing
  | Unparsable
  | Parsed (a : A).
Arguments Missing {A}.
Arguments Unparsable {A}.
Arguments Parsed {A} a.

(** A persisted snapshot.  Snapshots written by older versions have no
    [loginSessions] key, which [getData] repairs. *)
Record Snapshot := mkSnapshot {
  s_users : list User.t;
  s_components : list Component.t;
  s_requests : list BorrowRequest.t;
  s_notifications : list Notification.t;
  s_loginSessions : option (list LoginSession.t)
}.

Record LocalStorage := mkLocalStorage {
  isaacLabData : item Snapshot;
  isaacLabPasswords : item (gmap string string);
  currentUser : option User.t;
  lastFirebaseSync : option Z
}.

Record Host := mkHost {
  clock : nat -> Z;            (* value of the n-th clock read *)
  randomSuffix : nat -> string; (* Math.random().toString(36).substr(2, 9) *)
  navigatorUserAgent : string;
  toLocaleString : Z -> string  (* Date.prototype.toLocaleString *)
}.

Record World := mkWorld {
  host : Host;
  storage : LocalStorage;
  tick : nat;                   (* clock reads made so far *)
  isOnline : bool;              (* HybridDataService.isOnline *)
  useFirebase : bool;           (* HybridDataService.useFirebase *)
  authUser : option User.t      (* AuthProvider's [user] state *)
}.

Definition with_storage (ls : LocalStorage) (w : World) : World :=
  mkWorld (host w) ls (tick w) (isOnline w) (useFirebase w) (authUser w).
Definition with_tick (n : nat) (w : World) : World :=
  mkWorld (host w) (storage w) n (isOnline w) (useFirebase w) (authUser w).
Definition with_isOnline (b : bool) (w : World) : World :=
  mkWorld (host w) (storage w) (tick w) b (useFirebase w) (authUser w).
Definition with_useFirebase (b : bool) (w : World) : World :=
  mkWorld (host w) (storage w) (tick w) (isOnline w) b (authUser w).
Definition with_authUser (u : option User.t) (w : World) : World :=
  mkWorld (host w) (storage w) (tick w) (isOnline w) (useFirebase w) u.

(** ** Computations: world passing with exceptions *)

Inductive result (A : Type) :=
  | Val (a : A)
  | Exn.
Arguments Val {A} a.
Arguments Exn {A}.

Definition M (A : Type) : Type := World -> result A * World.

Definition ret {A} (a : A) : M A := fun w => (Val a, w).

Definition bind {A B} (m : M A) (k : A -> M B) : M B :=
  fun w =>
    match m w with
    | (Val a, w') => k a w'
    | (Exn, w') => (Exn, w')
    end.

Definition throw {A} : M A := fun w => (Exn, w).

(** [try { body } catch (error) { handler }]: effects made before the
    throw stay. *)
Definition try_catch {A} (body handler : M A) : M A :=
  fun w =>
    match body w with
    | (Val a, w') => (Val a, w')
    | (Exn, w') => handler w'
    end.

Notation "'do' x <- m ; k" := (bind m (fun x => k))
  (at level 10, x name, m at level 100, k at level 200).
Notation "'run' m ; k" := (bind m (fun _ => k))
  (at level 10, m at level 100, k at level 200).

Definition get : M World := fun w => (Val w, w).
Definition modify (f : World -> World) : M unit := fun w => (Val tt, f w).

(** One clock read. *)
Definition now : M Z :=
  fun w => (Val (clock (host w) (tick w)), with_tick (S (tick w)) w).

Definition getStorage : M LocalStorage := fun w => (Val (storage w), w).
Definition setStorage (ls : LocalStorage) : M unit := modify (with_storage ls).

Definition set_isaacLabData (v : item Snapshot) (ls : LocalStorage) :=
  mkLocalStorage v (isaacLabPasswords ls) (currentUser ls) (lastFirebaseSync ls).
Definition set_isaacLabPasswords (v : item (gmap string string)) (ls : LocalStorage) :=
  mkLocalStorage (isaacLabData ls) v (currentUser ls) (lastFirebaseSync ls).
Definition set_currentUser (v : option User.t) (ls : LocalStorage) :=
  mkLocalStorage (isaacLabData ls) (isaacLabPasswords ls) v (lastFirebaseSync ls).
Definition set_lastFirebaseSync (v : option Z) (ls : LocalStorage) :=
  mkLocalStorage (isaacLabData ls) (isaacLabPasswords ls) (currentUser ls) v.

Definition is_val {A} (r : result A) : bool :=
  match r with Val _ => true | Exn => false end.

(** [Array.prototype.findIndex] / [find] with a decidable predicate. *)
Definition findIndex {A} (P : A -> Prop) `{!forall x, Decision (P x)}
    (l : list A) : option nat :=
  fst <$> list_find P l.

Definition find {A} (P : A -> Prop) `{!forall x, Decision (P x)}
    (l : list A) : option A :=
  snd <$> list_find P l.

(** [String.prototype.includes]. *)
Fixpoint includes (needle hay : string) : bool :=
  String.prefix needle hay ||
  match hay with
  | EmptyString => false
  | String _ rest => includes needle rest
  end.

Definition dquote : string := String "034"%char EmptyString.
Definition newline : string := String "010"%char EmptyString.

(** How a role prints inside a template literal. *)
Definition role_string (r : Role) : string :=
  match r with
  | student => "student"
  | admin => "admin"
  end.

Global Instance Role_eq_dec : EqDecision Role.
Proof. solve_decision. Defined.

Global Instance RequestStatus_eq_dec : EqDecision RequestStatus.
Proof. solve_decision. Defined.

(** ** Local Store: [class DataService] *)

Module DataService.

Definition defaultDataAt (registered : Z) : SystemData :=
  {| users :=
       [ User.mk "admin-1" "Administrator" "admin@issacasimov.in" admin
                 None None registered None 0 false ];
     components :=
       [ Component.mk "comp-1" "Arduino Uno R3" 25 25 "Microcontroller"
                      "Arduino Uno R3 development board" ];
     requests := [];
     notifications := [];
     loginSessions := [] |}.

Definition getDefaultData : M SystemData :=
  do registered <- now;       (* registeredAt: new Date().toISOString() *)
  ret (defaultDataAt registered).

(** A parsed snapshot as [getData] hands it out: [loginSessions] is added
    when an old snapshot lacks it. *)
Definition ofSnapshot (parsedData : Snapshot) : SystemData :=
  mkSystemData (s_users parsedData) (s_components parsedData)
               (s_requests parsedData) (s_notifications parsedData)
               (default [] (s_loginSessions parsedData)).

Definition getData : M SystemData :=
  do ls <- getStorage;
  match isaacLabData ls with
  | Parsed parsedData => ret (ofSnapshot parsedData)
  | Unparsable => getDefaultData   (* JSON.parse threw, caught and logged *)
  | Missing => getDefaultData
  end.

Definition saveData (data : SystemData) : M unit :=
  do ls <- getStorage;
  setStorage
    (set_isaacLabData
       (Parsed (mkSnapshot (users data) (components data) (requests data)
                           (notifications data) (Some (loginSessions data))))
       ls).

Definition getUserPasswords : M (gmap string string) :=
  do ls <- getStorage;
  match isaacLabPasswords ls with
  | Parsed passwords => ret passwords
  | Unparsable => ret ∅
  | Missing => ret ∅
  end.

Definition setUserPassword (email password : string) : M unit :=
  do passwords <- getUserPasswords;
  do ls <- getStorage;
  setStorage (set_isaacLabPasswords (Parsed (<[email := password]> passwords)) ls).

Definition verifyPassword (email password : string) : M bool :=
  do passwords <- getUserPasswords;
  ret (bool_decide (passwords !! email = Some password)).

(** User operations *)

Definition addUser (user : User.t) : M User.t :=
  do data <- getData;
  let user := User.set_isActive false (User.set_loginCount 0 user) in
  run saveData (mkSystemData (users data ++ [user]) (components data)
                  (requests data) (notifications data) (loginSessions data));
  ret user.

Definition updateUser (user : User.t) : M unit :=
  do data <- getData;
  match findIndex (fun u => User.id u = User.id user) (users data) with
  | Some index =>
      saveData (mkSystemData (<[index := user]> (users data)) (components data)
                  (requests data) (notifications data) (loginSessions data))
  | None => ret tt
  end.

Definition getUser (email : string) : M (option User.t) :=
  do data <- getData;
  ret (find (fun user => User.email user = email) (users data)).

(** Login session management *)

Definition getClientIP : string := "Unknown".

Definition getDeviceInfo : M string :=
  do w <- get;
  let ua := navigatorUserAgent (host w) in
  if includes "Mobile" ua then ret "Mobile Device"
  else if includes "Tablet" ua then ret "Tablet"
  else ret "Desktop".

Definition createLoginSession (user : User.t) : M LoginSession.t :=
  do stamp <- now;
  do w <- get;
  let sid := "session-" +:+ pretty stamp +:+ "-" +:+ randomSuffix (host w) (tick w) in
  do loginTime <- now;
  do deviceInfo <- getDeviceInfo;
  let session :=
    LoginSession.mk sid (User.id user) (User.email user) (User.name user)
      (User.role user) loginTime None None getClientIP
      (navigatorUserAgent (host w)) deviceInfo true in
  do data <- getData;
  run saveData (mkSystemData (users data) (components data) (requests data)
                  (notifications data) (loginSessions data ++ [session]));
  ret session.

(** The [forEach] of [endLoginSession]: the filtered sessions are the
    objects of [data.loginSessions] themselves, visited in order; each
    costs two clock reads. *)
Fixpoint closeSessions (userId : string) (sessions : list LoginSession.t)
    : M (list LoginSession.t) :=
  match sessions with
  | [] => ret []
  | s :: rest =>
      if bool_decide (LoginSession.userId s = userId) && LoginSession.isActive s
      then
        do logout <- now;
        do finish <- now;
        do rest' <- closeSessions userId rest;
        ret (LoginSession.close logout (finish - LoginSession.loginTime s) s :: rest')
      else
        do rest' <- closeSessions userId rest;
        ret (s :: rest')
  end.

Definition endLoginSession (userId : string) : M unit :=
  do data <- getData;
  do sessions <- closeSessions userId (loginSessions data);
  (* Update user active status *)
  let users' :=
    match list_find (fun u => User.id u = userId) (users data) with
    | Some (index, user) => <[index := User.set_isActive false user]> (users data)
    | None => users data
    end in
  saveData (mkSystemData users' (components data) (requests data)
              (notifications data) sessions).

Definition getLoginSessions : M (list LoginSession.t) :=
  do data <- getData; ret (loginSessions data).

Definition getActiveUsers : M (list User.t) :=
  do data <- getData; ret (filter (fun u => User.isActive u = true) (users data)).

(** Component operations *)

Definition getComponents : M (list Component.t) :=
  do data <- getData; ret (components data).

Definition updateComponent (component : Component.t) : M unit :=
  do data <- getData;
  match findIndex (fun c => Component.id c = Component.id component) (components data) with
  | Some index =>
      saveData (mkSystemData (users data) (<[index := component]> (components data))
                  (requests data) (notifications data) (loginSessions data))
  | None => ret tt
  end.

Definition addComponent (component : Component.t) : M unit :=
  do data <- getData;
  saveData (mkSystemData (users data) (components data ++ [component])
              (requests data) (notifications data) (loginSessions data)).

Definition deleteComponent (componentId : string) : M unit :=
  do data <- getData;
  saveData (mkSystemData (users data)
              (filter (fun c => Component.id c ≠ componentId) (components data))
              (requests data) (notifications data) (loginSessions data)).

(** Request operations *)

Definition addRequest (request : BorrowRequest.t) : M unit :=
  do data <- getData;
  saveData (mkSystemData (users data) (components data)
              (requests data ++ [request]) (notifications data) (loginSessions data)).

Definition updateRequest (request : BorrowRequest.t) : M unit :=
  do data <- getData;
  match findIndex (fun r => BorrowRequest.id r = BorrowRequest.id request) (requests data) with
  | Some index =>
      saveData (mkSystemData (users data) (components data)
                  (<[index := request]> (requests data)) (notifications data)
                  (loginSessions data))
  | None => ret tt
  end.

Definition getRequests : M (list BorrowRequest.t) :=
  do data <- getData; ret (requests data).

Definition getUserRequests (userId : string) : M (list BorrowRequest.t) :=
  do data <- getData;
  ret (filter (fun r => BorrowRequest.studentId r = userId) (requests data)).

(** Notification operations *)

Definition addNotification (notification : Notification.t) : M unit :=
  do data <- getData;
  saveData (mkSystemData (users data) (components data) (requests data)
              (notifications data ++ [notification]) (loginSessions data)).

Definition getUserNotifications (userId : string) : M (list Notification.t) :=
  do data <- getData;
  ret (filter (fun n => Notification.userId n = userId) (notifications data)).

Definition markNotificationAsRead (notificationId : string) : M unit :=
  do data <- getData;
  match list_find (fun n => Notification.id n = notificationId) (notifications data) with
  | Some (index, notification) =>
      saveData (mkSystemData (users data) (components data) (requests data)
                  (<[index := Notification.set_read true notification]> (notifications data))
                  (loginSessions data))
  | None => ret tt
  end.

(** The tail of [authenticateUser]: [if (user) { .. } return user || null]. *)
Definition recordLogin (user : option User.t) : M (option User.t) :=
  match user with
  | Some user =>
      (* Update login statistics *)
      do lastLogin <- now;
      let user :=
        User.set_isActive true
          (User.set_loginCount (num_or (User.loginCount user) 0 + 1)
             (User.set_lastLoginAt (Some lastLogin) user)) in
      run updateUser user;
      (* Create login session *)
      do _ <- createLoginSession user;
      ret (Some user)
  | None => ret None
  end.

Definition authenticateUser (email password : string) : M (option User.t) :=
  do user <- getUser email;
  if bool_decide (email = "admin@issacasimov.in") then
    (* Handle admin login with default password *)
    do passwords <- getUserPasswords;
    let adminPassword := opt_str_or (passwords !! email) "ralab" in
    if bool_decide (password ≠ adminPassword) then ret None
    else
      do user <-
        match user with
        | None =>
            (* Create admin user if doesn't exist *)
            do registered <- now;
            do created <-
              addUser (User.mk "admin-1" "Administrator" "admin@issacasimov.in"
                         admin None None registered None 0 true);
            run setUserPassword email "ralab";
            ret (Some created)
        | Some _ => ret user
        end;
      recordLogin user
  else
    (* For regular users, verify password *)
    match user with
    | None => ret None
    | Some _ =>
        do ok <- verifyPassword email password;
        if ok then recordLogin user else ret None
    end.

(** System statistics *)

Definition getSystemStats : M SystemStats :=
  do data <- getData;
  do current <- now;
  ret {| totalUsers := length (users data);
         activeUsers := length (filter (fun u => User.isActive u = true) (users data));
         totalLogins :=
           foldl (fun sum u => sum + num_or (User.loginCount u) 0) 0 (users data);
         onlineUsers :=
           length (filter (fun s => LoginSession.isActive s = true) (loginSessions data));
         totalRequests := length (requests data);
         pendingRequests :=
           length (filter (fun r => BorrowRequest.status r = pending) (requests data));
         totalComponents := length (components data);
         overdueItems :=
           length (filter (fun r => BorrowRequest.status r = approved
                                    ∧ BorrowRequest.dueDate r < current)
                          (requests data)) |}.

(** CSV export *)

Definition headers : list string :=
  [ "Login Time"; "Logout Time"; "User Name"; "User Email"; "Role";
    "Device Info"; "Session Duration (minutes)"; "Status" ].

(** [Math.round(ms / 60000)]: halves round towards plus infinity. *)
Definition roundMinutes (ms : Z) : Z := (ms + 30000) `div` 60000.

Definition sessionRow (h : Host) (session : LoginSession.t) : list string :=
  [ toLocaleString h (LoginSession.loginTime session);
    match LoginSession.logoutTime session with
    | Some t => toLocaleString h t
    | None => "Active"
    end;
    LoginSession.userName session;
    LoginSession.userEmail session;
    role_string (LoginSession.userRole session);
    str_or (LoginSession.deviceInfo session) "Unknown";
    match opt_num_truthy (LoginSession.sessionDuration session) with
    | Some ms => pretty (roundMinutes ms)
    | None => "Active"
    end;
    if LoginSession.isActive session then "Active" else "Ended" ].

Definition quoteCell (cell : string) : string := dquote +:+ cell +:+ dquote.

Definition csvLine (row : list string) : string :=
  String.concat "," (map quoteCell row).

Definition exportLoginSessionsCSV : M string :=
  do sessions <- getLoginSessions;
  do w <- get;
  let rows := map (sessionRow (host w)) sessions in
  ret (String.concat newline (map csvLine (headers :: rows))).

End DataService.

(** ** Remote Store Adapter: [class FirebaseService]

    Every method of the adapter awaits the remote document store and
    rethrows what it catches, so from the facade's side a call either
    resolves with a value or rejects.  The adapter is an interface of such
    outcomes, one per method; a statement that quantifies over the
    adapter quantifies over every way the remote side can behave. *)

Inductive outcome (A : Type) :=
  | Resolved (a : A)
  | Rejected.
Arguments Resolved {A} a.
Arguments Rejected {A}.

Definition await {A} (o : outcome A) : M A :=
  match o with
  | Resolved a => ret a
  | Rejected => throw
  end.

Module FirebaseService.

(** The partial document [endLoginSession] sends for a session. *)
Record SessionPatch := mkPatch {
  p_isActive : bool;
  p_logoutTime : Z;
  p_sessionDuration : Z
}.

Record t := mk {
  signIn : string -> string -> outcome (option string);
  signUp : string -> string -> outcome (option string);
  signOut : outcome unit;
  createUser : User.t -> outcome string;
  getUserByEmail : string -> outcome (option User.t);
  updateUser : string -> User.t -> outcome unit;
  getAllUsers : outcome (list User.t);
  createComponent : Component.t -> outcome string;
  updateComponent : string -> Component.t -> outcome unit;
  getAllComponents : outcome (list Component.t);
  createRequest : BorrowRequest.t -> outcome string;
  updateRequest : string -> BorrowRequest.t -> outcome unit;
  getAllRequests : outcome (list BorrowRequest.t);
  getUserRequests : string -> outcome (list BorrowRequest.t);
  createNotification : Notification.t -> outcome string;
  getUserNotifications : string -> outcome (list Notification.t);
  getAllNotifications : outcome (list Notification.t);
  markNotificationAsRead : string -> outcome unit;
  createLoginSession : LoginSession.t -> outcome string;
  updateLoginSession : string -> SessionPatch -> outcome unit;
  getAllLoginSessions : outcome (list LoginSession.t);
  initializeDefaultData : outcome unit
}.

(** Sync with local storage: five reads ([Promise.all] rejects as soon
    as one of them does), then the snapshot and the sync time are
    written.  A rejection is logged and thrown again. *)
Definition syncToLocal (fb : t) : M unit :=
  do users <- await (getAllUsers fb);
  do components <- await (getAllComponents fb);
  do requests <- await (getAllRequests fb);
  do notifications <- await (getAllNotifications fb);
  do loginSessions <- await (getAllLoginSessions fb);
  do ls <- getStorage;
  run setStorage
    (set_isaacLabData
       (Parsed (mkSnapshot users components requests notifications
                           (Some loginSessions))) ls);
  do synced <- now;
  do ls <- getStorage;
  setStorage (set_lastFirebaseSync (Some synced) ls).

End FirebaseService.

(** ** Sync Facade: [class HybridDataService] *)

Module HybridDataService.
Section Facade.

Variable firebaseService : FirebaseService.t.

(** [this.isOnline && this.useFirebase] *)
Definition remoteReady : M bool :=
  do w <- get; ret (isOnline w && useFirebase w).

Definition nonEmpty {A} (l : list A) : option (list A) :=
  match l with
  | [] => None
  | _ :: _ => Some l
  end.

(** [or_local remote local]: a read whose [try] block returns early
    with the remote result, and falls through to the local read when it
    has nothing to return or has thrown. *)
Definition or_local {A} (remote : M (option A)) (local : M A) : M A :=
  do early <- try_catch remote (ret None);
  match early with
  | Some a => ret a
  | None => local
  end.

Definition setOnline : M unit := modify (with_isOnline true).
Definition setOffline : M unit := modify (with_isOnline false).
Definition disableFirebase : M unit := modify (with_useFirebase false).

Definition initializeFirebase : M unit :=
  try_catch
    (do w <- get;
     if isOnline w then
       run await (FirebaseService.initializeDefaultData firebaseService);
       FirebaseService.syncToLocal firebaseService
     else ret tt)
    disableFirebase.

Definition syncWhenOnline : M unit :=
  do ready <- remoteReady;
  if ready then
    try_catch (FirebaseService.syncToLocal firebaseService) (ret tt)
  else ret tt.

(** The two listeners of [setupOnlineListener]. *)
Definition onOnline : M unit := run setOnline; syncWhenOnline.
Definition onOffline : M unit := setOffline.

(** User operations *)

Definition addUser (user : User.t) : M User.t :=
  try_catch
    (do ready <- remoteReady;
     do user <-
       (if ready then
          do firebaseId <- await (FirebaseService.createUser firebaseService user);
          ret (User.set_id firebaseId user)
        else ret user);
     DataService.addUser user)
    (* Fallback to local storage *)
    (DataService.addUser user).

Definition updateUser (user : User.t) : M unit :=
  try_catch
    (do ready <- remoteReady;
     run (if ready then
            await (FirebaseService.updateUser firebaseService (User.id user) user)
          else ret tt);
     DataService.updateUser user)
    (DataService.updateUser user).

Definition getUser (email : string) : M (option User.t) :=
  or_local
    (do ready <- remoteReady;
     if ready then
       do firebaseUser <- await (FirebaseService.getUserByEmail firebaseService email);
       match firebaseUser with
       | Some u => ret (Some (Some u))
       | None => ret None
       end
     else ret None)
    (DataService.getUser email).

Definition authenticateUser (email password : string) : M (option User.t) :=
  or_local
    (do ready <- remoteReady;
     if ready then
       (* Try Firebase authentication first *)
       do firebaseUser <- await (FirebaseService.signIn firebaseService email password);
       match firebaseUser with
       | Some _ =>
           do userData <- await (FirebaseService.getUserByEmail firebaseService email);
           match userData with
           | Some userData =>
               (* Update local data *)
               run DataService.updateUser userData;
               ret (Some (Some userData))
           | None => ret None
           end
       | None => ret None
       end
     else ret None)
    (* Fallback to local authentication *)
    (DataService.authenticateUser email password).

(** Component operations *)

Definition getComponents : M (list Component.t) :=
  or_local
    (do ready <- remoteReady;
     if ready then
       do firebaseComponents <- await (FirebaseService.getAllComponents firebaseService);
       ret (nonEmpty firebaseComponents)
     else ret None)
    DataService.getComponents.

Definition updateComponent (component : Component.t) : M unit :=
  try_catch
    (do ready <- remoteReady;
     run (if ready then
            await (FirebaseService.updateComponent firebaseService
                     (Component.id component) component)
          else ret tt);
     DataService.updateComponent component)
    (DataService.updateComponent component).

Definition addComponent (component : Component.t) : M Component.t :=
  try_catch
    (do ready <- remoteReady;
     do component <-
       (if ready then
          do firebaseId <- await (FirebaseService.createComponent firebaseService component);
          ret (Component.set_id firebaseId component)
        else ret component);
     run DataService.addComponent component;
     ret component)
    (run DataService.addComponent component; ret component).

(** Request operations *)

Definition addRequest (request : BorrowRequest.t) : M BorrowRequest.t :=
  try_catch
    (do ready <- remoteReady;
     do request <-
       (if ready then
          do firebaseId <- await (FirebaseService.createRequest firebaseService request);
          ret (BorrowRequest.set_id firebaseId request)
        else ret request);
     run DataService.addRequest request;
     ret request)
    (run DataService.addRequest request; ret request).

Definition updateRequest (request : BorrowRequest.t) : M unit :=
  try_catch
    (do ready <- remoteReady;
     run (if ready then
            await (FirebaseService.updateRequest firebaseService
                     (BorrowRequest.id request) request)
          else ret tt);
     DataService.updateRequest request)
    (DataService.updateRequest request).

Definition getRequests : M (list BorrowRequest.t) :=
  or_local
    (do ready <- remoteReady;
     if ready then
       do firebaseRequests <- await (FirebaseService.getAllRequests firebaseService);
       ret (nonEmpty firebaseRequests)
     else ret None)
    DataService.getRequests.

Definition getUserRequests (userId : string) : M (list BorrowRequest.t) :=
  or_local
    (do ready <- remoteReady;
     if ready then
       do firebaseRequests <- await (FirebaseService.getUserRequests firebaseService userId);
       ret (nonEmpty firebaseRequests)
     else ret None)
    (DataService.getUserRequests userId).

(** Notification operations *)

Definition addNotification (notification : Notification.t) : M Notification.t :=
  try_catch
    (do ready <- remoteReady;
     do notification <-
       (if ready then
          do firebaseId <-
            await (FirebaseService.createNotification firebaseService notification);
          ret (Notification.set_id firebaseId notification)
        else ret notification);
     run DataService.addNotification notification;
     ret notification)
    (run DataService.addNotification notification; ret notification).

Definition getUserNotifications (userId : string) : M (list Notification.t) :=
  or_local
    (do ready <- remoteReady;
     if ready then
       do firebaseNotifications <-
         await (FirebaseService.getUserNotifications firebaseService userId);
       ret (nonEmpty firebaseNotifications)
     else ret None)
    (DataService.getUserNotifications userId).

Definition markNotificationAsRead (notificationId : string) : M unit :=
  try_catch
    (do ready <- remoteReady;
     run (if ready then
            await (FirebaseService.markNotificationAsRead firebaseService notificationId)
          else ret tt);
     DataService.markNotificationAsRead notificationId)
    (DataService.markNotificationAsRead notificationId).

(** Login session operations *)

Definition createLoginSession (user : User.t) : M LoginSession.t :=
  do session <- DataService.createLoginSession user;
  try_catch
    (do ready <- remoteReady;
     if ready then
       do firebaseId <- await (FirebaseService.createLoginSession firebaseService session);
       ret (LoginSession.set_id firebaseId session)
     else ret session)
    (ret session).

(** The [for .. of] loop over the user's remote sessions: the patch is
    built (two clock reads) and sent; the first rejection leaves the
    loop. *)
Fixpoint closeRemoteSessions (userSessions : list LoginSession.t) : M unit :=
  match userSessions with
  | [] => ret tt
  | session :: rest =>
      do logout <- now;
      do finish <- now;
      run await (FirebaseService.updateLoginSession firebaseService
                   (LoginSession.id session)
                   (FirebaseService.mkPatch false logout
                      (finish - LoginSession.loginTime session)));
      closeRemoteSessions rest
  end.

Definition endLoginSession (userId : string) : M unit :=
  try_catch
    (do ready <- remoteReady;
     run (if ready then
            (* Find and update Firebase sessions *)
            do sessions <- await (FirebaseService.getAllLoginSessions firebaseService);
            closeRemoteSessions
              (filter (fun s => LoginSession.userId s = userId
                                ∧ LoginSession.isActive s = true) sessions)
          else ret tt);
     DataService.endLoginSession userId)
    (DataService.endLoginSession userId).

(** Delegate other methods to dataService *)

Definition getLoginSessions : M (list LoginSession.t) := DataService.getLoginSessions.
Definition getActiveUsers : M (list User.t) := DataService.getActiveUsers.
Definition getSystemStats : M SystemStats := DataService.getSystemStats.
Definition exportLoginSessionsCSV : M string := DataService.exportLoginSessionsCSV.
Definition getData : M SystemData := DataService.getData.
Definition setUserPassword (email password : string) : M unit :=
  DataService.setUserPassword email password.

(** Connection status: [isOnline], [useFirebase], [lastSync]. *)
Definition getConnectionStatus : M (bool * bool * option Z) :=
  do w <- get;
  ret (isOnline w, useFirebase w, lastFirebaseSync (storage w)).

End Facade.
End HybridDataService.

(** ** Session/Auth Orchestrator: [AuthProvider] *)

Module AuthContext.

Record RegisterData := mkRegisterData {
  name : string;
  email : string;
  rollNumber : string;
  mobile : string;
  password : string
}.

Section Provider.

Variable firebaseService : FirebaseService.t.

Definition setUser (u : option User.t) : M unit := modify (with_authUser u).

(** [localStorage.setItem('currentUser', ..)] / [removeItem]. *)
Definition storeCurrentUser (u : option User.t) : M unit :=
  do ls <- getStorage; setStorage (set_currentUser u ls).

(** The start-up effect: check for an existing session. *)
Definition restoreSession : M unit :=
  do ls <- getStorage;
  match currentUser ls with
  | Some parsedUser =>
      try_catch
        (run setUser (Some parsedUser);
         (* Update user as active in the system *)
         do systemUser <-
           HybridDataService.getUser firebaseService (User.email parsedUser);
         match systemUser with
         | Some systemUser =>
             HybridDataService.updateUser firebaseService
               (User.set_isActive true systemUser)
         | None => ret tt
         end)
        (storeCurrentUser None)
  | None => ret tt
  end.

Definition login (email password : string) : M bool :=
  do authenticatedUser <-
    HybridDataService.authenticateUser firebaseService email password;
  match authenticatedUser with
  | Some u =>
      run setUser (Some u);
      run storeCurrentUser (Some u);
      ret true
  | None => ret false
  end.

Definition register (data : RegisterData) : M bool :=
  try_catch
    ((* Check if user already exists *)
     do existingUser <- HybridDataService.getUser firebaseService (email data);
     match existingUser with
     | Some _ => ret false
     | None =>
         (* Create Firebase user first *)
         run try_catch
               (do _ <- await (FirebaseService.signUp firebaseService
                                 (email data) (password data));
                ret tt)
               (ret tt);
         (* Create new user *)
         do stamp <- now;
         do registered <- now;
         do lastLogin <- now;
         let newUser :=
           User.mk ("user-" +:+ pretty stamp) (name data) (email data) student
                   (Some (rollNumber data)) (Some (mobile data)) registered
                   (Some lastLogin) 1 true in
         (* Save user and create login session *)
         do newUser <- HybridDataService.addUser firebaseService newUser;
         do _ <- HybridDataService.createLoginSession firebaseService newUser;
         (* Store password *)
         run HybridDataService.setUserPassword (email data) (password data);
         (* Set as current user *)
         run setUser (Some newUser);
         run storeCurrentUser (Some newUser);
         (* Add welcome notification *)
         do stamp' <- now;
         do created <- now;
         do _ <- HybridDataService.addNotification firebaseService
                   (Notification.mk ("notif-" +:+ pretty stamp') (User.id newUser)
                      "Welcome to Isaac Asimov Lab! 🎉"
                      "Your account has been created successfully. You can now request components for your robotics projects."
                      "success" false created);
         ret true
     end)
    (ret false).

Definition logout : M unit :=
  do w <- get;
  run match authUser w with
      | Some user =>
          (* End login session *)
          run HybridDataService.endLoginSession firebaseService (User.id user);
          (* Sign out from Firebase; a rejection is logged *)
          try_catch (await (FirebaseService.signOut firebaseService)) (ret tt)
      | None => ret tt
      end;
  run setUser None;
  storeCurrentUser None.

End Provider.
End AuthContext.

(** * Specification vocabulary *)

(** The data [getData] returns in a world: the parsed snapshot, or the
    default dataset stamped with the next clock read. *)
Definition currentData (w : World) : SystemData :=
  match isaacLabData (storage w) with
  | Parsed parsedData => DataService.ofSnapshot parsedData
  | Unparsable => DataService.defaultDataAt (clock (host w) (tick w))
  | Missing => DataService.defaultDataAt (clock (host w) (tick w))
  end.

(** The world after [getData]: the default dataset costs one clock read. *)
Definition afterRead (w : World) : World :=
  match isaacLabData (storage w) with
  | Parsed _ => w
  | Unparsable => with_tick (S (tick w)) w
  | Missing => with_tick (S (tick w)) w
  end.

(** The world after [saveData data]. *)
Definition persist (data : SystemData) (w : World) : World :=
  with_storage
    (set_isaacLabData
       (Parsed (mkSnapshot (users data) (components data) (requests data)
                           (notifications data) (Some (loginSessions data))))
       (storage w))
    w.

(** The session [createLoginSession] builds for a user in a world. *)
Definition newSession (user : User.t) (w : World) : LoginSession.t :=
  let ua := navigatorUserAgent (host w) in
  LoginSession.mk
    ("session-" +:+ pretty (clock (host w) (tick w)) +:+ "-"
       +:+ randomSuffix (host w) (S (tick w)))
    (User.id user) (User.email user) (User.name user) (User.role user)
    (clock (host w) (S (tick w))) None None "Unknown" ua
    (if includes "Mobile" ua then "Mobile Device"
     else if includes "Tablet" ua then "Tablet" else "Desktop")
    true.

(** The persisted sessions, whatever the clock says. *)
Definition storedSessions (ls : LocalStorage) : list LoginSession.t :=
  match isaacLabData ls with
  | Parsed parsedData => default [] (s_loginSessions parsedData)
  | Unparsable => []
  | Missing => []
  end.

(** The sessions [endLoginSession userId] closes. *)
Definition targets (userId : string) (s : LoginSession.t) : bool :=
  bool_decide (LoginSession.userId s = userId) && LoginSession.isActive s.

(** [s'] is [s] closed at the k-th clock read, its duration taken at the
    read after. *)
Definition closed_at (h : Host) (userId : string) (s s' : LoginSession.t) : Prop :=
  if targets userId s
  then exists k,
         s' = LoginSession.close (clock h k)
                (clock h (S k) - LoginSession.loginTime s) s
  else s' = s.


(** Occurrences of a character in a string. *)
Fixpoint count_char (c : ascii) (s : string) : nat :=
  match s with
  | EmptyString => 0%nat
  | String a rest =>
      ((if bool_decide (a = c) then 1 else 0) + count_char c rest)%nat
  end.



(** The users [endLoginSession userId] saves: the first user with the id
    is marked inactive. *)
Definition markInactive (userId : string) (l : list User.t) : list User.t :=
  match list_find (fun u => User.id u = userId) l with
  | Some (index, user) => <[index := User.set_isActive false user]> l
  | None => l
  end.

(** The persisted users, when a snapshot is there. *)
Definition storedUsers (ls : LocalStorage) : option (list User.t) :=
  match isaacLabData ls with
  | Parsed parsedData => Some (s_users parsedData)
  | Unparsable => None
  | Missing => None
  end.

(** The persisted credential map, as [getUserPasswords] reads it. *)
Definition credentials (ls : LocalStorage) : gmap string string :=
  match isaacLabPasswords ls with
  | Parsed passwords => passwords
  | Unparsable => ∅
  | Missing => ∅
  end.

Definition adminEmail : string := "admin@issacasimov.in".

(** [applied_as facade local w]: run from [w], the facade call returns
    normally, and the world it leaves (storage included) is the one the
    Local Store operation [local] leaves when run on [w]'s storage and
    flags, possibly later on the clock (the remote phase may have read the
    clock before the local write). *)
Definition applied_as {A B} (facade : M A) (local : M B) (w : World) : Prop :=
  is_val (fst (facade w)) = true /\
  exists n, (tick w <= n)%nat /\ snd (facade w) = snd (local (with_tick n w)).

(** A computation that returns normally from every world. *)
Definition total {A} (m : M A) : Prop :=
  forall w, is_val (fst (m w)) = true.

(** A computation that leaves the facade's [useFirebase] flag alone. *)
Definition keeps_flag {A} (m : M A) : Prop :=
  forall w, useFirebase (snd (m w)) = useFirebase w.

(** A computation that never turns [useFirebase] on. *)
Definition never_enables {A} (m : M A) : Prop :=
  forall w, useFirebase w = false -> useFirebase (snd (m w)) = false.

(** ** The process as a transition system

    What can happen to the facade in one process: its start-up
    initialization, the two connectivity events, every public method, and
    the three flows of the orchestrator.  Each may meet a different remote
    behaviour. *)

Inductive Call :=
  | CallInitializeFirebase
  | CallOnline
  | CallOffline
  | CallAddUser (user : User.t)
  | CallUpdateUser (user : User.t)
  | CallGetUser (email : string)
  | CallAuthenticateUser (email password : string)
  | CallGetComponents
  | CallUpdateComponent (component : Component.t)
  | CallAddComponent (component : Component.t)
  | CallAddRequest (request : BorrowRequest.t)
  | CallUpdateRequest (request : BorrowRequest.t)
  | CallGetRequests
  | CallGetUserRequests (userId : string)
  | CallAddNotification (notification : Notification.t)
  | CallGetUserNotifications (userId : string)
  | CallMarkNotificationAsRead (notificationId : string)
  | CallCreateLoginSession (user : User.t)
  | CallEndLoginSession (userId : string)
  | CallGetLoginSessions
  | CallGetActiveUsers
  | CallGetSystemStats
  | CallExportLoginSessionsCSV
  | CallGetData
  | CallSetUserPassword (email password : string)
  | CallGetConnectionStatus
  | CallRestoreSession
  | CallLogin (email password : string)
  | CallRegister (data : AuthContext.RegisterData)
  | CallLogout.

Definition void {A} (m : M A) : M unit := do _ <- m; ret tt.

Definition perform (fb : FirebaseService.t) (c : Call) : M unit :=
  match c with
  | CallInitializeFirebase => HybridDataService.initializeFirebase fb
  | CallOnline => HybridDataService.onOnline fb
  | CallOffline => HybridDataService.onOffline
  | CallAddUser user => void (HybridDataService.addUser fb user)
  | CallUpdateUser user => HybridDataService.updateUser fb user
  | CallGetUser email => void (HybridDataService.getUser fb email)
  | CallAuthenticateUser email password =>
      void (HybridDataService.authenticateUser fb email password)
  | CallGetComponents => void (HybridDataService.getComponents fb)
  | CallUpdateComponent component => HybridDataService.updateComponent fb component
  | CallAddComponent component => void (HybridDataService.addComponent fb component)
  | CallAddRequest request => void (HybridDataService.addRequest fb request)
  | CallUpdateRequest request => HybridDataService.updateRequest fb request
  | CallGetRequests => void (HybridDataService.getRequests fb)
  | CallGetUserRequests userId => void (HybridDataService.getUserRequests fb userId)
  | CallAddNotification notification =>
      void (HybridDataService.addNotification fb notification)
  | CallGetUserNotifications userId =>
      void (HybridDataService.getUserNotifications fb userId)
  | CallMarkNotificationAsRead notificationId =>
      HybridDataService.markNotificationAsRead fb notificationId
  | CallCreateLoginSession user => void (HybridDataService.createLoginSession fb user)
  | CallEndLoginSession userId => HybridDataService.endLoginSession fb userId
  | CallGetLoginSessions => void HybridDataService.getLoginSessions
  | CallGetActiveUsers => void HybridDataService.getActiveUsers
  | CallGetSystemStats => void HybridDataService.getSystemStats
  | CallExportLoginSessionsCSV => void HybridDataService.exportLoginSessionsCSV
  | CallGetData => void HybridDataService.getData
  | CallSetUserPassword email password =>
      HybridDataService.setUserPassword email password
  | CallGetConnectionStatus => void HybridDataService.getConnectionStatus
  | CallRestoreSession => AuthContext.restoreSession fb
  | CallLogin email password => void (AuthContext.login fb email password)
  | CallRegister data => void (AuthContext.register fb data)
  | CallLogout => AuthContext.logout fb
  end.

Inductive step : World -> World -> Prop :=
  | step_perform (fb : FirebaseService.t) (c : Call) (w : World) :
      step w (snd (perform fb c w)).

(** ** Sample worlds and remote behaviours *)

Definition sampleHost : Host :=
  mkHost (fun n => 1700000000000 + Z.of_nat n)
         (fun _ => "k3x9q2m1z")
         "Mozilla/5.0 (X11; Linux x86_64)"
         (fun t => "t" +:+ pretty t).

Definition emptyStorage : LocalStorage := mkLocalStorage Missing Missing None None.

(** A first run: nothing persisted yet. *)
Definition firstRun : World := mkWorld sampleHost emptyStorage 0%nat true true None.

(** The same, with the browser offline. *)
Definition firstRunOffline : World := with_isOnline false firstRun.

(** A remote side on which every call fails. *)
Definition unreachable : FirebaseService.t :=
  FirebaseService.mk
    (fun _ _ => Rejected) (fun _ _ => Rejected) Rejected
    (fun _ => Rejected) (fun _ => Rejected) (fun _ _ => Rejected) Rejected
    (fun _ => Rejected) (fun _ _ => Rejected) Rejected
    (fun _ => Rejected) (fun _ _ => Rejected) Rejected (fun _ => Rejected)
    (fun _ => Rejected) (fun _ => Rejected) Rejected (fun _ => Rejected)
    (fun _ => Rejected) (fun _ _ => Rejected) Rejected
    Rejected.

Definition remoteAda : User.t :=
  User.mk "fb-u1" "Ada" "ada@example.org" student (Some "R-17") (Some "555-0101")
          1690000000000 None 3 false.
Definition remotePart : Component.t :=
  Component.mk "fb-c1" "Servo Motor SG90" 30 30 "Actuator" "9g micro servo motor".
Definition remoteRequest : BorrowRequest.t :=
  BorrowRequest.mk "fb-r1" "fb-u1" "fb-c1" pending 1700500000000 1700000000000.
Definition remoteNote : Notification.t :=
  Notification.mk "fb-n1" "fb-u1" "Request received" "We got it." "info" false
                  1700000000000.
Definition remoteSession : LoginSession.t :=
  LoginSession.mk "fb-s1" "fb-u1" "ada@example.org" "Ada" student 1699999000000
                  None None "Unknown" "Mozilla/5.0" "Desktop" true.

(** A remote side that answers every call and holds one record of each
    kind. *)
Definition stocked : FirebaseService.t :=
  FirebaseService.mk
    (fun _ _ => Resolved (Some "uid-1")) (fun _ _ => Resolved (Some "uid-2"))
    (Resolved tt)
    (fun _ => Resolved "fb-u2") (fun _ => Resolved (Some remoteAda))
    (fun _ _ => Resolved tt) (Resolved [remoteAda])
    (fun _ => Resolved "fb-c2") (fun _ _ => Resolved tt) (Resolved [remotePart])
    (fun _ => Resolved "fb-r2") (fun _ _ => Resolved tt) (Resolved [remoteRequest])
    (fun _ => Resolved [remoteRequest])
    (fun _ => Resolved "fb-n2") (fun _ => Resolved [remoteNote])
    (Resolved [remoteNote]) (fun _ => Resolved tt)
    (fun _ => Resolved "fb-s2") (fun _ _ => Resolved tt) (Resolved [remoteSession])
    (Resolved tt).

(** The first run after the administrator has logged in locally. *)
Definition adminLoggedIn : World :=
  snd (DataService.authenticateUser adminEmail "ralab" firstRun).

Definition adminAfterLogin : User.t :=
  User.mk "admin-1" "Administrator" "admin@issacasimov.in" admin None None
          1700000000000 (Some 1700000000001) 1 true.




(** A registration form, and the offline first run after it went through. *)
Definition adaData : AuthContext.RegisterData :=
  AuthContext.mkRegisterData "Ada" "ada@example.org" "R-17" "555-0101" "s3cret".

Definition adaRegistered : World :=
  snd (AuthContext.register unreachable adaData firstRunOffline).

(** The record of that registration as the Local Store holds it. *)
Definition adaStored : User.t :=
  User.mk "user-1700000000001" "Ada" "ada@example.org" student (Some "R-17")
          (Some "555-0101") 1700000000002 (Some 1700000000003) 0 false.

(** A store that holds a user but no administrator record, and no
    credential map. *)
Definition noAdmin : World :=
  mkWorld sampleHost
    (mkLocalStorage (Parsed (mkSnapshot [remoteAda] [] [] [] (Some [])))
                    Missing None None)
    0%nat false true None.

(** The first run after the administrator's credential was set to the
    empty string. *)
Definition adminPasswordEmptied : World :=
  snd (DataService.setUserPassword adminEmail "" firstRun).

(** A store that holds one record of each kind. *)
Definition stockedStore : World :=
  mkWorld sampleHost
    (mkLocalStorage
       (Parsed (mkSnapshot [remoteAda] [remotePart] [remoteRequest] [remoteNote]
                           (Some [remoteSession])))
       Missing None None)
    0%nat true true None.

(** * Properties *)

(** ** Reading the store *)

Lemma run_pair {A} (m : M A) (w : World) (r : result A) :
  fst (m w) = r -> m w = (r, snd (m w)).
Proof. intros <-. now destruct (m w). Defined.

Lemma getData_run (w : World) :
  exists n, (tick w <= n)%nat /\
    DataService.getData w = (Val (currentData w), with_tick n w).
Proof.
  unfold DataService.getData, DataService.getDefaultData, currentData,
    bind, getStorage, now, ret.
  destruct w as [h ls t on fbf au]; simpl.
  destruct (isaacLabData ls); simpl; eauto with lia.
Qed.

Lemma findIndex_None {A} (P : A -> Prop) `{!forall x, Decision (P x)} (l : list A) :
  (forall x, x ∈ l -> ~ P x) -> findIndex P l = None.
Proof.
  intros Hno. unfold findIndex.
  assert (list_find P l = None) as ->; [| reflexivity].
  apply list_find_None, Forall_forall. exact Hno.
Qed.

(** ** Updates of unknown entities *)

Lemma updateUser_unknown (w : World) (user : User.t) :
  (forall u, u ∈ users (currentData w) -> User.id u <> User.id user) ->
  fst (DataService.updateUser user w) = Val tt /\
  storage (snd (DataService.updateUser user w)) = storage w.
Proof.
  intros H. destruct (getData_run w) as (n & _ & Hg).
  unfold DataService.updateUser, bind. rewrite Hg.
  rewrite findIndex_None by exact H. simpl. auto.
Qed.

Lemma updateComponent_unknown (w : World) (component : Component.t) :
  (forall c, c ∈ components (currentData w) -> Component.id c <> Component.id component) ->
  fst (DataService.updateComponent component w) = Val tt /\
  storage (snd (DataService.updateComponent component w)) = storage w.
Proof.
  intros H. destruct (getData_run w) as (n & _ & Hg).
  unfold DataService.updateComponent, bind. rewrite Hg.
  rewrite findIndex_None by exact H. simpl. auto.
Qed.

Lemma updateRequest_unknown (w : World) (request : BorrowRequest.t) :
  (forall r, r ∈ requests (currentData w) -> BorrowRequest.id r <> BorrowRequest.id request) ->
  fst (DataService.updateRequest request w) = Val tt /\
  storage (snd (DataService.updateRequest request w)) = storage w.
Proof.
  intros H. destruct (getData_run w) as (n & _ & Hg).
  unfold DataService.updateRequest, bind. rewrite Hg.
  rewrite findIndex_None by exact H. simpl. auto.
Qed.

(** C10.  The local update operations leave the persisted store as it is
    when the entity's id matches no stored entity of its type: for
    [updateUser], [updateComponent] and [updateRequest] the call returns
    normally and the storage afterwards is the storage before, so nothing
    was inserted, nothing was changed and nothing was saved. *)
Theorem update_of_unknown_id_changes_nothing (w : World) :
  (forall user,
     (forall u, u ∈ users (currentData w) -> User.id u <> User.id user) ->
     fst (DataService.updateUser user w) = Val tt /\
     storage (snd (DataService.updateUser user w)) = storage w) /\
  (forall component,
     (forall c, c ∈ components (currentData w) ->
                Component.id c <> Component.id component) ->
     fst (DataService.updateComponent component w) = Val tt /\
     storage (snd (DataService.updateComponent component w)) = storage w) /\
  (forall request,
     (forall r, r ∈ requests (currentData w) ->
                BorrowRequest.id r <> BorrowRequest.id request) ->
     fst (DataService.updateRequest request w) = Val tt /\
     storage (snd (DataService.updateRequest request w)) = storage w).
Proof.
  split; [| split].
  - intros user. apply updateUser_unknown.
  - intros component. apply updateComponent_unknown.
  - intros request. apply updateRequest_unknown.
Qed.

Lemma update_of_unknown_id_changes_nothing_witness :
  let ghost := User.mk "user-404" "Ghost" "ghost@example.org" student
                       None None 0 None 0 false in
  let part := Component.mk "comp-404" "Nothing" 1 1 "None" "none" in
  let req := BorrowRequest.mk "req-404" "user-404" "comp-404" pending 0 0 in
  storage (snd (DataService.updateUser ghost firstRun)) = storage firstRun /\
  storage (snd (DataService.updateComponent part firstRun)) = storage firstRun /\
  storage (snd (DataService.updateRequest req firstRun)) = storage firstRun.
Proof.
  intros ghost part req.
  destruct (update_of_unknown_id_changes_nothing firstRun) as (Hu & Hc & Hr).
  split; [| split].
  - apply (Hu ghost). intros u Hin.
    apply list_elem_of_singleton in Hin. subst u. discriminate.
  - apply (Hc part). intros c Hin.
    apply list_elem_of_singleton in Hin. subst c. discriminate.
  - apply (Hr req). intros r Hin. inversion Hin.
Defined.

(** ** Reads through the facade *)

Ltac run_facade :=
  unfold HybridDataService.or_local, HybridDataService.remoteReady,
    try_catch, bind, get, ret, await, throw in *.

Lemma or_local_not_ready {A} (ask : M (option A)) (local : M A) (w : World) :
  isOnline w && useFirebase w = false ->
  HybridDataService.or_local
    (do ready <- HybridDataService.remoteReady; if ready then ask else ret None)
    local w = local w.
Proof. intros Hoff. run_facade. now rewrite Hoff. Qed.

Lemma or_local_ready {A} (ask : M (option A)) (local : M A) (w : World) :
  isOnline w && useFirebase w = true ->
  HybridDataService.or_local
    (do ready <- HybridDataService.remoteReady; if ready then ask else ret None)
    local w
  = match ask w with
    | (Val (Some a), w') => (Val a, w')
    | (Val None, w') => local w'
    | (Exn, w') => local w'
    end.
Proof.
  intros Hon. run_facade. rewrite Hon.
  destruct (ask w) as [[[a|]|] w']; reflexivity.
Qed.

Lemma getUser_read (fb : FirebaseService.t) (w : World) (email : string) :
  (isOnline w && useFirebase w = false ->
   HybridDataService.getUser fb email w = DataService.getUser email w) /\
  (FirebaseService.getUserByEmail fb email = Rejected \/
   FirebaseService.getUserByEmail fb email = Resolved None ->
   HybridDataService.getUser fb email w = DataService.getUser email w) /\
  (forall u, isOnline w && useFirebase w = true ->
   FirebaseService.getUserByEmail fb email = Resolved (Some u) ->
   HybridDataService.getUser fb email w = (Val (Some u), w)).
Proof.
  unfold HybridDataService.getUser. split; [| split].
  - apply or_local_not_ready.
  - intros Hr. destruct (isOnline w && useFirebase w) eqn:Hon.
    + rewrite or_local_ready by exact Hon.
      unfold bind, await, ret, throw. destruct Hr as [-> | ->]; reflexivity.
    + now apply or_local_not_ready.
  - intros u Hon Hr. rewrite or_local_ready by exact Hon.
    unfold bind, await, ret. now rewrite Hr.
Qed.

(** The three list reads share one shape: the remote list is returned when
    it has an element. *)
Lemma list_read {A} (remote : outcome (list A)) (local : M (list A)) (w : World) :
  let facade :=
    HybridDataService.or_local
      (do ready <- HybridDataService.remoteReady;
       if ready then
         do l <- await remote; ret (HybridDataService.nonEmpty l)
       else ret None)
      local in
  (isOnline w && useFirebase w = false -> facade w = local w) /\
  (remote = Rejected \/ remote = Resolved [] -> facade w = local w) /\
  (forall l, isOnline w && useFirebase w = true ->
   remote = Resolved l -> l <> [] -> facade w = (Val l, w)).
Proof.
  intros facade. subst facade. split; [| split].
  - apply or_local_not_ready.
  - intros Hr. destruct (isOnline w && useFirebase w) eqn:Hon.
    + rewrite or_local_ready by exact Hon.
      unfold bind, await, ret, throw. destruct Hr as [-> | ->]; reflexivity.
    + now apply or_local_not_ready.
  - intros l Hon Hr Hne. rewrite or_local_ready by exact Hon.
    unfold bind, await, ret. rewrite Hr.
    destruct l; [congruence | reflexivity].
Qed.

(** C2.  Facade reads ([getUser], [getComponents], [getRequests],
    [getUserRequests], [getUserNotifications]).  When the remote read
    throws, or returns null (for [getUser]) or an empty list (for the list
    reads), the call returns what the Local Store returns; the same holds
    when the remote side is not consulted at all.  When the remote read is
    made and returns a user, or a list with an element, that result is
    returned as it is and the world is left untouched (no local read, no
    merge). *)
Theorem facade_reads_fall_back_to_local
    (fb : FirebaseService.t) (w : World) (email userId : string) :
  ((isOnline w && useFirebase w = false ->
    HybridDataService.getUser fb email w = DataService.getUser email w) /\
   (FirebaseService.getUserByEmail fb email = Rejected \/
    FirebaseService.getUserByEmail fb email = Resolved None ->
    HybridDataService.getUser fb email w = DataService.getUser email w) /\
   (forall u, isOnline w && useFirebase w = true ->
    FirebaseService.getUserByEmail fb email = Resolved (Some u) ->
    HybridDataService.getUser fb email w = (Val (Some u), w))) /\
  ((isOnline w && useFirebase w = false ->
    HybridDataService.getComponents fb w = DataService.getComponents w) /\
   (FirebaseService.getAllComponents fb = Rejected \/
    FirebaseService.getAllComponents fb = Resolved [] ->
    HybridDataService.getComponents fb w = DataService.getComponents w) /\
   (forall l, isOnline w && useFirebase w = true ->
    FirebaseService.getAllComponents fb = Resolved l -> l <> [] ->
    HybridDataService.getComponents fb w = (Val l, w))) /\
  ((isOnline w && useFirebase w = false ->
    HybridDataService.getRequests fb w = DataService.getRequests w) /\
   (FirebaseService.getAllRequests fb = Rejected \/
    FirebaseService.getAllRequests fb = Resolved [] ->
    HybridDataService.getRequests fb w = DataService.getRequests w) /\
   (forall l, isOnline w && useFirebase w = true ->
    FirebaseService.getAllRequests fb = Resolved l -> l <> [] ->
    HybridDataService.getRequests fb w = (Val l, w))) /\
  ((isOnline w && useFirebase w = false ->
    HybridDataService.getUserRequests fb userId w
    = DataService.getUserRequests userId w) /\
   (FirebaseService.getUserRequests fb userId = Rejected \/
    FirebaseService.getUserRequests fb userId = Resolved [] ->
    HybridDataService.getUserRequests fb userId w
    = DataService.getUserRequests userId w) /\
   (forall l, isOnline w && useFirebase w = true ->
    FirebaseService.getUserRequests fb userId = Resolved l -> l <> [] ->
    HybridDataService.getUserRequests fb userId w = (Val l, w))) /\
  ((isOnline w && useFirebase w = false ->
    HybridDataService.getUserNotifications fb userId w
    = DataService.getUserNotifications userId w) /\
   (FirebaseService.getUserNotifications fb userId = Rejected \/
    FirebaseService.getUserNotifications fb userId = Resolved [] ->
    HybridDataService.getUserNotifications fb userId w
    = DataService.getUserNotifications userId w) /\
   (forall l, isOnline w && useFirebase w = true ->
    FirebaseService.getUserNotifications fb userId = Resolved l -> l <> [] ->
    HybridDataService.getUserNotifications fb userId w = (Val l, w))).
Proof.
  split; [apply getUser_read |].
  split; [apply (list_read (FirebaseService.getAllComponents fb)) |].
  split; [apply (list_read (FirebaseService.getAllRequests fb)) |].
  split; [apply (list_read (FirebaseService.getUserRequests fb userId)) |].
  apply (list_read (FirebaseService.getUserNotifications fb userId)).
Qed.

Lemma facade_reads_fall_back_to_local_witness :
  (HybridDataService.getUser stocked "ada@example.org" firstRunOffline
   = DataService.getUser "ada@example.org" firstRunOffline /\
   HybridDataService.getUser unreachable "ada@example.org" firstRun
   = DataService.getUser "ada@example.org" firstRun /\
   HybridDataService.getUser stocked "ada@example.org" firstRun
   = (Val (Some remoteAda), firstRun)) /\
  (HybridDataService.getComponents stocked firstRunOffline
   = DataService.getComponents firstRunOffline /\
   HybridDataService.getComponents unreachable firstRun
   = DataService.getComponents firstRun /\
   HybridDataService.getComponents stocked firstRun = (Val [remotePart], firstRun)) /\
  (HybridDataService.getRequests stocked firstRunOffline
   = DataService.getRequests firstRunOffline /\
   HybridDataService.getRequests unreachable firstRun
   = DataService.getRequests firstRun /\
   HybridDataService.getRequests stocked firstRun = (Val [remoteRequest], firstRun)) /\
  (HybridDataService.getUserRequests stocked "fb-u1" firstRunOffline
   = DataService.getUserRequests "fb-u1" firstRunOffline /\
   HybridDataService.getUserRequests unreachable "fb-u1" firstRun
   = DataService.getUserRequests "fb-u1" firstRun /\
   HybridDataService.getUserRequests stocked "fb-u1" firstRun
   = (Val [remoteRequest], firstRun)) /\
  (HybridDataService.getUserNotifications stocked "fb-u1" firstRunOffline
   = DataService.getUserNotifications "fb-u1" firstRunOffline /\
   HybridDataService.getUserNotifications unreachable "fb-u1" firstRun
   = DataService.getUserNotifications "fb-u1" firstRun /\
   HybridDataService.getUserNotifications stocked "fb-u1" firstRun
   = (Val [remoteNote], firstRun)).
Proof.
  destruct (facade_reads_fall_back_to_local stocked firstRunOffline
              "ada@example.org" "fb-u1")
    as ((U1 & _) & (C1 & _) & (R1 & _) & (Q1 & _) & (N1 & _)).
  destruct (facade_reads_fall_back_to_local unreachable firstRun
              "ada@example.org" "fb-u1")
    as ((_ & U2 & _) & (_ & C2 & _) & (_ & R2 & _) & (_ & Q2 & _) & (_ & N2 & _)).
  destruct (facade_reads_fall_back_to_local stocked firstRun
              "ada@example.org" "fb-u1")
    as ((_ & _ & U3) & (_ & _ & C3) & (_ & _ & R3) & (_ & _ & Q3) & (_ & _ & N3)).
  refine (conj (conj _ (conj _ _)) (conj (conj _ (conj _ _))
            (conj (conj _ (conj _ _)) (conj (conj _ (conj _ _))
            (conj _ (conj _ _)))))).
  - apply U1; reflexivity.
  - apply U2; left; reflexivity.
  - apply U3; reflexivity.
  - apply C1; reflexivity.
  - apply C2; left; reflexivity.
  - apply C3; [reflexivity | reflexivity | discriminate].
  - apply R1; reflexivity.
  - apply R2; left; reflexivity.
  - apply R3; [reflexivity | reflexivity | discriminate].
  - apply Q1; reflexivity.
  - apply Q2; left; reflexivity.
  - apply Q3; [reflexivity | reflexivity | discriminate].
  - apply N1; reflexivity.
  - apply N2; left; reflexivity.
  - apply N3; [reflexivity | reflexivity | discriminate].
Defined.

(** ** Computations that cannot throw *)

Lemma total_ret {A} (a : A) : total (ret a).
Proof. intros w. reflexivity. Qed.

Lemma total_bind {A B} (m : M A) (k : A -> M B) :
  total m -> (forall a, total (k a)) -> total (bind m k).
Proof.
  intros Hm Hk w. unfold bind. specialize (Hm w).
  destruct (m w) as [[a|] w']; simpl in *; [apply Hk | discriminate].
Qed.

Lemma total_try_catch {A} (body handler : M A) :
  total handler -> total (try_catch body handler).
Proof.
  intros Hh w. unfold try_catch.
  destruct (body w) as [[a|] w']; simpl; [reflexivity | apply Hh].
Qed.

Lemma total_get : total get.
Proof. intros w. reflexivity. Qed.

Lemma total_modify (f : World -> World) : total (modify f).
Proof. intros w. reflexivity. Qed.

Lemma total_now : total now.
Proof. intros w. reflexivity. Qed.

Lemma total_getStorage : total getStorage.
Proof. intros w. reflexivity. Qed.

Lemma total_setStorage (ls : LocalStorage) : total (setStorage ls).
Proof. intros w. reflexivity. Qed.

Lemma total_run {A} (m : M A) (w : World) :
  total m -> exists a w', m w = (Val a, w').
Proof.
  intros Hm. specialize (Hm w).
  destruct (m w) as [[a|] w']; simpl in *; [eauto | discriminate].
Qed.

Create HintDb total discriminated.
#[export] Hint Resolve total_ret total_get total_modify total_now
  total_getStorage total_setStorage : total.

(** Breaks a computation built from [bind], [ret], [try_catch] and case
    distinctions on data into its primitive steps. *)
Ltac total_step :=
  match goal with
  | |- total (bind _ _) => apply total_bind; [| intros ?]
  | |- total (try_catch _ _) => apply total_try_catch
  | |- total (match ?x with _ => _ end) => destruct x
  | |- total (if ?b then _ else _) => destruct b
  | |- total (let _ := _ in _) => cbv zeta
  | |- total _ => solve [auto with total]
  end.
Ltac prove_total := repeat total_step.

Lemma total_getData : total DataService.getData.
Proof. unfold DataService.getData, DataService.getDefaultData. prove_total. Qed.

Lemma total_saveData (data : SystemData) : total (DataService.saveData data).
Proof. unfold DataService.saveData. prove_total. Qed.

Lemma total_getUserPasswords : total DataService.getUserPasswords.
Proof. unfold DataService.getUserPasswords. prove_total. Qed.

#[export] Hint Resolve total_getData total_saveData total_getUserPasswords : total.

Lemma total_setUserPassword (email password : string) :
  total (DataService.setUserPassword email password).
Proof. unfold DataService.setUserPassword. prove_total. Qed.

Lemma total_verifyPassword (email password : string) :
  total (DataService.verifyPassword email password).
Proof. unfold DataService.verifyPassword. prove_total. Qed.

Lemma total_addUser (user : User.t) : total (DataService.addUser user).
Proof. unfold DataService.addUser. prove_total. Qed.

Lemma total_updateUser (user : User.t) : total (DataService.updateUser user).
Proof. unfold DataService.updateUser. prove_total. Qed.

Lemma total_getUser (email : string) : total (DataService.getUser email).
Proof. unfold DataService.getUser. prove_total. Qed.

Lemma total_getDeviceInfo : total DataService.getDeviceInfo.
Proof. unfold DataService.getDeviceInfo. prove_total. Qed.

#[export] Hint Resolve total_setUserPassword total_verifyPassword total_addUser
  total_updateUser total_getUser total_getDeviceInfo : total.

Lemma total_createLoginSession (user : User.t) :
  total (DataService.createLoginSession user).
Proof. unfold DataService.createLoginSession. prove_total. Qed.

Lemma total_closeSessions (userId : string) (sessions : list LoginSession.t) :
  total (DataService.closeSessions userId sessions).
Proof.
  induction sessions as [| s rest IH]; simpl; [apply total_ret |].
  destruct (bool_decide (LoginSession.userId s = userId) && LoginSession.isActive s);
    prove_total; exact IH.
Qed.

#[export] Hint Resolve total_createLoginSession total_closeSessions : total.

Lemma total_endLoginSession (userId : string) :
  total (DataService.endLoginSession userId).
Proof. unfold DataService.endLoginSession. prove_total. Qed.

Lemma total_addComponent (c : Component.t) : total (DataService.addComponent c).
Proof. unfold DataService.addComponent. prove_total. Qed.

Lemma total_updateComponent (c : Component.t) : total (DataService.updateComponent c).
Proof. unfold DataService.updateComponent. prove_total. Qed.

Lemma total_addRequest (r : BorrowRequest.t) : total (DataService.addRequest r).
Proof. unfold DataService.addRequest. prove_total. Qed.

Lemma total_updateRequest (r : BorrowRequest.t) : total (DataService.updateRequest r).
Proof. unfold DataService.updateRequest. prove_total. Qed.

Lemma total_addNotification (n : Notification.t) : total (DataService.addNotification n).
Proof. unfold DataService.addNotification. prove_total. Qed.

Lemma total_markNotificationAsRead (notificationId : string) :
  total (DataService.markNotificationAsRead notificationId).
Proof. unfold DataService.markNotificationAsRead. prove_total. Qed.

Lemma total_recordLogin (user : option User.t) : total (DataService.recordLogin user).
Proof. unfold DataService.recordLogin. prove_total. Qed.

#[export] Hint Resolve total_endLoginSession total_addComponent total_updateComponent
  total_addRequest total_updateRequest total_addNotification
  total_markNotificationAsRead total_recordLogin : total.

Lemma total_authenticateUser (email password : string) :
  total (DataService.authenticateUser email password).
Proof. unfold DataService.authenticateUser. prove_total. Qed.

#[export] Hint Resolve total_authenticateUser : total.

(** ** Writes through the facade *)

Lemma with_tick_same (w : World) : with_tick (tick w) w = w.
Proof. now destruct w. Qed.

Lemma applied_as_same {A} (facade local : M A) (w : World) :
  total local -> facade w = local w -> applied_as facade local w.
Proof.
  intros Ht He. split.
  - rewrite He. apply Ht.
  - exists (tick w). split; [lia |]. now rewrite with_tick_same, He.
Qed.

(** Updates: [try { if (ready) await remote; local } catch { local }]. *)
Lemma write_through {B} (remote : outcome unit) (local : M B) (w : World) :
  total local ->
  try_catch
    (do ready <- HybridDataService.remoteReady;
     run (if ready then await remote else ret tt);
     local)
    local w
  = local w.
Proof.
  intros Ht. destruct (total_run local w Ht) as (b & w' & Hl).
  run_facade. destruct (isOnline w && useFirebase w); simpl.
  - destruct remote; simpl; rewrite Hl; reflexivity.
  - rewrite Hl; reflexivity.
Qed.

(** Creations: the remote id, when there is one, replaces the entity's id
    before the local write; a rejection leaves the entity as it was. *)
Lemma create_through {E B} (remote : outcome string) (set_id : string -> E -> E)
    (x : E) (local : E -> M B) (w : World) :
  (forall e, total (local e)) ->
  exists x', (x' = x \/ exists firebaseId, x' = set_id firebaseId x) /\
    try_catch
      (do ready <- HybridDataService.remoteReady;
       do e <- (if ready then
                  do firebaseId <- await remote; ret (set_id firebaseId x)
                else ret x);
       local e)
      (local x) w
    = local x' w.
Proof.
  intros Ht. run_facade. destruct (isOnline w && useFirebase w); simpl.
  - destruct remote as [firebaseId |]; simpl.
    + exists (set_id firebaseId x). split; [right; eauto |].
      destruct (total_run (local (set_id firebaseId x)) w (Ht _)) as (b & w' & ->).
      reflexivity.
    + exists x. split; [left; reflexivity | reflexivity].
  - exists x. split; [left; reflexivity |].
    destruct (total_run (local x) w (Ht _)) as (b & w' & ->). reflexivity.
Qed.

Lemma closeRemoteSessions_run (fb : FirebaseService.t)
    (userSessions : list LoginSession.t) (w : World) :
  exists n r, (tick w <= n)%nat /\
    HybridDataService.closeRemoteSessions fb userSessions w = (r, with_tick n w).
Proof.
  revert w. induction userSessions as [| s rest IH]; intros w; simpl.
  - exists (tick w), (Val tt). split; [lia |]. now rewrite with_tick_same.
  - destruct w as [h ls t on flag au].
    unfold bind, now, await, ret, throw. simpl.
    destruct (FirebaseService.updateLoginSession fb _ _) as [[] |]; simpl.
    + match goal with
      | |- context [HybridDataService.closeRemoteSessions fb rest ?w1] =>
          destruct (IH w1) as (n & r & Hn & ->)
      end.
      simpl in Hn. exists n, r. split; [lia | reflexivity].
    + exists (S (S t)), Exn. split; [lia | reflexivity].
Qed.

Lemma addUser_through (fb : FirebaseService.t) (user : User.t) (w : World) :
  exists user', (user' = user \/ exists firebaseId, user' = User.set_id firebaseId user) /\
    HybridDataService.addUser fb user w = DataService.addUser user' w.
Proof.
  apply (create_through (FirebaseService.createUser fb user) User.set_id user
           DataService.addUser w).
  auto with total.
Qed.

Lemma endLoginSession_through (fb : FirebaseService.t) (userId : string) (w : World) :
  exists n, (tick w <= n)%nat /\
    HybridDataService.endLoginSession fb userId w
    = DataService.endLoginSession userId (with_tick n w).
Proof.
  unfold HybridDataService.endLoginSession.
  run_facade. destruct (isOnline w && useFirebase w); simpl.
  - destruct (FirebaseService.getAllLoginSessions fb) as [sessions |]; simpl.
    + destruct (closeRemoteSessions_run fb
                  (filter (fun s => LoginSession.userId s = userId
                                    /\ LoginSession.isActive s = true) sessions) w)
        as (n & r & Hn & ->).
      exists n. split; [exact Hn |].
      destruct (total_run (DataService.endLoginSession userId) (with_tick n w)
                  (total_endLoginSession userId)) as (b & w' & Hl).
      destruct r as [[] |]; [rewrite Hl |]; reflexivity.
    + exists (tick w). split; [lia |]. now rewrite with_tick_same.
  - exists (tick w). split; [lia |]. rewrite with_tick_same.
    destruct (total_run (DataService.endLoginSession userId) w
                (total_endLoginSession userId)) as (b & w' & ->).
    reflexivity.
Qed.

Lemma createLoginSession_through (fb : FirebaseService.t) (user : User.t) (w : World) :
  exists session session' w',
    DataService.createLoginSession user w = (Val session, w') /\
    HybridDataService.createLoginSession fb user w = (Val session', w') /\
    (session' = session \/
     exists firebaseId, session' = LoginSession.set_id firebaseId session).
Proof.
  destruct (total_run (DataService.createLoginSession user) w
              (total_createLoginSession user)) as (session & w' & Hl).
  unfold HybridDataService.createLoginSession. unfold bind at 1. rewrite Hl.
  run_facade. destruct (isOnline w' && useFirebase w'); simpl.
  - destruct (FirebaseService.createLoginSession fb session) as [firebaseId |]; simpl.
    + exists session, (LoginSession.set_id firebaseId session), w'. eauto.
    + exists session, session, w'. eauto.
  - exists session, session, w'. eauto.
Qed.

Lemma then_ret_applied {A B} (facade : M B) (local : M A) (b : B) (w : World) :
  total local ->
  facade w = (run local; ret b) w ->
  applied_as facade local w.
Proof.
  intros Ht He. destruct (total_run local w Ht) as (a & w' & Hl).
  unfold bind, ret in He. rewrite Hl in He. split.
  - now rewrite He.
  - exists (tick w). split; [lia |]. now rewrite with_tick_same, He, Hl.
Qed.

(** The ten facade writes, each against the Local Store operation of the
    same name. *)
Lemma facade_writes_are_local_writes (fb : FirebaseService.t) (w : World) :
  (forall user, exists user',
     (user' = user \/ exists firebaseId, user' = User.set_id firebaseId user) /\
     applied_as (HybridDataService.addUser fb user) (DataService.addUser user') w) /\
  (forall user,
     applied_as (HybridDataService.updateUser fb user) (DataService.updateUser user) w) /\
  (forall component, exists component',
     (component' = component \/
      exists firebaseId, component' = Component.set_id firebaseId component) /\
     applied_as (HybridDataService.addComponent fb component)
                (DataService.addComponent component') w) /\
  (forall component,
     applied_as (HybridDataService.updateComponent fb component)
                (DataService.updateComponent component) w) /\
  (forall request, exists request',
     (request' = request \/
      exists firebaseId, request' = BorrowRequest.set_id firebaseId request) /\
     applied_as (HybridDataService.addRequest fb request)
                (DataService.addRequest request') w) /\
  (forall request,
     applied_as (HybridDataService.updateRequest fb request)
                (DataService.updateRequest request) w) /\
  (forall notification, exists notification',
     (notification' = notification \/
      exists firebaseId, notification' = Notification.set_id firebaseId notification) /\
     applied_as (HybridDataService.addNotification fb notification)
                (DataService.addNotification notification') w) /\
  (forall notificationId,
     applied_as (HybridDataService.markNotificationAsRead fb notificationId)
                (DataService.markNotificationAsRead notificationId) w) /\
  (forall user,
     applied_as (HybridDataService.createLoginSession fb user)
                (DataService.createLoginSession user) w) /\
  (forall userId,
     applied_as (HybridDataService.endLoginSession fb userId)
                (DataService.endLoginSession userId) w).
Proof.
  repeat apply conj.
  - intros user. destruct (addUser_through fb user w) as (user' & Hid & He).
    exists user'. split; [exact Hid |].
    apply applied_as_same; [apply total_addUser | exact He].
  - intros user. apply applied_as_same; [apply total_updateUser |].
    apply write_through, total_updateUser.
  - intros component.
    destruct (create_through (FirebaseService.createComponent fb component)
                Component.set_id component
                (fun c => run DataService.addComponent c; ret c) w)
      as (component' & Hid & He); [intros e; prove_total |].
    exists component'. split; [exact Hid |].
    eapply then_ret_applied; [apply total_addComponent | exact He].
  - intros component. apply applied_as_same; [apply total_updateComponent |].
    apply write_through, total_updateComponent.
  - intros request.
    destruct (create_through (FirebaseService.createRequest fb request)
                BorrowRequest.set_id request
                (fun r => run DataService.addRequest r; ret r) w)
      as (request' & Hid & He); [intros e; prove_total |].
    exists request'. split; [exact Hid |].
    eapply then_ret_applied; [apply total_addRequest | exact He].
  - intros request. apply applied_as_same; [apply total_updateRequest |].
    apply write_through, total_updateRequest.
  - intros notification.
    destruct (create_through (FirebaseService.createNotification fb notification)
                Notification.set_id notification
                (fun n => run DataService.addNotification n; ret n) w)
      as (notification' & Hid & He); [intros e; prove_total |].
    exists notification'. split; [exact Hid |].
    eapply then_ret_applied; [apply total_addNotification | exact He].
  - intros notificationId.
    apply applied_as_same; [apply total_markNotificationAsRead |].
    apply write_through, total_markNotificationAsRead.
  - intros user.
    destruct (createLoginSession_through fb user w)
      as (session & session' & w' & Hl & Hf & _).
    split; [now rewrite Hf |].
    exists (tick w). split; [lia |]. now rewrite with_tick_same, Hf, Hl.
  - intros userId. destruct (endLoginSession_through fb userId w) as (n & Hn & He).
    split.
    + rewrite He. apply total_endLoginSession.
    + exists n. split; [exact Hn |]. now rewrite He.
Qed.

(** ** Local Store operations, step by step *)

Lemma getData_eq (w : World) :
  DataService.getData w = (Val (currentData w), afterRead w).
Proof.
  unfold DataService.getData, DataService.getDefaultData, currentData, afterRead,
    bind, getStorage, now, ret.
  destruct (isaacLabData (storage w)); reflexivity.
Qed.

Lemma saveData_eq (data : SystemData) (w : World) :
  DataService.saveData data w = (Val tt, persist data w).
Proof. reflexivity. Qed.

Lemma getUserPasswords_eq (w : World) :
  DataService.getUserPasswords w = (Val (credentials (storage w)), w).
Proof.
  unfold DataService.getUserPasswords, credentials, bind, getStorage, ret.
  destruct (isaacLabPasswords (storage w)); reflexivity.
Qed.

Lemma setUserPassword_eq (email password : string) (w : World) :
  DataService.setUserPassword email password w
  = (Val tt,
     with_storage
       (set_isaacLabPasswords
          (Parsed (<[email := password]> (credentials (storage w)))) (storage w))
       w).
Proof.
  unfold DataService.setUserPassword, bind. rewrite getUserPasswords_eq. reflexivity.
Qed.

Lemma verifyPassword_eq (email password : string) (w : World) :
  DataService.verifyPassword email password w
  = (Val (bool_decide (credentials (storage w) !! email = Some password)), w).
Proof.
  unfold DataService.verifyPassword, bind. rewrite getUserPasswords_eq. reflexivity.
Qed.

Lemma getUser_eq (email : string) (w : World) :
  DataService.getUser email w
  = (Val (find (fun user => User.email user = email) (users (currentData w))),
     afterRead w).
Proof. unfold DataService.getUser, bind. rewrite getData_eq. reflexivity. Qed.

Lemma addUser_eq (user : User.t) (w : World) :
  let stored := User.set_isActive false (User.set_loginCount 0 user) in
  let data := currentData w in
  DataService.addUser user w
  = (Val stored,
     persist (mkSystemData (users data ++ [stored]) (components data)
                (requests data) (notifications data) (loginSessions data))
             (afterRead w)).
Proof. unfold DataService.addUser, bind. rewrite getData_eq. reflexivity. Qed.

Lemma updateUser_eq (user : User.t) (w : World) :
  let data := currentData w in
  DataService.updateUser user w
  = (Val tt,
     match findIndex (fun u => User.id u = User.id user) (users data) with
     | Some index =>
         persist (mkSystemData (<[index := user]> (users data)) (components data)
                    (requests data) (notifications data) (loginSessions data))
                 (afterRead w)
     | None => afterRead w
     end).
Proof.
  unfold DataService.updateUser, bind. rewrite getData_eq. simpl.
  destruct (findIndex _ _); reflexivity.
Qed.

Lemma createLoginSession_eq (user : User.t) (w : World) :
  let issued := with_tick (S (S (tick w))) w in
  let data := currentData issued in
  DataService.createLoginSession user w
  = (Val (newSession user w),
     persist (mkSystemData (users data) (components data) (requests data)
                (notifications data) (loginSessions data ++ [newSession user w]))
             (afterRead issued)).
Proof.
  unfold DataService.createLoginSession, DataService.getDeviceInfo, newSession.
  unfold bind at 1. unfold now at 1. simpl.
  unfold bind at 1. unfold get at 1. simpl.
  unfold bind at 1. unfold now at 1. simpl.
  unfold bind at 1. unfold bind at 1. unfold get at 1. simpl.
  destruct (includes "Mobile" (navigatorUserAgent (host w)));
    [| destruct (includes "Tablet" (navigatorUserAgent (host w)))];
    unfold ret at 1; simpl; unfold bind; rewrite getData_eq; reflexivity.
Qed.

(** ** Worlds after reads and saves *)

Lemma storage_afterRead (w : World) : storage (afterRead w) = storage w.
Proof. unfold afterRead. destruct (isaacLabData (storage w)); reflexivity. Qed.

Lemma host_afterRead (w : World) : host (afterRead w) = host w.
Proof. unfold afterRead. destruct (isaacLabData (storage w)); reflexivity. Qed.

Lemma sessions_currentData (w : World) :
  loginSessions (currentData w) = storedSessions (storage w).
Proof.
  unfold currentData, storedSessions.
  destruct (isaacLabData (storage w)); reflexivity.
Qed.

Lemma currentData_persist (data : SystemData) (w : World) :
  currentData (persist data w) = data.
Proof. now destruct data. Qed.

Lemma sessions_persist (data : SystemData) (w : World) :
  storedSessions (storage (persist data w)) = loginSessions data.
Proof. reflexivity. Qed.

Lemma passwords_persist (data : SystemData) (w : World) :
  isaacLabPasswords (storage (persist data w)) = isaacLabPasswords (storage w).
Proof. reflexivity. Qed.

(** ** Closing sessions *)

Lemma closeSessions_run (userId : string) (sessions : list LoginSession.t) (w : World) :
  exists closed n, (tick w <= n)%nat /\
    DataService.closeSessions userId sessions w = (Val closed, with_tick n w) /\
    Forall2 (closed_at (host w) userId) sessions closed.
Proof.
  revert w. induction sessions as [| s rest IH]; intros w; simpl.
  - exists [], (tick w). rewrite with_tick_same. repeat split; [lia | constructor].
  - destruct (bool_decide (LoginSession.userId s = userId) && LoginSession.isActive s)
      eqn:Ht.
    + destruct w as [h ls t on flag au].
      unfold bind, now, ret. simpl.
      match goal with
      | |- context [DataService.closeSessions userId rest ?w1] =>
          destruct (IH w1) as (closed & n & Hn & -> & Hall)
      end.
      simpl in *.
      exists (LoginSession.close (clock h t)
                (clock h (S t) - LoginSession.loginTime s) s :: closed), n.
      repeat split; [lia |].
      constructor; [| exact Hall].
      unfold closed_at, targets. rewrite Ht. exists t. reflexivity.
    + unfold bind, ret.
      destruct (IH w) as (closed & n & Hn & -> & Hall).
      exists (s :: closed), n. repeat split; [exact Hn |].
      constructor; [| exact Hall].
      unfold closed_at, targets. now rewrite Ht.
Qed.

Lemma endLoginSession_run (userId : string) (w : World) :
  exists w',
    DataService.endLoginSession userId w = (Val tt, w') /\
    host w' = host w /\
    isaacLabPasswords (storage w') = isaacLabPasswords (storage w) /\
    (exists s, isaacLabData (storage w') = Parsed s) /\
    Forall2 (closed_at (host w) userId)
      (storedSessions (storage w)) (storedSessions (storage w')).
Proof.
  unfold DataService.endLoginSession, bind. rewrite getData_eq.
  destruct (closeSessions_run userId (loginSessions (currentData w)) (afterRead w))
    as (closed & n & Hn & -> & Hall).
  rewrite saveData_eq. eexists. split; [reflexivity |].
  rewrite host_afterRead, sessions_currentData in Hall.
  repeat split.
  - simpl. apply host_afterRead.
  - simpl. now rewrite storage_afterRead.
  - simpl. eauto.
  - exact Hall.
Qed.




(** ** Logging in *)

Lemma sessions_afterRead (w : World) :
  storedSessions (storage (afterRead w)) = storedSessions (storage w).
Proof. now rewrite storage_afterRead. Qed.

Lemma sessions_updateUser (user : User.t) (w : World) :
  storedSessions (storage (snd (DataService.updateUser user w)))
  = storedSessions (storage w).
Proof.
  rewrite updateUser_eq. simpl.
  destruct (findIndex _ _); simpl.
  - apply sessions_currentData.
  - apply sessions_afterRead.
Qed.

Lemma passwords_updateUser (user : User.t) (w : World) :
  isaacLabPasswords (storage (snd (DataService.updateUser user w)))
  = isaacLabPasswords (storage w).
Proof.
  rewrite updateUser_eq. simpl.
  destruct (findIndex _ _); simpl; now rewrite storage_afterRead.
Qed.

Lemma recordLogin_run (user : User.t) (w : World) :
  exists user' session w',
    DataService.recordLogin (Some user) w = (Val (Some user'), w') /\
    User.id user' = User.id user /\
    User.email user' = User.email user /\
    User.role user' = User.role user /\
    storedSessions (storage w') = (storedSessions (storage w) ++ [session])%list /\
    LoginSession.isActive session = true /\
    LoginSession.logoutTime session = None /\
    LoginSession.userId session = User.id user' /\
    isaacLabPasswords (storage w') = isaacLabPasswords (storage w).
Proof.
  unfold DataService.recordLogin. unfold bind at 1. unfold now at 1. simpl.
  set (user' := User.set_isActive true _).
  set (w0 := with_tick (S (tick w)) w).
  unfold bind at 1.
  pose proof (sessions_updateUser user' w0) as Hs.
  pose proof (passwords_updateUser user' w0) as Hp.
  pose proof (updateUser_eq user' w0) as Hu. simpl in Hu.
  destruct (DataService.updateUser user' w0) as [r w1]. simpl in Hs, Hp.
  injection Hu as -> _.
  unfold bind. rewrite createLoginSession_eq. simpl.
  exists user', (newSession user' w1). eexists. split; [reflexivity |].
  repeat split.
  - simpl. rewrite sessions_currentData. simpl. now rewrite Hs.
  - simpl. rewrite storage_afterRead. simpl. exact Hp.
Qed.

Lemma find_Some {A} (P : A -> Prop) `{!forall x, Decision (P x)} (l : list A) (x : A) :
  find P l = Some x -> x ∈ l /\ P x.
Proof.
  unfold find. destruct (list_find P l) as [[i y] |] eqn:Hf; simpl; [| discriminate].
  intros [= ->]. apply list_find_Some in Hf as (Hl & HP & _).
  split; [eapply list_elem_of_lookup_2; eauto | exact HP].
Qed.




(** ** CSV export *)

Lemma count_char_app (c : ascii) (s1 s2 : string) :
  count_char c (s1 +:+ s2) = (count_char c s1 + count_char c s2)%nat.
Proof.
  induction s1 as [| a s1 IH]; simpl; [reflexivity |].
  rewrite IH. destruct (bool_decide (a = c)); reflexivity.
Qed.




Lemma exportLoginSessionsCSV_eq (w : World) :
  DataService.exportLoginSessionsCSV w
  = (Val (String.concat newline
            (map DataService.csvLine
               (DataService.headers
                  :: map (DataService.sessionRow (host w))
                         (storedSessions (storage w))))),
     afterRead w).
Proof.
  unfold DataService.exportLoginSessionsCSV, DataService.getLoginSessions.
  unfold bind. rewrite getData_eq. unfold ret, get. simpl.
  now rewrite host_afterRead, sessions_currentData.
Qed.



(** ** The [useFirebase] flag *)

Lemma keeps_ret {A} (a : A) : keeps_flag (ret a).
Proof. intros w. reflexivity. Qed.

Lemma keeps_bind {A B} (m : M A) (k : A -> M B) :
  keeps_flag m -> (forall a, keeps_flag (k a)) -> keeps_flag (bind m k).
Proof.
  intros Hm Hk w. unfold bind. specialize (Hm w).
  destruct (m w) as [[a|] w']; simpl in *; [| exact Hm].
  now rewrite Hk.
Qed.

Lemma keeps_try_catch {A} (body handler : M A) :
  keeps_flag body -> keeps_flag handler -> keeps_flag (try_catch body handler).
Proof.
  intros Hb Hh w. unfold try_catch. specialize (Hb w).
  destruct (body w) as [[a|] w']; simpl in *; [exact Hb |].
  now rewrite Hh.
Qed.

Lemma keeps_throw {A} : keeps_flag (@throw A).
Proof. intros w. reflexivity. Qed.

Lemma keeps_await {A} (o : outcome A) : keeps_flag (await o).
Proof. intros w. destruct o; reflexivity. Qed.

Lemma keeps_get : keeps_flag get.
Proof. intros w. reflexivity. Qed.

Lemma keeps_now : keeps_flag now.
Proof. intros w. reflexivity. Qed.

Lemma keeps_getStorage : keeps_flag getStorage.
Proof. intros w. reflexivity. Qed.

Lemma keeps_setStorage (ls : LocalStorage) : keeps_flag (setStorage ls).
Proof. intros w. reflexivity. Qed.

Lemma keeps_setOnline : keeps_flag HybridDataService.setOnline.
Proof. intros w. reflexivity. Qed.

Lemma keeps_setOffline : keeps_flag HybridDataService.setOffline.
Proof. intros w. reflexivity. Qed.

Lemma keeps_setUser (u : option User.t) : keeps_flag (AuthContext.setUser u).
Proof. intros w. reflexivity. Qed.

Create HintDb keeps discriminated.
#[export] Hint Resolve keeps_ret keeps_throw keeps_await keeps_get keeps_now
  keeps_getStorage keeps_setStorage keeps_setOnline keeps_setOffline
  keeps_setUser : keeps.

Ltac keeps_step :=
  match goal with
  | |- keeps_flag (bind _ _) => apply keeps_bind; [| intros ?]
  | |- keeps_flag (try_catch _ _) => apply keeps_try_catch
  | |- keeps_flag (match ?x with _ => _ end) => destruct x
  | |- keeps_flag (if ?b then _ else _) => destruct b
  | |- keeps_flag (let _ := _ in _) => cbv zeta
  | |- keeps_flag _ => solve [auto with keeps]
  end.
Ltac prove_keeps := repeat keeps_step.

Lemma keeps_getData : keeps_flag DataService.getData.
Proof. unfold DataService.getData, DataService.getDefaultData. prove_keeps. Qed.

Lemma keeps_saveData (data : SystemData) : keeps_flag (DataService.saveData data).
Proof. unfold DataService.saveData. prove_keeps. Qed.

Lemma keeps_getUserPasswords : keeps_flag DataService.getUserPasswords.
Proof. unfold DataService.getUserPasswords. prove_keeps. Qed.

#[export] Hint Resolve keeps_getData keeps_saveData keeps_getUserPasswords : keeps.

Lemma keeps_setUserPassword (email password : string) :
  keeps_flag (DataService.setUserPassword email password).
Proof. unfold DataService.setUserPassword. prove_keeps. Qed.

Lemma keeps_verifyPassword (email password : string) :
  keeps_flag (DataService.verifyPassword email password).
Proof. unfold DataService.verifyPassword. prove_keeps. Qed.

Lemma keeps_addUser (user : User.t) : keeps_flag (DataService.addUser user).
Proof. unfold DataService.addUser. prove_keeps. Qed.

Lemma keeps_updateUser (user : User.t) : keeps_flag (DataService.updateUser user).
Proof. unfold DataService.updateUser. prove_keeps. Qed.

Lemma keeps_getUser (email : string) : keeps_flag (DataService.getUser email).
Proof. unfold DataService.getUser. prove_keeps. Qed.

Lemma keeps_getDeviceInfo : keeps_flag DataService.getDeviceInfo.
Proof. unfold DataService.getDeviceInfo. prove_keeps. Qed.

#[export] Hint Resolve keeps_setUserPassword keeps_verifyPassword keeps_addUser
  keeps_updateUser keeps_getUser keeps_getDeviceInfo : keeps.

Lemma keeps_createLoginSession (user : User.t) :
  keeps_flag (DataService.createLoginSession user).
Proof. unfold DataService.createLoginSession. prove_keeps. Qed.

Lemma keeps_closeSessions (userId : string) (sessions : list LoginSession.t) :
  keeps_flag (DataService.closeSessions userId sessions).
Proof.
  induction sessions as [| s rest IH]; simpl; [apply keeps_ret |].
  destruct (bool_decide (LoginSession.userId s = userId) && LoginSession.isActive s);
    prove_keeps; exact IH.
Qed.

#[export] Hint Resolve keeps_createLoginSession keeps_closeSessions : keeps.

Lemma keeps_endLoginSession (userId : string) :
  keeps_flag (DataService.endLoginSession userId).
Proof. unfold DataService.endLoginSession. prove_keeps. Qed.

Lemma keeps_local_reads_and_writes :
  keeps_flag DataService.getLoginSessions /\
  keeps_flag DataService.getActiveUsers /\
  keeps_flag DataService.getComponents /\
  (forall c, keeps_flag (DataService.updateComponent c)) /\
  (forall c, keeps_flag (DataService.addComponent c)) /\
  (forall r, keeps_flag (DataService.addRequest r)) /\
  (forall r, keeps_flag (DataService.updateRequest r)) /\
  keeps_flag DataService.getRequests /\
  (forall u, keeps_flag (DataService.getUserRequests u)) /\
  (forall n, keeps_flag (DataService.addNotification n)) /\
  (forall u, keeps_flag (DataService.getUserNotifications u)) /\
  (forall n, keeps_flag (DataService.markNotificationAsRead n)) /\
  keeps_flag DataService.getSystemStats /\
  keeps_flag DataService.exportLoginSessionsCSV.
Proof.
  unfold DataService.getLoginSessions, DataService.getActiveUsers,
    DataService.getComponents, DataService.updateComponent,
    DataService.addComponent, DataService.addRequest, DataService.updateRequest,
    DataService.getRequests, DataService.getUserRequests,
    DataService.addNotification, DataService.getUserNotifications,
    DataService.markNotificationAsRead, DataService.getSystemStats,
    DataService.exportLoginSessionsCSV, DataService.getLoginSessions.
  repeat apply conj; intros; prove_keeps.
Qed.

Lemma keeps_recordLogin (user : option User.t) :
  keeps_flag (DataService.recordLogin user).
Proof. unfold DataService.recordLogin. prove_keeps. Qed.

#[export] Hint Resolve keeps_endLoginSession keeps_recordLogin : keeps.

Lemma keeps_authenticateUser (email password : string) :
  keeps_flag (DataService.authenticateUser email password).
Proof. unfold DataService.authenticateUser. prove_keeps. Qed.

Lemma keeps_syncToLocal (fb : FirebaseService.t) :
  keeps_flag (FirebaseService.syncToLocal fb).
Proof. unfold FirebaseService.syncToLocal. prove_keeps. Qed.

#[export] Hint Resolve keeps_authenticateUser keeps_syncToLocal : keeps.

Lemma keeps_closeRemoteSessions (fb : FirebaseService.t)
    (userSessions : list LoginSession.t) :
  keeps_flag (HybridDataService.closeRemoteSessions fb userSessions).
Proof.
  induction userSessions as [| s rest IH]; simpl; [apply keeps_ret |].
  prove_keeps.
Qed.

#[export] Hint Resolve keeps_closeRemoteSessions : keeps.

Ltac unfold_facade :=
  unfold void,
    HybridDataService.onOnline, HybridDataService.onOffline,
    HybridDataService.syncWhenOnline,
    HybridDataService.addUser, HybridDataService.updateUser,
    HybridDataService.getUser, HybridDataService.authenticateUser,
    HybridDataService.getComponents, HybridDataService.updateComponent,
    HybridDataService.addComponent, HybridDataService.addRequest,
    HybridDataService.updateRequest, HybridDataService.getRequests,
    HybridDataService.getUserRequests, HybridDataService.addNotification,
    HybridDataService.getUserNotifications,
    HybridDataService.markNotificationAsRead,
    HybridDataService.createLoginSession, HybridDataService.endLoginSession,
    HybridDataService.getLoginSessions, HybridDataService.getActiveUsers,
    HybridDataService.getSystemStats, HybridDataService.exportLoginSessionsCSV,
    HybridDataService.getData, HybridDataService.setUserPassword,
    HybridDataService.or_local, HybridDataService.remoteReady.

Lemma keeps_facade (fb : FirebaseService.t) :
  keeps_flag (HybridDataService.onOnline fb) /\
  keeps_flag HybridDataService.onOffline /\
  keeps_flag (HybridDataService.syncWhenOnline fb) /\
  (forall x, keeps_flag (HybridDataService.addUser fb x)) /\
  (forall x, keeps_flag (HybridDataService.updateUser fb x)) /\
  (forall x, keeps_flag (HybridDataService.getUser fb x)) /\
  (forall x y, keeps_flag (HybridDataService.authenticateUser fb x y)) /\
  keeps_flag (HybridDataService.getComponents fb) /\
  (forall x, keeps_flag (HybridDataService.updateComponent fb x)) /\
  (forall x, keeps_flag (HybridDataService.addComponent fb x)) /\
  (forall x, keeps_flag (HybridDataService.addRequest fb x)) /\
  (forall x, keeps_flag (HybridDataService.updateRequest fb x)) /\
  keeps_flag (HybridDataService.getRequests fb) /\
  (forall x, keeps_flag (HybridDataService.getUserRequests fb x)) /\
  (forall x, keeps_flag (HybridDataService.addNotification fb x)) /\
  (forall x, keeps_flag (HybridDataService.getUserNotifications fb x)) /\
  (forall x, keeps_flag (HybridDataService.markNotificationAsRead fb x)) /\
  (forall x, keeps_flag (HybridDataService.createLoginSession fb x)) /\
  (forall x, keeps_flag (HybridDataService.endLoginSession fb x)) /\
  (forall x y, keeps_flag (HybridDataService.setUserPassword x y)).
Proof.
  pose proof keeps_local_reads_and_writes
    as (? & ? & ? & ? & ? & ? & ? & ? & ? & ? & ? & ? & ? & ?).
  unfold_facade.
  repeat apply conj; intros; prove_keeps.
Qed.

Lemma keeps_orchestrator (fb : FirebaseService.t) :
  (forall x y, keeps_flag (AuthContext.login fb x y)) /\
  (forall x, keeps_flag (AuthContext.register fb x)) /\
  keeps_flag (AuthContext.logout fb) /\
  keeps_flag (AuthContext.restoreSession fb).
Proof.
  pose proof (keeps_facade fb)
    as (? & ? & ? & ? & ? & ? & ? & ? & ? & ? & ? & ? & ? & ? & ? & ? & ? & ? & ? & ?).
  unfold AuthContext.login, AuthContext.register, AuthContext.logout,
    AuthContext.restoreSession, AuthContext.storeCurrentUser.
  repeat apply conj; intros; prove_keeps.
Qed.

Lemma keeps_never_enables {A} (m : M A) : keeps_flag m -> never_enables m.
Proof. intros Hk w Hoff. now rewrite Hk. Qed.

Lemma initializeFirebase_never_enables (fb : FirebaseService.t) :
  never_enables (HybridDataService.initializeFirebase fb).
Proof.
  intros w Hoff. unfold HybridDataService.initializeFirebase, try_catch.
  set (body := bind get _).
  assert (keeps_flag body) as Hbody by (subst body; prove_keeps).
  specialize (Hbody w). destruct (body w) as [[a|] w']; simpl in *.
  - congruence.
  - reflexivity.
Qed.

Lemma perform_never_enables (fb : FirebaseService.t) (c : Call) :
  never_enables (perform fb c).
Proof.
  pose proof keeps_local_reads_and_writes
    as (? & ? & ? & ? & ? & ? & ? & ? & ? & ? & ? & ? & ? & ?).
  pose proof (keeps_facade fb)
    as (? & ? & ? & ? & ? & ? & ? & ? & ? & ? & ? & ? & ? & ? & ? & ? & ? & ? & ? & ?).
  pose proof (keeps_orchestrator fb) as (? & ? & ? & ?).
  destruct c; simpl;
    try apply initializeFirebase_never_enables;
    apply keeps_never_enables; unfold void;
    unfold HybridDataService.getLoginSessions, HybridDataService.getActiveUsers,
      HybridDataService.getSystemStats, HybridDataService.exportLoginSessionsCSV,
      HybridDataService.getData, HybridDataService.getConnectionStatus;
    prove_keeps.
Qed.

Lemma steps_never_enable (w w' : World) :
  rtc step w w' -> useFirebase w = false -> useFirebase w' = false.
Proof.
  induction 1 as [| w w1 w2 Hstep _ IH]; [auto |].
  intros Hoff. apply IH. destruct Hstep as [fb c w].
  now apply perform_never_enables.
Qed.

Lemma unit_result (r : result unit) : is_val r = true -> r = Val tt.
Proof. destruct r as [[] |]; [reflexivity | discriminate]. Qed.

Lemma total_syncWhenOnline (fb : FirebaseService.t) :
  total (HybridDataService.syncWhenOnline fb).
Proof.
  unfold HybridDataService.syncWhenOnline, HybridDataService.remoteReady.
  prove_total.
Qed.

Lemma total_onOnline (fb : FirebaseService.t) : total (HybridDataService.onOnline fb).
Proof.
  unfold HybridDataService.onOnline, HybridDataService.setOnline.
  apply total_bind; [apply total_modify | intros _; apply total_syncWhenOnline].
Qed.

Lemma initializeFirebase_failure (fb : FirebaseService.t) (w : World) :
  isOnline w = true ->
  FirebaseService.initializeDefaultData fb = Rejected \/
  fst (FirebaseService.syncToLocal fb w) = Exn ->
  useFirebase (snd (HybridDataService.initializeFirebase fb w)) = false.
Proof.
  intros Hon Hfail.
  unfold HybridDataService.initializeFirebase, try_catch, bind, get. rewrite Hon.
  destruct (FirebaseService.initializeDefaultData fb) as [[] |]; simpl.
  - destruct Hfail as [Hfail | Hfail]; [discriminate |].
    destruct (FirebaseService.syncToLocal fb w) as [[[] |] w1]; simpl in *;
      [discriminate | reflexivity].
  - reflexivity.
Qed.

(** C9.  The facade's [useFirebase] flag.
    (1) When the start-up initialization fails while online (the seed call
        rejects, or the resync throws) the flag is false afterwards.
    (2) From a world where the flag is false, no sequence of facade
        operations, orchestrator flows and connectivity events, under any
        remote behaviour, leads to a world where it is true.
    (3) The online listener and the resync it triggers return normally
        under every remote behaviour, failing resync included, and leave
        the flag as it was. *)
Theorem remote_flag_is_never_restored :
  (forall fb w,
     isOnline w = true ->
     FirebaseService.initializeDefaultData fb = Rejected \/
     fst (FirebaseService.syncToLocal fb w) = Exn ->
     useFirebase (snd (HybridDataService.initializeFirebase fb w)) = false) /\
  (forall w w', useFirebase w = false -> rtc step w w' -> useFirebase w' = false) /\
  (forall fb w,
     fst (HybridDataService.onOnline fb w) = Val tt /\
     useFirebase (snd (HybridDataService.onOnline fb w)) = useFirebase w) /\
  (forall fb w,
     fst (HybridDataService.syncWhenOnline fb w) = Val tt /\
     useFirebase (snd (HybridDataService.syncWhenOnline fb w)) = useFirebase w).
Proof.
  split; [exact initializeFirebase_failure |].
  split; [intros w w' Hoff Hsteps; now apply (steps_never_enable w w') |].
  split; intros fb w; destruct (keeps_facade fb) as (Honline & _ & Hsync & _).
  - split; [apply unit_result, total_onOnline | apply Honline].
  - split; [apply unit_result, total_syncWhenOnline | apply Hsync].
Qed.

Lemma remote_flag_is_never_restored_witness :
  let w0 := snd (HybridDataService.initializeFirebase unreachable firstRun) in
  let w1 := snd (perform stocked CallOnline w0) in
  let w2 := snd (perform stocked (CallAddUser remoteAda) w1) in
  useFirebase w0 = false /\ useFirebase w2 = false.
Proof.
  intros w0 w1 w2.
  destruct remote_flag_is_never_restored as (Hinit & Hsteps & _).
  assert (useFirebase w0 = false) as Hoff
    by (apply Hinit; [reflexivity | left; reflexivity]).
  split; [exact Hoff |].
  apply (Hsteps w0 w2 Hoff).
  apply (rtc_l step w0 w1 w2); [apply (step_perform stocked CallOnline w0) |].
  apply (rtc_l step w1 w2 w2);
    [apply (step_perform stocked (CallAddUser remoteAda) w1) | apply rtc_refl].
Defined.

(** ** Registration *)

Lemma find_present {A} (P : A -> Prop) `{!forall x, Decision (P x)} (l : list A) :
  (exists x, x ∈ l /\ P x) -> exists y, find P l = Some y.
Proof.
  intros (x & Hin & HP). unfold find.
  destruct (list_find_elem_of P l x Hin HP) as [[i y] ->]. simpl. eauto.
Qed.

Lemma facade_getUser_present (fb : FirebaseService.t) (w : World) (email : string) :
  (exists u, u ∈ users (currentData w) /\ User.email u = email) ->
  exists u' w',
    HybridDataService.getUser fb email w = (Val (Some u'), w') /\
    storage w' = storage w /\ authUser w' = authUser w.
Proof.
  intros Hpresent.
  destruct (find_present (fun user => User.email user = email) _ Hpresent)
    as (y & Hfind).
  assert (exists w', DataService.getUser email w = (Val (Some y), w')
                     /\ storage w' = storage w /\ authUser w' = authUser w)
    as (wl & Hlocal & Hsl & Hal).
  { rewrite getUser_eq, Hfind. eexists. split; [reflexivity |].
    split; [apply storage_afterRead |].
    unfold afterRead. destruct (isaacLabData (storage w)); reflexivity. }
  destruct (getUser_read fb w email) as (Hoff & Hnone & Hsome).
  destruct (isOnline w && useFirebase w) eqn:Hready.
  - destruct (FirebaseService.getUserByEmail fb email) as [[u |] |] eqn:Hremote.
    + exists u, w. rewrite (Hsome u) by auto. auto.
    + exists y, wl. rewrite Hnone by auto. auto.
    + exists y, wl. rewrite Hnone by auto. auto.
  - exists y, wl. rewrite Hoff by auto. auto.
Qed.

(** [register] stops at its first check when the facade finds a user with
    the email, locally or remotely. *)
Lemma register_refuses_known_email
    (fb : FirebaseService.t) (w : World) (data : AuthContext.RegisterData) :
  (exists u, u ∈ users (currentData w) /\ User.email u = AuthContext.email data) \/
  (isOnline w && useFirebase w = true /\
   exists u, FirebaseService.getUserByEmail fb (AuthContext.email data)
             = Resolved (Some u)) ->
  fst (AuthContext.register fb data w) = Val false /\
  storage (snd (AuthContext.register fb data w)) = storage w.
Proof.
  intros Hpresent.
  assert (exists u' w',
            HybridDataService.getUser fb (AuthContext.email data) w
            = (Val (Some u'), w') /\ storage w' = storage w)
    as (u' & w' & Hget & Hstorage).
  { destruct Hpresent as [Hlocal | (Hready & u & Hremote)].
    - destruct (facade_getUser_present fb w (AuthContext.email data) Hlocal)
        as (u' & w' & Hget & Hstorage & _).
      eauto.
    - exists u, w. split; [| reflexivity].
      now apply (getUser_read fb w (AuthContext.email data)). }
  assert (AuthContext.register fb data w = (Val false, w')) as ->.
  { unfold AuthContext.register, try_catch. unfold bind at 1. rewrite Hget.
    reflexivity. }
  split; [reflexivity | exact Hstorage].
Qed.


(** C3.  Evaluation of the registration flow on an offline first run, for
    a new email: the flow succeeds, and the User record it leaves in the
    Local Store has role student but [loginCount] 0 and [isActive] false,
    because [DataService.addUser] overwrites both fields of the record
    that [register] built with [loginCount] 1 and [isActive] true.  The
    session marker holds the same overwritten record.  (The same holds of
    every successful registration: [registration_stores_reset_record].) *)
Theorem registration_persists_reset_counters :
  fst (AuthContext.register unreachable adaData firstRunOffline) = Val true /\
  find (fun u => User.email u = AuthContext.email adaData)
       (users (currentData adaRegistered)) = Some adaStored /\
  User.role adaStored = student /\
  User.loginCount adaStored = 0 /\
  User.isActive adaStored = false /\
  currentUser (storage adaRegistered) = Some adaStored.
Proof. vm_compute. repeat split; reflexivity. Qed.

(** ** The administrator's default credential *)

Lemma credentials_same (ls ls' : LocalStorage) :
  isaacLabPasswords ls' = isaacLabPasswords ls -> credentials ls' = credentials ls.
Proof. unfold credentials. now intros ->. Qed.

Lemma admin_login_run (password : string) (w : World) :
  password = opt_str_or (credentials (storage w) !! adminEmail) "ralab" ->
  exists user w',
    DataService.authenticateUser adminEmail password w = (Val (Some user), w') /\
    User.email user = adminEmail /\
    match find (fun u => User.email u = adminEmail) (users (currentData w)) with
    | None =>
        isaacLabPasswords (storage w')
        = Parsed (<[adminEmail := "ralab"]> (credentials (storage w)))
    | Some _ =>
        isaacLabPasswords (storage w') = isaacLabPasswords (storage w)
    end.
Proof.
  intros Hpw. unfold DataService.authenticateUser. unfold bind at 1.
  rewrite getUser_eq.
  rewrite (bool_decide_eq_true_2 (adminEmail = "admin@issacasimov.in")) by reflexivity.
  unfold bind at 1. rewrite getUserPasswords_eq.
  rewrite storage_afterRead.
  rewrite (bool_decide_eq_false_2 (password <> _)) by (intros Hne; now apply Hne).
  destruct (find _ _) as [u0 |] eqn:Hfind.
  - unfold bind at 1. unfold ret at 1.
    destruct (recordLogin_run u0 (afterRead w))
      as (u' & s & w1 & -> & _ & Hem & _ & _ & _ & _ & _ & Hp).
    exists u', w1. split; [reflexivity |].
    apply find_Some in Hfind as [_ Hmail].
    split; [congruence |]. now rewrite Hp, storage_afterRead.
  - unfold bind at 1. unfold bind at 1. unfold now at 1. simpl.
    unfold bind at 1. rewrite addUser_eq. simpl.
    unfold bind at 1. rewrite setUserPassword_eq. unfold ret at 1.
    match goal with
    | |- context [DataService.recordLogin (Some ?u) ?w1] =>
        destruct (recordLogin_run u w1)
          as (u' & s & w2 & -> & _ & Hem & _ & _ & _ & _ & _ & Hp)
    end.
    exists u', w2. split; [reflexivity |].
    split; [rewrite Hem; reflexivity |].
    rewrite Hp. cbn [with_storage storage set_isaacLabPasswords isaacLabPasswords].
    f_equal. f_equal.
    apply credentials_same.
    rewrite passwords_persist, storage_afterRead. cbn [with_tick storage].
    now rewrite storage_afterRead.
Qed.

(** C4, as the code has it.  When no credential is stored for the
    administrative email, [authenticateUser] with that email and the
    default password returns the administrator.  The default credential is
    written to the persisted map only on the branch that also creates the
    administrator's User record, that is when the store holds no user with
    that email; [verifyPassword] with the default password is then true
    from the stored map.  When the store already holds such a user (the
    default dataset of a first run does) the credential map is left as it
    was, and [verifyPassword] with the default password stays false. *)
Theorem default_credential_provisioning (w : World) :
  credentials (storage w) !! adminEmail = None ->
  exists user w',
    DataService.authenticateUser adminEmail "ralab" w = (Val (Some user), w') /\
    User.email user = adminEmail /\
    match find (fun u => User.email u = adminEmail) (users (currentData w)) with
    | None =>
        isaacLabPasswords (storage w')
        = Parsed (<[adminEmail := "ralab"]> (credentials (storage w))) /\
        fst (DataService.verifyPassword adminEmail "ralab" w') = Val true
    | Some _ =>
        isaacLabPasswords (storage w') = isaacLabPasswords (storage w) /\
        fst (DataService.verifyPassword adminEmail "ralab" w') = Val false
    end.
Proof.
  intros Hnone.
  destruct (admin_login_run "ralab" w) as (user & w' & Hrun & Hmail & Hcase);
    [now rewrite Hnone |].
  exists user, w'. split; [exact Hrun |]. split; [exact Hmail |].
  rewrite verifyPassword_eq. simpl.
  destruct (find _ _).
  - split; [exact Hcase |].
    rewrite (credentials_same _ _ Hcase), Hnone. reflexivity.
  - split; [exact Hcase |].
    assert (credentials (storage w')
            = <[adminEmail := "ralab"]> (credentials (storage w))) as ->
      by (unfold credentials at 1; now rewrite Hcase).
    now rewrite bool_decide_eq_true_2 by apply lookup_insert_eq.
Qed.

Lemma default_credential_provisioning_witness :
  (exists user w',
     DataService.authenticateUser adminEmail "ralab" noAdmin = (Val (Some user), w') /\
     fst (DataService.verifyPassword adminEmail "ralab" w') = Val true) /\
  (exists user w',
     DataService.authenticateUser adminEmail "ralab" firstRun = (Val (Some user), w') /\
     fst (DataService.verifyPassword adminEmail "ralab" w') = Val false).
Proof.
  split.
  - destruct (default_credential_provisioning noAdmin eq_refl)
      as (user & w' & Hrun & _ & Hcase).
    exists user, w'. split; [exact Hrun |]. exact (proj2 Hcase).
  - destruct (default_credential_provisioning firstRun eq_refl)
      as (user & w' & Hrun & _ & Hcase).
    exists user, w'. split; [exact Hrun |]. exact (proj2 Hcase).
Defined.

(** C4, counterexample.  On a first run no credential is stored for the
    administrative email and the login with the default password
    succeeds, but nothing is written to the credential map: the claim
    that the default credential is persisted whenever none was stored
    fails there. *)
Lemma default_credential_not_persisted_on_first_run :
  ~ (forall w,
       credentials (storage w) !! adminEmail = None ->
       exists user w',
         DataService.authenticateUser adminEmail "ralab" w = (Val (Some user), w') /\
         fst (DataService.verifyPassword adminEmail "ralab" w') = Val true).
Proof.
  intros Hclaim.
  destruct (Hclaim firstRun eq_refl) as (user & w' & Hrun & Hverify).
  apply (f_equal snd) in Hrun. simpl in Hrun. subst w'.
  vm_compute in Hverify. discriminate.
Qed.

Lemma admin_first_run_login (w : World) :
  isaacLabPasswords (storage w) = Missing ->
  exists user w',
    DataService.authenticateUser adminEmail "ralab" w = (Val (Some user), w') /\
    User.email user = adminEmail.
Proof.
  intros Hmissing.
  destruct (admin_login_run "ralab" w) as (user & w' & Hrun & Hmail & _).
  - unfold credentials. now rewrite Hmissing.
  - eauto.
Qed.

Lemma admin_changed_password_rejects_default (w : World) (p : string) :
  credentials (storage w) !! adminEmail = Some p ->
  p <> "ralab" -> p <> "" ->
  fst (DataService.authenticateUser adminEmail "ralab" w) = Val None.
Proof.
  intros Hstored Hchanged Hnonempty.
  unfold DataService.authenticateUser. unfold bind at 1. rewrite getUser_eq.
  rewrite (bool_decide_eq_true_2 (adminEmail = "admin@issacasimov.in")) by reflexivity.
  unfold bind at 1. rewrite getUserPasswords_eq, storage_afterRead, Hstored.
  unfold opt_str_or, str_or.
  rewrite (bool_decide_eq_false_2 (p = "")) by exact Hnonempty.
  rewrite (bool_decide_eq_true_2 ("ralab" <> p)) by congruence.
  reflexivity.
Qed.

(** C5.  Evaluation at the input where the claim fails: once the stored
    credential of the administrative email is the empty string (a password
    different from the default), [authenticateUser] with the default
    password still returns the administrator, and the stored password
    itself is refused: [passwords[email] || 'ralab'] takes the empty string
    for a missing entry.  (For every stored password that is neither the
    default nor empty the default is refused:
    [admin_changed_password_rejects_default]; and on a first run the
    default is accepted: [admin_first_run_login].) *)
Theorem emptied_admin_password_reopens_default :
  credentials (storage adminPasswordEmptied) !! adminEmail = Some "" /\
  (exists user,
     fst (DataService.authenticateUser adminEmail "ralab" adminPasswordEmptied)
     = Val (Some user) /\
     User.email user = adminEmail) /\
  fst (DataService.authenticateUser adminEmail "" adminPasswordEmptied) = Val None.
Proof.
  split; [vm_compute; reflexivity |].
  split; [| vm_compute; reflexivity].
  exists adminAfterLogin. split; vm_compute; reflexivity.
Qed.

(** ** What the Local Store writes do *)

Lemma addComponent_eq (component : Component.t) (w : World) :
  let data := currentData w in
  DataService.addComponent component w
  = (Val tt,
     persist (mkSystemData (users data) (components data ++ [component])
                (requests data) (notifications data) (loginSessions data))
             (afterRead w)).
Proof. unfold DataService.addComponent, bind. rewrite getData_eq. reflexivity. Qed.

Lemma addRequest_eq (request : BorrowRequest.t) (w : World) :
  let data := currentData w in
  DataService.addRequest request w
  = (Val tt,
     persist (mkSystemData (users data) (components data)
                (requests data ++ [request]) (notifications data)
                (loginSessions data))
             (afterRead w)).
Proof. unfold DataService.addRequest, bind. rewrite getData_eq. reflexivity. Qed.

Lemma addNotification_eq (notification : Notification.t) (w : World) :
  let data := currentData w in
  DataService.addNotification notification w
  = (Val tt,
     persist (mkSystemData (users data) (components data) (requests data)
                (notifications data ++ [notification]) (loginSessions data))
             (afterRead w)).
Proof. unfold DataService.addNotification, bind. rewrite getData_eq. reflexivity. Qed.

Lemma local_writes_take_effect (w : World) :
  (forall user,
     users (currentData (snd (DataService.addUser user w)))
     = (users (currentData w)
          ++ [User.set_isActive false (User.set_loginCount 0 user)])%list) /\
  (forall user index,
     findIndex (fun u => User.id u = User.id user) (users (currentData w))
     = Some index ->
     users (currentData (snd (DataService.updateUser user w)))
     = <[index := user]> (users (currentData w))) /\
  (forall component,
     components (currentData (snd (DataService.addComponent component w)))
     = (components (currentData w) ++ [component])%list) /\
  (forall component index,
     findIndex (fun c => Component.id c = Component.id component)
               (components (currentData w)) = Some index ->
     components (currentData (snd (DataService.updateComponent component w)))
     = <[index := component]> (components (currentData w))) /\
  (forall request,
     requests (currentData (snd (DataService.addRequest request w)))
     = (requests (currentData w) ++ [request])%list) /\
  (forall request index,
     findIndex (fun r => BorrowRequest.id r = BorrowRequest.id request)
               (requests (currentData w)) = Some index ->
     requests (currentData (snd (DataService.updateRequest request w)))
     = <[index := request]> (requests (currentData w))) /\
  (forall notification,
     notifications (currentData (snd (DataService.addNotification notification w)))
     = (notifications (currentData w) ++ [notification])%list) /\
  (forall notificationId index notification,
     list_find (fun n => Notification.id n = notificationId)
               (notifications (currentData w)) = Some (index, notification) ->
     notifications
       (currentData (snd (DataService.markNotificationAsRead notificationId w)))
     = <[index := Notification.set_read true notification]>
         (notifications (currentData w))) /\
  (forall user,
     storedSessions (storage (snd (DataService.createLoginSession user w)))
     = (storedSessions (storage w) ++ [newSession user w])%list) /\
  (forall userId,
     Forall2 (closed_at (host w) userId)
       (storedSessions (storage w))
       (storedSessions (storage (snd (DataService.endLoginSession userId w))))).
Proof.
  repeat apply conj.
  - intros user. rewrite addUser_eq. cbv zeta; cbn [snd]. now rewrite currentData_persist.
  - intros user index Hfound. rewrite updateUser_eq. cbv zeta; cbn [snd]. rewrite Hfound.
    now rewrite currentData_persist.
  - intros component. rewrite addComponent_eq. cbv zeta; cbn [snd].
    now rewrite currentData_persist.
  - intros component index Hfound.
    unfold DataService.updateComponent, bind. rewrite getData_eq, Hfound.
    rewrite saveData_eq. cbn [snd]. now rewrite currentData_persist.
  - intros request. rewrite addRequest_eq. cbv zeta; cbn [snd]. now rewrite currentData_persist.
  - intros request index Hfound.
    unfold DataService.updateRequest, bind. rewrite getData_eq, Hfound.
    rewrite saveData_eq. cbn [snd]. now rewrite currentData_persist.
  - intros notification. rewrite addNotification_eq. cbv zeta; cbn [snd].
    now rewrite currentData_persist.
  - intros notificationId index notification Hfound.
    unfold DataService.markNotificationAsRead, bind. rewrite getData_eq, Hfound.
    rewrite saveData_eq. cbn [snd]. now rewrite currentData_persist.
  - intros user. rewrite createLoginSession_eq. cbv zeta; cbn [snd].
    now rewrite sessions_persist, sessions_currentData.
  - intros userId.
    destruct (endLoginSession_run userId w) as (w' & -> & _ & _ & _ & Hall).
    exact Hall.
Qed.

(** C1.  Every mutating facade operation ([addUser], [updateUser],
    [addComponent], [updateComponent], [addRequest], [updateRequest],
    [addNotification], [markNotificationAsRead], [createLoginSession],
    [endLoginSession]) returns normally, whatever the remote side does (any
    [fb], any connectivity), and the world it leaves is the one the Local
    Store operation of the same name leaves: the local write has been
    applied by the time the call returns.  For the four creations the
    entity written locally is the caller's entity, or that entity under
    the id the remote side assigned.
    The second half says what those local writes are, in any world: a
    creation appends the entity to its collection ([addUser] after
    resetting its two counters), an update of a stored id replaces the
    first entity with that id, [markNotificationAsRead] sets [read] on the
    first notification with the id, [createLoginSession] appends the new
    session and [endLoginSession] closes the user's active sessions. *)
Theorem facade_writes_reach_local_store (fb : FirebaseService.t) (w : World) :
  ((forall user, exists user',
      (user' = user \/ exists firebaseId, user' = User.set_id firebaseId user) /\
      applied_as (HybridDataService.addUser fb user) (DataService.addUser user') w) /\
   (forall user,
      applied_as (HybridDataService.updateUser fb user)
                 (DataService.updateUser user) w) /\
   (forall component, exists component',
      (component' = component \/
       exists firebaseId, component' = Component.set_id firebaseId component) /\
      applied_as (HybridDataService.addComponent fb component)
                 (DataService.addComponent component') w) /\
   (forall component,
      applied_as (HybridDataService.updateComponent fb component)
                 (DataService.updateComponent component) w) /\
   (forall request, exists request',
      (request' = request \/
       exists firebaseId, request' = BorrowRequest.set_id firebaseId request) /\
      applied_as (HybridDataService.addRequest fb request)
                 (DataService.addRequest request') w) /\
   (forall request,
      applied_as (HybridDataService.updateRequest fb request)
                 (DataService.updateRequest request) w) /\
   (forall notification, exists notification',
      (notification' = notification \/
       exists firebaseId,
         notification' = Notification.set_id firebaseId notification) /\
      applied_as (HybridDataService.addNotification fb notification)
                 (DataService.addNotification notification') w) /\
   (forall notificationId,
      applied_as (HybridDataService.markNotificationAsRead fb notificationId)
                 (DataService.markNotificationAsRead notificationId) w) /\
   (forall user,
      applied_as (HybridDataService.createLoginSession fb user)
                 (DataService.createLoginSession user) w) /\
   (forall userId,
      applied_as (HybridDataService.endLoginSession fb userId)
                 (DataService.endLoginSession userId) w)) /\
  (forall w0 : World,
     (forall user,
        users (currentData (snd (DataService.addUser user w0)))
        = (users (currentData w0)
             ++ [User.set_isActive false (User.set_loginCount 0 user)])%list) /\
     (forall user index,
        findIndex (fun u => User.id u = User.id user) (users (currentData w0))
        = Some index ->
        users (currentData (snd (DataService.updateUser user w0)))
        = <[index := user]> (users (currentData w0))) /\
     (forall component,
        components (currentData (snd (DataService.addComponent component w0)))
        = (components (currentData w0) ++ [component])%list) /\
     (forall component index,
        findIndex (fun c => Component.id c = Component.id component)
                  (components (currentData w0)) = Some index ->
        components (currentData (snd (DataService.updateComponent component w0)))
        = <[index := component]> (components (currentData w0))) /\
     (forall request,
        requests (currentData (snd (DataService.addRequest request w0)))
        = (requests (currentData w0) ++ [request])%list) /\
     (forall request index,
        findIndex (fun r => BorrowRequest.id r = BorrowRequest.id request)
                  (requests (currentData w0)) = Some index ->
        requests (currentData (snd (DataService.updateRequest request w0)))
        = <[index := request]> (requests (currentData w0))) /\
     (forall notification,
        notifications
          (currentData (snd (DataService.addNotification notification w0)))
        = (notifications (currentData w0) ++ [notification])%list) /\
     (forall notificationId index notification,
        list_find (fun n => Notification.id n = notificationId)
                  (notifications (currentData w0)) = Some (index, notification) ->
        notifications
          (currentData (snd (DataService.markNotificationAsRead notificationId w0)))
        = <[index := Notification.set_read true notification]>
            (notifications (currentData w0))) /\
     (forall user,
        storedSessions (storage (snd (DataService.createLoginSession user w0)))
        = (storedSessions (storage w0) ++ [newSession user w0])%list) /\
     (forall userId,
        Forall2 (closed_at (host w0) userId)
          (storedSessions (storage w0))
          (storedSessions (storage (snd (DataService.endLoginSession userId w0)))))).
Proof.
  split.
  - apply facade_writes_are_local_writes.
  - intros w0. apply local_writes_take_effect.
Qed.

Lemma facade_writes_reach_local_store_witness :
  let ada := User.set_isActive true remoteAda in
  let part := Component.mk "fb-c1" "Servo Motor SG90" 30 29 "Actuator" "9g" in
  let req := BorrowRequest.mk "fb-r1" "fb-u1" "fb-c1" approved 1700500000000
                              1700000000000 in
  users (currentData (snd (DataService.updateUser ada stockedStore))) = [ada] /\
  components (currentData (snd (DataService.updateComponent part stockedStore)))
  = [part] /\
  requests (currentData (snd (DataService.updateRequest req stockedStore))) = [req] /\
  notifications
    (currentData (snd (DataService.markNotificationAsRead "fb-n1" stockedStore)))
  = [Notification.set_read true remoteNote].
Proof.
  intros ada part req.
  destruct (facade_writes_reach_local_store unreachable stockedStore)
    as (_ & Heffect).
  destruct (Heffect stockedStore) as (_ & Hu & _ & Hc & _ & Hr & _ & Hn & _).
  split; [| split; [| split]].
  - apply (Hu ada 0%nat). reflexivity.
  - apply (Hc part 0%nat). reflexivity.
  - apply (Hr req 0%nat). reflexivity.
  - apply (Hn "fb-n1" 0%nat remoteNote). reflexivity.
Defined.

(** ** Registration, in general *)

Lemma users_of_stored (w : World) (l : list User.t) :
  storedUsers (storage w) = Some l -> users (currentData w) = l.
Proof.
  unfold storedUsers, currentData.
  destruct (isaacLabData (storage w)); [discriminate | discriminate |].
  now intros [= <-].
Qed.

Lemma storedUsers_persist (data : SystemData) (w : World) :
  storedUsers (storage (persist data w)) = Some (users data).
Proof. reflexivity. Qed.

Lemma currentUser_persist (data : SystemData) (w : World) :
  currentUser (storage (persist data w)) = currentUser (storage w).
Proof. reflexivity. Qed.

Lemma createLoginSession_keeps_users (user : User.t) (w : World) (l : list User.t) :
  storedUsers (storage w) = Some l ->
  storedUsers (storage (snd (DataService.createLoginSession user w))) = Some l /\
  currentUser (storage (snd (DataService.createLoginSession user w)))
  = currentUser (storage w).
Proof.
  intros Hl. rewrite createLoginSession_eq. cbv zeta; cbn [snd].
  rewrite storedUsers_persist, currentUser_persist. cbn [users].
  rewrite storage_afterRead. cbn [with_tick storage].
  split; [| reflexivity].
  f_equal. apply users_of_stored. exact Hl.
Qed.

Lemma addNotification_keeps_users (n : Notification.t) (w : World) (l : list User.t) :
  storedUsers (storage w) = Some l ->
  storedUsers (storage (snd (DataService.addNotification n w))) = Some l /\
  currentUser (storage (snd (DataService.addNotification n w)))
  = currentUser (storage w).
Proof.
  intros Hl. rewrite addNotification_eq. cbv zeta; cbn [snd].
  rewrite storedUsers_persist, currentUser_persist, storage_afterRead. cbn [users].
  split; [| reflexivity].
  f_equal. now apply users_of_stored.
Qed.

Lemma signUp_attempt (o : outcome (option string)) (w : World) :
  try_catch (do _ <- await o; ret tt) (ret tt) w = (Val tt, w).
Proof. destruct o; reflexivity. Qed.

(** Every registration that succeeds leaves, as the last User record of
    the Local Store and as the session marker, the new user with role
    student, [loginCount] 0 and [isActive] false: the reset made by
    [DataService.addUser] is never undone within the flow. *)
Lemma registration_stores_reset_record
    (fb : FirebaseService.t) (w w' : World) (data : AuthContext.RegisterData) :
  AuthContext.register fb data w = (Val true, w') ->
  exists others stored,
    users (currentData w') = (others ++ [stored])%list /\
    User.email stored = AuthContext.email data /\
    User.role stored = student /\
    User.loginCount stored = 0 /\
    User.isActive stored = false /\
    currentUser (storage w') = Some stored.
Proof.
  unfold AuthContext.register. unfold try_catch at 1. unfold bind at 1.
  destruct (HybridDataService.getUser fb (AuthContext.email data) w)
    as [[[existing |] |] w1]; try discriminate.
  unfold bind at 1. rewrite signUp_attempt.
  unfold bind at 1. unfold now at 1. cbn [fst snd].
  unfold bind at 1. unfold now at 1. cbn [fst snd].
  unfold bind at 1. unfold now at 1. cbn [fst snd].
  unfold bind at 1.
  match goal with
  | |- context [HybridDataService.addUser fb ?u ?w2] =>
      destruct (addUser_through fb u w2) as (user' & Hid & ->);
      set (newUser := u) in *; set (w2' := w2) in *
  end.
  rewrite addUser_eq. cbv zeta.
  set (stored := User.set_isActive false (User.set_loginCount 0 user')).
  match goal with
  | |- context [persist ?d (afterRead w2')] =>
      set (w3 := persist d (afterRead w2'));
      assert (storedUsers (storage w3) = Some (users d)) as Hu3 by reflexivity;
      cbn [users] in Hu3
  end.
  set (l := (users (currentData w2') ++ [stored])%list) in *.
  unfold bind at 1.
  destruct (createLoginSession_through fb stored w3)
    as (session & session' & w4 & Hl & -> & _).
  destruct (createLoginSession_keeps_users stored w3 l Hu3) as (Hu4 & Hc4).
  rewrite Hl in Hu4, Hc4. cbn [snd] in Hu4, Hc4.
  unfold bind at 1. unfold HybridDataService.setUserPassword.
  rewrite setUserPassword_eq.
  unfold bind at 1. unfold AuthContext.setUser, modify. 
  unfold bind at 1. unfold AuthContext.storeCurrentUser, setStorage, modify.
  unfold bind at 1. unfold getStorage at 1.
  unfold bind at 1. unfold now at 1. cbn [fst snd].
  unfold bind at 1. unfold now at 1. cbn [fst snd].
  unfold bind at 1. unfold HybridDataService.addNotification.
  match goal with
  | |- context [try_catch _ (bind (DataService.addNotification ?note) _) ?w8] =>
      destruct (create_through (FirebaseService.createNotification fb note)
                  Notification.set_id note
                  (fun x => run DataService.addNotification x; ret x) w8)
        as (n' & _ & ->); [intros e; prove_total |];
      set (w8' := w8) in *
  end.
  assert (storedUsers (storage w8') = Some l) as Hu8 by exact Hu4.
  assert (currentUser (storage w8') = Some stored) as Hc8 by reflexivity.
  destruct (addNotification_keeps_users n' w8' l Hu8) as (Hu9 & Hc9).
  clearbody w8'. clear Hl Hu4 Hc4.
  unfold bind at 1.
  destruct (DataService.addNotification n' w8') as [[[] |] w9] eqn:Hn;
    cbn [snd] in Hu9, Hc9; unfold ret; intros [= <-].
  exists (users (currentData w2')), stored.
  repeat split.
  - now apply users_of_stored.
  - destruct Hid as [-> | (firebaseId & ->)]; reflexivity.
  - destruct Hid as [-> | (firebaseId & ->)]; reflexivity.
  - congruence.
Qed.

(** ** Login through the remote side *)

(** When the remote sign-in and the remote profile fetch both succeed the
    facade's [authenticateUser] mirrors the profile with
    [DataService.updateUser] and returns it; no login session is created
    on that path. *)
Lemma facade_remote_login_creates_no_session
    (fb : FirebaseService.t) (w : World) (email password uid : string)
    (userData : User.t) :
  isOnline w && useFirebase w = true ->
  FirebaseService.signIn fb email password = Resolved (Some uid) ->
  FirebaseService.getUserByEmail fb email = Resolved (Some userData) ->
  fst (HybridDataService.authenticateUser fb email password w)
  = Val (Some userData) /\
  storedSessions (storage (snd (HybridDataService.authenticateUser fb email password w)))
  = storedSessions (storage w).
Proof.
  intros Hready Hsign Hfetch.
  assert (HybridDataService.authenticateUser fb email password w
          = (Val (Some userData), snd (DataService.updateUser userData w))) as ->.
  { unfold HybridDataService.authenticateUser.
    rewrite or_local_ready by exact Hready.
    unfold bind, await. rewrite Hsign. unfold ret at 1. rewrite Hfetch.
    unfold ret at 1.
    destruct (total_run (DataService.updateUser userData) w
                (total_updateUser userData)) as ([] & w1 & ->).
    reflexivity. }
  split; [reflexivity | apply sessions_updateUser].
Qed.

(** C6.  Registering an email that is already the email of a User record
    returns false and leaves the persisted store as it was (no User record
    is added or changed).  This holds whatever the remote side does when
    the record is in the Local Store, and also when the record is the one
    the remote side answers with.  In particular, in the world left by a
    successful registration, registering the same email again returns
    false and changes nothing. *)
Theorem duplicate_registration_is_refused
    (fb : FirebaseService.t) (w : World) (data : AuthContext.RegisterData) :
  ((exists u, u ∈ users (currentData w) /\ User.email u = AuthContext.email data) \/
   (isOnline w && useFirebase w = true /\
    exists u, FirebaseService.getUserByEmail fb (AuthContext.email data)
              = Resolved (Some u)) ->
   fst (AuthContext.register fb data w) = Val false /\
   storage (snd (AuthContext.register fb data w)) = storage w) /\
  (forall fb0 w0 data0,
     AuthContext.register fb0 data0 w0 = (Val true, w) ->
     AuthContext.email data0 = AuthContext.email data ->
     fst (AuthContext.register fb data w) = Val false /\
     storage (snd (AuthContext.register fb data w)) = storage w).
Proof.
  split; [apply register_refuses_known_email |].
  intros fb0 w0 data0 Hfirst Hsame.
  apply register_refuses_known_email. left.
  destruct (registration_stores_reset_record fb0 w0 w data0 Hfirst)
    as (others & stored & Husers & Hmail & _).
  exists stored. split; [| congruence].
  rewrite Husers. apply elem_of_app. right. apply list_elem_of_here.
Qed.

Lemma duplicate_registration_is_refused_witness :
  (fst (AuthContext.register unreachable adaData adaRegistered) = Val false /\
   storage (snd (AuthContext.register unreachable adaData adaRegistered))
   = storage adaRegistered) /\
  (fst (AuthContext.register stocked adaData firstRun) = Val false /\
   storage (snd (AuthContext.register stocked adaData firstRun)) = storage firstRun) /\
  (fst (AuthContext.register stocked adaData adaRegistered) = Val false /\
   storage (snd (AuthContext.register stocked adaData adaRegistered))
   = storage adaRegistered).
Proof.
  split; [| split].
  - apply (proj1 (duplicate_registration_is_refused unreachable adaRegistered adaData)).
    left. exists adaStored. split; [| reflexivity].
    apply list_elem_of_In. vm_compute. right. left. reflexivity.
  - apply (proj1 (duplicate_registration_is_refused stocked firstRun adaData)).
    right. split; [reflexivity |]. exists remoteAda. reflexivity.
  - apply (proj2 (duplicate_registration_is_refused stocked adaRegistered adaData)
             unreachable firstRunOffline adaData).
    + apply (run_pair (AuthContext.register unreachable adaData) firstRunOffline).
      vm_compute. reflexivity.
    + reflexivity.
Defined.

(** * Further properties of the services *)

(** ** Snapshots written and read back *)

(** X1.  [saveData] and [getData] round trip: what was saved is what the
    next [getData] returns, at no clock read and with the world left as it
    is; a second save replaces the first; saving touches neither the
    credential map nor the session marker nor the sync time; and reading
    never changes the storage. *)
Theorem saved_data_is_read_back (data data' : SystemData) (w : World) :
  let saved := snd (DataService.saveData data w) in
  DataService.getData saved = (Val data, saved) /\
  snd (DataService.saveData data' saved) = snd (DataService.saveData data' w) /\
  isaacLabPasswords (storage saved) = isaacLabPasswords (storage w) /\
  currentUser (storage saved) = currentUser (storage w) /\
  lastFirebaseSync (storage saved) = lastFirebaseSync (storage w) /\
  storage (snd (DataService.getData w)) = storage w.
Proof.
  intros saved. subst saved. rewrite !saveData_eq. cbn [snd].
  repeat apply conj; try reflexivity.
  - rewrite getData_eq. now rewrite currentData_persist.
  - rewrite getData_eq. apply storage_afterRead.
Qed.

(** ** Credentials *)



(** ** Local authentication *)

Lemma authenticateUser_failure (email password : string) (w w' : World) :
  DataService.authenticateUser email password w = (Val None, w') ->
  storage w' = storage w.
Proof.
  unfold DataService.authenticateUser. unfold bind at 1. rewrite getUser_eq.
  destruct (bool_decide (email = "admin@issacasimov.in")).
  - unfold bind at 1. rewrite getUserPasswords_eq.
    destruct (bool_decide (password <> _)).
    + intros [= <-]. apply storage_afterRead.
    + destruct (find _ _) as [u0 |].
      * unfold bind at 1. unfold ret at 1.
        destruct (recordLogin_run u0 (afterRead w)) as (u' & s & w1 & -> & _).
        discriminate.
      * unfold bind at 1. unfold bind at 1. unfold now at 1. simpl.
        unfold bind at 1. rewrite addUser_eq. simpl.
        unfold bind at 1. rewrite setUserPassword_eq. unfold ret at 1.
        match goal with
        | |- context [DataService.recordLogin (Some ?u) ?w1] =>
            destruct (recordLogin_run u w1) as (u' & s & w2 & -> & _)
        end.
        discriminate.
  - destruct (find _ _) as [u0 |].
    + unfold bind at 1. rewrite verifyPassword_eq.
      destruct (bool_decide (credentials _ !! _ = _)).
      * destruct (recordLogin_run u0 (afterRead w)) as (u' & s & w1 & -> & _).
        discriminate.
      * intros [= <-]. apply storage_afterRead.
    + intros [= <-]. apply storage_afterRead.
Qed.

(** X3.  A login that fails writes nothing: whenever [authenticateUser]
    returns null the storage (snapshot, credential map, marker) is as it
    was.  For an email other than the administrative one it returns null
    when no stored user has the email, and when the stored credential for
    the email is not the password given (none stored included); for the
    administrative email it returns null when the password is not the
    stored one (the default when none, or an empty one, is stored). *)
Theorem failed_login_writes_nothing (w : World) (email password : string) :
  (fst (DataService.authenticateUser email password w) = Val None ->
   storage (snd (DataService.authenticateUser email password w)) = storage w) /\
  (email <> adminEmail ->
   find (fun u => User.email u = email) (users (currentData w)) = None ->
   fst (DataService.authenticateUser email password w) = Val None) /\
  (email <> adminEmail ->
   credentials (storage w) !! email <> Some password ->
   fst (DataService.authenticateUser email password w) = Val None) /\
  (email = adminEmail ->
   password <> opt_str_or (credentials (storage w) !! email) "ralab" ->
   fst (DataService.authenticateUser email password w) = Val None).
Proof.
  repeat apply conj.
  - intros Hnone.
    apply (authenticateUser_failure email password w).
    rewrite <- Hnone. now destruct (DataService.authenticateUser email password w).
  - intros Hother Hunknown.
    unfold DataService.authenticateUser. unfold bind at 1. rewrite getUser_eq.
    rewrite (bool_decide_eq_false_2 (email = "admin@issacasimov.in")) by exact Hother.
    now rewrite Hunknown.
  - intros Hother Hwrong.
    unfold DataService.authenticateUser. unfold bind at 1. rewrite getUser_eq.
    rewrite (bool_decide_eq_false_2 (email = "admin@issacasimov.in")) by exact Hother.
    destruct (find _ _); [| reflexivity].
    unfold bind at 1. rewrite verifyPassword_eq, storage_afterRead.
    now rewrite (bool_decide_eq_false_2 _ Hwrong).
  - intros Hadmin Hwrong.
    unfold DataService.authenticateUser. unfold bind at 1. rewrite getUser_eq.
    rewrite (bool_decide_eq_true_2 (email = "admin@issacasimov.in")) by exact Hadmin.
    unfold bind at 1. rewrite getUserPasswords_eq, storage_afterRead.
    now rewrite (bool_decide_eq_true_2 _ Hwrong).
Qed.

Lemma failed_login_writes_nothing_witness :
  storage (snd (DataService.authenticateUser "ada@example.org" "wrong" adaRegistered))
  = storage adaRegistered /\
  fst (DataService.authenticateUser "nobody@example.org" "x" adaRegistered) = Val None /\
  fst (DataService.authenticateUser "ada@example.org" "wrong" adaRegistered) = Val None /\
  fst (DataService.authenticateUser adminEmail "wrong" adaRegistered) = Val None.
Proof.
  destruct (failed_login_writes_nothing adaRegistered "ada@example.org" "wrong")
    as (Hsame & _ & Hwrong & _).
  destruct (failed_login_writes_nothing adaRegistered "nobody@example.org" "x")
    as (_ & Hunknown & _).
  destruct (failed_login_writes_nothing adaRegistered adminEmail "wrong")
    as (_ & _ & _ & Hadmin).
  assert ("ada@example.org" <> adminEmail) as Hne1 by discriminate.
  assert ("nobody@example.org" <> adminEmail) as Hne2 by discriminate.
  assert (credentials (storage adaRegistered) !! "ada@example.org" <> Some "wrong")
    as Hcred by (vm_compute; discriminate).
  split; [| split; [| split]].
  - exact (Hsame (Hwrong Hne1 Hcred)).
  - apply (Hunknown Hne2). vm_compute. reflexivity.
  - exact (Hwrong Hne1 Hcred).
  - apply (Hadmin eq_refl). vm_compute. discriminate.
Defined.

Lemma num_or_zero (n : Z) : num_or n 0 = n.
Proof. unfold num_or. case_bool_decide; congruence. Qed.

Lemma ids_with_tick (n : nat) (w : World) :
  map User.id (users (currentData (with_tick n w)))
  = map User.id (users (currentData w)).
Proof.
  unfold currentData. cbn [with_tick storage].
  destruct (isaacLabData (storage w)); reflexivity.
Qed.

Lemma ids_afterRead (w : World) :
  map User.id (users (currentData (afterRead w)))
  = map User.id (users (currentData w)).
Proof.
  unfold afterRead. destruct (isaacLabData (storage w)) eqn:Hd;
    try apply ids_with_tick; reflexivity.
Qed.

Lemma findIndex_known (x : string) (l : list User.t) :
  x ∈ map User.id l ->
  exists index y,
    list_find (fun u => User.id u = x) l = Some (index, y) /\
    l !! index = Some y /\ User.id y = x.
Proof.
  intros Hin. apply list_elem_of_fmap in Hin as (y & -> & Hy).
  destruct (list_find_elem_of (fun u => User.id u = User.id y) l y Hy eq_refl)
    as [[index z] Hfind].
  exists index, z. split; [exact Hfind |].
  apply list_find_Some in Hfind as (Hl & Hz & _). auto.
Qed.

Lemma passwords_createLoginSession (user : User.t) (w : World) :
  isaacLabPasswords (storage (snd (DataService.createLoginSession user w)))
  = isaacLabPasswords (storage w).
Proof.
  rewrite createLoginSession_eq. cbv zeta; cbn [snd].
  now rewrite passwords_persist, storage_afterRead.
Qed.

Lemma recordLogin_detail (previous : User.t) (w : World) :
  User.id previous ∈ map User.id (users (currentData w)) ->
  let user :=
    User.set_isActive true
      (User.set_loginCount (User.loginCount previous + 1)
         (User.set_lastLoginAt (Some (clock (host w) (tick w))) previous)) in
  exists w',
    DataService.recordLogin (Some previous) w = (Val (Some user), w') /\
    user ∈ users (currentData w') /\
    length (users (currentData w')) = length (users (currentData w)) /\
    isaacLabPasswords (storage w') = isaacLabPasswords (storage w).
Proof.
  intros Hknown user.
  unfold DataService.recordLogin. unfold bind at 1. unfold now at 1. cbn [fst snd].
  rewrite num_or_zero. fold user.
  set (w0 := with_tick (S (tick w)) w).
  assert (User.id user ∈ map User.id (users (currentData w0))) as Hknown0
    by (unfold w0; rewrite ids_with_tick; exact Hknown).
  destruct (findIndex_known _ _ Hknown0) as (index & y & Hfind & Hy & _).
  unfold bind at 1. rewrite updateUser_eq. cbv zeta.
  unfold findIndex. rewrite Hfind. cbn [fmap option_fmap option_map fst].
  match goal with
  | |- context [persist ?d (afterRead w0)] => set (w1 := persist d (afterRead w0))
  end.
  set (l := <[index := user]> (users (currentData w0))) in *.
  assert (storedUsers (storage w1) = Some l) as Hl by reflexivity.
  destruct (createLoginSession_keeps_users user w1 l Hl) as (Hu2 & _).
  pose proof (passwords_createLoginSession user w1) as Hp2.
  unfold bind at 1.
  destruct (DataService.createLoginSession user w1) as [[session |] w2] eqn:Hc;
    [| pose proof (total_createLoginSession user w1) as Ht; rewrite Hc in Ht;
       discriminate].
  cbn [snd] in Hu2, Hp2. unfold ret.
  exists w2. split; [reflexivity |].
  rewrite (users_of_stored w2 l Hu2). repeat split.
  - apply list_elem_of_lookup. exists index. unfold l.
    apply list_lookup_insert_eq. eapply lookup_lt_Some. exact Hy.
  - unfold l. rewrite length_insert.
    rewrite <- (length_map User.id (users (currentData w0))).
    rewrite <- (length_map User.id (users (currentData w))).
    unfold w0. now rewrite ids_with_tick.
  - rewrite Hp2. unfold w1. rewrite passwords_persist, storage_afterRead.
    reflexivity.
Qed.

(** X4.  Login statistics.  When the store holds a user with the email, a
    successful [authenticateUser] returns that user with [loginCount] one
    higher, [isActive] true and [lastLoginAt] set to a clock read of the
    call, every other field as stored; the returned record is among the
    stored users afterwards; the number of users is unchanged; and the
    credential map is as it was. *)
Theorem login_updates_statistics
    (w w' : World) (email password : string) (previous user : User.t) :
  find (fun u => User.email u = email) (users (currentData w)) = Some previous ->
  DataService.authenticateUser email password w = (Val (Some user), w') ->
  (exists k, (tick w <= k)%nat /\
     user = User.set_isActive true
              (User.set_loginCount (User.loginCount previous + 1)
                 (User.set_lastLoginAt (Some (clock (host w) k)) previous))) /\
  user ∈ users (currentData w') /\
  length (users (currentData w')) = length (users (currentData w)) /\
  isaacLabPasswords (storage w') = isaacLabPasswords (storage w).
Proof.
  intros Hfind.
  assert (User.id previous ∈ map User.id (users (currentData (afterRead w))))
    as Hknown.
  { rewrite ids_afterRead. apply list_elem_of_fmap. exists previous.
    split; [reflexivity |]. now apply find_Some in Hfind. }
  destruct (recordLogin_detail previous (afterRead w) Hknown)
    as (w1 & Hrun & Hin & Hlen & Hpw).
  assert (DataService.recordLogin (Some previous) (afterRead w) = (Val (Some user), w')
          -> (exists k, (tick w <= k)%nat /\
                user = User.set_isActive true
                         (User.set_loginCount (User.loginCount previous + 1)
                            (User.set_lastLoginAt (Some (clock (host w) k)) previous))) /\
             user ∈ users (currentData w') /\
             length (users (currentData w')) = length (users (currentData w)) /\
             isaacLabPasswords (storage w') = isaacLabPasswords (storage w))
    as Hdone.
  { rewrite Hrun. intros [= <- <-]. repeat split.
    - exists (tick (afterRead w)). rewrite host_afterRead. split; [| reflexivity].
      unfold afterRead. destruct (isaacLabData (storage w)); simpl; lia.
    - exact Hin.
    - rewrite Hlen.
      rewrite <- (length_map User.id (users (currentData (afterRead w)))).
      rewrite <- (length_map User.id (users (currentData w))).
      now rewrite ids_afterRead.
    - now rewrite Hpw, storage_afterRead. }
  unfold DataService.authenticateUser. unfold bind at 1. rewrite getUser_eq, Hfind.
  destruct (bool_decide (email = "admin@issacasimov.in")).
  - unfold bind at 1. rewrite getUserPasswords_eq.
    destruct (bool_decide (password <> _)); [discriminate |].
    unfold bind at 1. unfold ret at 1. exact Hdone.
  - unfold bind at 1. rewrite verifyPassword_eq.
    destruct (bool_decide (credentials _ !! _ = _)); [exact Hdone | discriminate].
Qed.

Lemma login_updates_statistics_witness :
  let user := User.set_isActive true
                (User.set_loginCount 1
                   (User.set_lastLoginAt (Some 1700000000009) adaStored)) in
  user ∈ users (currentData
                  (snd (DataService.authenticateUser "ada@example.org" "s3cret"
                          adaRegistered))) /\
  length (users (currentData
                   (snd (DataService.authenticateUser "ada@example.org" "s3cret"
                           adaRegistered))))
  = length (users (currentData adaRegistered)).
Proof.
  intros user.
  assert (find (fun u => User.email u = "ada@example.org")
               (users (currentData adaRegistered)) = Some adaStored) as Hfind
    by (vm_compute; reflexivity).
  assert (DataService.authenticateUser "ada@example.org" "s3cret" adaRegistered
          = (Val (Some user),
             snd (DataService.authenticateUser "ada@example.org" "s3cret"
                    adaRegistered))) as Hrun.
  { apply (run_pair (DataService.authenticateUser "ada@example.org" "s3cret")
             adaRegistered).
    vm_compute. reflexivity. }
  destruct (login_updates_statistics adaRegistered _ "ada@example.org" "s3cret"
              adaStored user Hfind Hrun) as (_ & Hin & Hlen & _).
  split; [exact Hin | exact Hlen].
Defined.

(** ** Logging out *)

Lemma markInactive_again (userId : string) (l : list User.t) :
  markInactive userId (markInactive userId l) = markInactive userId l.
Proof.
  unfold markInactive at 2 3.
  destruct (list_find _ l) as [[index user] |] eqn:Hfind.
  - apply list_find_Some in Hfind as Hspec. destruct Hspec as (Hl & Hid & Hleast).
    assert (list_find (fun u => User.id u = userId)
              (<[index := User.set_isActive false user]> l)
            = Some (index, User.set_isActive false user)) as Hfind'.
    { apply list_find_insert_Some. right. left.
      repeat split; eauto using lookup_lt_Some. }
    unfold markInactive. rewrite Hfind'.
    apply list_insert_id. apply list_lookup_insert_eq.
    eauto using lookup_lt_Some.
  - unfold markInactive. now rewrite Hfind.
Qed.

Lemma closeSessions_none (userId : string) (sessions : list LoginSession.t) (w : World) :
  Forall (fun s => targets userId s = false) sessions ->
  DataService.closeSessions userId sessions w = (Val sessions, w).
Proof.
  induction 1 as [| s rest Hs _ IH]; [reflexivity |].
  simpl. unfold targets in Hs. rewrite Hs. unfold bind. now rewrite IH.
Qed.

Lemma closed_sessions_no_target (h : Host) (userId : string)
    (before after : list LoginSession.t) :
  Forall2 (closed_at h userId) before after ->
  Forall (fun s => targets userId s = false) after.
Proof.
  induction 1 as [| s s' before after Hs _ IH]; constructor; [| exact IH].
  unfold closed_at in Hs. destruct (targets userId s) eqn:Ht.
  - destruct Hs as (k & ->). unfold targets. simpl. apply andb_false_r.
  - now subst s'.
Qed.

Lemma endLoginSession_eq (userId : string) (w : World) :
  let data := currentData w in
  exists closed n,
    Forall2 (closed_at (host w) userId) (loginSessions data) closed /\
    DataService.endLoginSession userId w
    = (Val tt,
       persist (mkSystemData (markInactive userId (users data)) (components data)
                  (requests data) (notifications data) closed)
               (with_tick n (afterRead w))).
Proof.
  intros data. unfold DataService.endLoginSession, bind. rewrite getData_eq.
  destruct (closeSessions_run userId (loginSessions (currentData w)) (afterRead w))
    as (closed & n & _ & -> & Hall).
  rewrite host_afterRead in Hall.
  exists closed, n. split; [exact Hall |].
  rewrite saveData_eq. unfold markInactive. subst data.
  destruct (list_find _ _) as [[index user] |]; reflexivity.
Qed.

(** X5.  What [endLoginSession] does besides closing sessions.  When a
    stored user has the id, the first such user is left with [isActive]
    false and otherwise unchanged, and every other position of the user
    list is as before (a later user with the same id included); when no
    stored user has the id the user list is unchanged.  The components,
    the requests and the notifications are unchanged, and a snapshot is
    always written, also when neither a session nor a user matched (on a
    first run this persists the default dataset). *)
Theorem logout_marks_user_inactive (w : World) (userId : string) :
  let before := currentData w in
  let after := currentData (snd (DataService.endLoginSession userId w)) in
  (userId ∈ map User.id (users before) ->
   exists j u,
     users before !! j = Some u /\ User.id u = userId /\
     (forall j' u', users before !! j' = Some u' -> (j' < j)%nat ->
                    User.id u' <> userId) /\
     users after !! j = Some (User.set_isActive false u) /\
     (forall j', j' <> j -> users after !! j' = users before !! j')) /\
  (userId ∉ map User.id (users before) -> users after = users before) /\
  components after = components before /\
  requests after = requests before /\
  notifications after = notifications before /\
  (exists snapshot,
     isaacLabData (storage (snd (DataService.endLoginSession userId w)))
     = Parsed snapshot).
Proof.
  intros before after. subst after.
  destruct (endLoginSession_eq userId w) as (closed & n & _ & ->).
  cbn [snd]. rewrite currentData_persist. cbn [users components requests notifications].
  fold before. unfold markInactive.
  repeat apply conj; try reflexivity.
  - intros Hknown.
    destruct (findIndex_known userId (users before) Hknown)
      as (index & y & Hfind & Hy & Hid).
    rewrite Hfind. apply list_find_Some in Hfind as (_ & _ & Hleast).
    exists index, y. repeat split; auto.
    + apply list_lookup_insert_eq. eauto using lookup_lt_Some.
    + intros j' Hne. now apply list_lookup_insert_ne.
  - intros Hunknown.
    destruct (list_find _ _) as [[index user] |] eqn:Hfind; [| reflexivity].
    apply list_find_Some in Hfind as (Hl & Hu & _).
    exfalso. apply Hunknown. apply list_elem_of_fmap. exists user.
    split; [now symmetry |]. eapply list_elem_of_lookup_2. exact Hl.
  - eexists. reflexivity.
Qed.

Lemma logout_marks_user_inactive_witness :
  (exists j u,
     users (currentData adminLoggedIn) !! j = Some u /\ User.id u = "admin-1" /\
     users (currentData (snd (DataService.endLoginSession "admin-1" adminLoggedIn)))
       !! j = Some (User.set_isActive false u)) /\
  users (currentData (snd (DataService.endLoginSession "user-404" adminLoggedIn)))
  = users (currentData adminLoggedIn).
Proof.
  destruct (logout_marks_user_inactive adminLoggedIn "admin-1") as (Hfirst & _).
  destruct (logout_marks_user_inactive adminLoggedIn "user-404") as (_ & Hother & _).
  split.
  - destruct Hfirst as (j & u & Hj & Hid & _ & Hafter & _).
    + apply list_elem_of_In. vm_compute. left. reflexivity.
    + exists j, u. auto.
  - apply Hother. intros Hin. apply list_elem_of_In in Hin. vm_compute in Hin.
    destruct Hin as [Hin | []]. discriminate.
Defined.

(** X6.  Logging out twice: a second [endLoginSession] for the same user
    leaves the storage exactly as the first one left it (no session is
    closed again, no logout time is overwritten, the user stays
    inactive). *)
Theorem second_logout_changes_nothing (w : World) (userId : string) :
  let once := snd (DataService.endLoginSession userId w) in
  fst (DataService.endLoginSession userId once) = Val tt /\
  storage (snd (DataService.endLoginSession userId once)) = storage once.
Proof.
  intros once. subst once.
  destruct (endLoginSession_eq userId w) as (closed & n & Hall & ->). cbn [snd].
  set (w0 := with_tick n (afterRead w)).
  match goal with
  | |- context [persist ?d w0] => set (data := d)
  end.
  assert (DataService.closeSessions userId closed (persist data w0)
          = (Val closed, persist data w0)) as Hclose
    by (apply closeSessions_none; eapply closed_sessions_no_target; exact Hall).
  unfold DataService.endLoginSession, bind. rewrite getData_eq.
  rewrite currentData_persist. cbn [loginSessions users data afterRead].
  change (afterRead (persist data w0)) with (persist data w0).
  rewrite Hclose, saveData_eq. split; [reflexivity |].
  fold (markInactive userId (markInactive userId (users (currentData w)))).
  rewrite markInactive_again. reflexivity.
Qed.

(** ** Components *)

Lemma collections_with_tick (n : nat) (w : World) :
  components (currentData (with_tick n w)) = components (currentData w) /\
  requests (currentData (with_tick n w)) = requests (currentData w) /\
  notifications (currentData (with_tick n w)) = notifications (currentData w).
Proof.
  unfold currentData. cbn [with_tick storage].
  destruct (isaacLabData (storage w)); auto.
Qed.

Lemma collections_afterRead (w : World) :
  components (currentData (afterRead w)) = components (currentData w) /\
  requests (currentData (afterRead w)) = requests (currentData w) /\
  notifications (currentData (afterRead w)) = notifications (currentData w).
Proof.
  unfold afterRead.
  destruct (isaacLabData (storage w)); auto using collections_with_tick.
Qed.

Lemma deleteComponent_eq (componentId : string) (w : World) :
  let data := currentData w in
  DataService.deleteComponent componentId w
  = (Val tt,
     persist (mkSystemData (users data)
                (filter (fun c => Component.id c <> componentId) (components data))
                (requests data) (notifications data) (loginSessions data))
             (afterRead w)).
Proof. unfold DataService.deleteComponent, bind. rewrite getData_eq. reflexivity. Qed.

Lemma filter_all {A} (P : A -> Prop) `{!forall x, Decision (P x)} (l : list A) :
  (forall x, x ∈ l -> P x) -> filter P l = l.
Proof.
  induction l as [| x l IH]; intros Hall; [reflexivity |].
  rewrite filter_cons_True by (apply Hall; left).
  f_equal. apply IH. intros y Hy. apply Hall. now right.
Qed.

(** X7.  [deleteComponent]: afterwards no stored component has the id
    (every component with it is removed, not only the first), every other
    component is kept, in order; deleting an id no component has leaves the
    component list as it was; the requests are untouched, those for the
    deleted component included; and an [updateComponent] for the deleted
    id then changes nothing. *)
Theorem deleted_component_is_gone (w : World) (componentId : string) :
  let before := currentData w in
  let w' := snd (DataService.deleteComponent componentId w) in
  let after := currentData w' in
  (forall c, c ∈ components after <->
             c ∈ components before /\ Component.id c <> componentId) /\
  components after
  = filter (fun c => Component.id c <> componentId) (components before) /\
  ((forall c, c ∈ components before -> Component.id c <> componentId) ->
   components after = components before) /\
  requests after = requests before /\
  users after = users before /\
  (forall component,
     Component.id component = componentId ->
     storage (snd (DataService.updateComponent component w')) = storage w').
Proof.
  intros before w' after. subst after w'.
  rewrite deleteComponent_eq. cbv zeta. cbn [snd].
  rewrite currentData_persist. cbn [components requests users]. fold before.
  repeat apply conj; try reflexivity.
  - intros c. rewrite list_elem_of_filter. tauto.
  - intros Hnone. now apply filter_all.
  - intros component Hid.
    match goal with
    | |- context [DataService.updateComponent component ?w1] =>
        destruct (updateComponent_unknown w1 component) as (_ & Hsame)
    end; [| exact Hsame].
    intros c. rewrite currentData_persist. cbn [components].
    rewrite list_elem_of_filter. intros [Hne _]. congruence.
Qed.

Lemma deleted_component_is_gone_witness :
  components (currentData (snd (DataService.deleteComponent "comp-404" stockedStore)))
  = components (currentData stockedStore) /\
  storage (snd (DataService.updateComponent remotePart
                  (snd (DataService.deleteComponent "fb-c1" stockedStore))))
  = storage (snd (DataService.deleteComponent "fb-c1" stockedStore)).
Proof.
  destruct (deleted_component_is_gone stockedStore "comp-404") as (_ & _ & Hnone & _).
  destruct (deleted_component_is_gone stockedStore "fb-c1")
    as (_ & _ & _ & _ & _ & Hupdate).
  split.
  - apply Hnone. intros c Hin. apply list_elem_of_singleton in Hin. subst c.
    discriminate.
  - apply Hupdate. reflexivity.
Defined.

(** ** Notifications *)

Lemma markNotificationAsRead_eq (notificationId : string) (w : World) :
  let data := currentData w in
  DataService.markNotificationAsRead notificationId w
  = (Val tt,
     match list_find (fun n => Notification.id n = notificationId)
                     (notifications data) with
     | Some (index, notification) =>
         persist (mkSystemData (users data) (components data) (requests data)
                    (<[index := Notification.set_read true notification]>
                       (notifications data))
                    (loginSessions data))
                 (afterRead w)
     | None => afterRead w
     end).
Proof.
  unfold DataService.markNotificationAsRead, bind. rewrite getData_eq. cbv zeta.
  destruct (list_find _ _) as [[index notification] |]; reflexivity.
Qed.

(** X8.  [markNotificationAsRead]: for an id no stored notification has,
    the call returns without writing (storage unchanged); marking the same
    id a second time leaves the storage as the first marking left it; and
    the number of notifications never changes. *)
Theorem marking_read_is_idempotent (w : World) (notificationId : string) :
  let once := snd (DataService.markNotificationAsRead notificationId w) in
  ((forall n, n ∈ notifications (currentData w) ->
              Notification.id n <> notificationId) ->
   storage once = storage w) /\
  storage (snd (DataService.markNotificationAsRead notificationId once))
  = storage once /\
  length (notifications (currentData once))
  = length (notifications (currentData w)).
Proof.
  intros once. subst once. rewrite markNotificationAsRead_eq. cbv zeta. cbn [snd].
  destruct (list_find _ _) as [[index notification] |] eqn:Hfind.
  - apply list_find_Some in Hfind as Hspec. destruct Hspec as (Hl & Hid & Hleast).
    repeat apply conj.
    + intros Hnone. exfalso. apply (Hnone notification); [| exact Hid].
      eapply list_elem_of_lookup_2. exact Hl.
    + rewrite markNotificationAsRead_eq. cbv zeta. cbn [snd].
      rewrite currentData_persist. cbn [notifications].
      assert (list_find (fun n => Notification.id n = notificationId)
                (<[index := Notification.set_read true notification]>
                   (notifications (currentData w)))
              = Some (index, Notification.set_read true notification)) as ->.
      { apply list_find_insert_Some. right. left.
        repeat split; eauto using lookup_lt_Some. }
      change (Notification.set_read true (Notification.set_read true notification))
        with (Notification.set_read true notification).
      now rewrite list_insert_insert_eq.
    + rewrite currentData_persist. cbn [notifications]. apply length_insert.
  - repeat apply conj.
    + intros _. apply storage_afterRead.
    + rewrite markNotificationAsRead_eq. cbv zeta. cbn [snd].
      destruct (collections_afterRead w) as (_ & _ & Hsame).
      rewrite Hsame, Hfind. now rewrite !storage_afterRead.
    + f_equal. apply collections_afterRead.
Qed.

Lemma marking_read_is_idempotent_witness :
  storage (snd (DataService.markNotificationAsRead "fb-n404" stockedStore))
  = storage stockedStore.
Proof.
  destruct (marking_read_is_idempotent stockedStore "fb-n404") as (Hunknown & _).
  apply Hunknown. intros n Hin. apply list_elem_of_singleton in Hin. subst n.
  discriminate.
Defined.

(** ** Adding and looking up *)

Lemma find_snoc {A} (P : A -> Prop) `{!forall x, Decision (P x)} (l : list A) (x : A) :
  find P (l ++ [x])
  = match find P l with
    | Some y => Some y
    | None => if decide (P x) then Some x else None
    end.
Proof.
  unfold find. destruct (list_find P l) as [[i y] |] eqn:Hfind.
  - now rewrite (list_find_app_l P l [x] i y Hfind).
  - rewrite (list_find_app_r P l [x] Hfind). cbn.
    destruct (decide (P x)); reflexivity.
Qed.

(** X9.  [addUser] then [getUser]: emails are not made unique, and a
    lookup returns the user stored first.  After [addUser user], a lookup
    of another email returns what it returned before; a lookup of the
    user's email returns the record that was already found for it, when
    there was one, and otherwise the new record (with the two counters
    reset). *)
Theorem lookup_by_email_returns_oldest (w : World) (user : User.t) (email : string) :
  let w' := snd (DataService.addUser user w) in
  (email <> User.email user ->
   fst (DataService.getUser email w') = fst (DataService.getUser email w)) /\
  (forall earlier,
     fst (DataService.getUser (User.email user) w) = Val (Some earlier) ->
     fst (DataService.getUser (User.email user) w') = Val (Some earlier)) /\
  (fst (DataService.getUser (User.email user) w) = Val None ->
   fst (DataService.getUser (User.email user) w')
   = Val (Some (User.set_isActive false (User.set_loginCount 0 user)))).
Proof.
  intros w'. subst w'. rewrite addUser_eq. cbv zeta. cbn [snd].
  rewrite !getUser_eq. cbn [fst]. rewrite currentData_persist. cbn [users].
  rewrite !find_snoc.
  repeat apply conj.
  - intros Hother. destruct (find _ _); [reflexivity |].
    rewrite decide_False; [reflexivity |]. cbn. congruence.
  - intros earlier [= ->]. reflexivity.
  - intros [= ->]. rewrite decide_True; reflexivity.
Qed.

Lemma lookup_by_email_returns_oldest_witness :
  fst (DataService.getUser adminEmail (snd (DataService.addUser remoteAda firstRun)))
  = fst (DataService.getUser adminEmail firstRun) /\
  fst (DataService.getUser "ada@example.org"
         (snd (DataService.addUser remoteAda stockedStore)))
  = Val (Some remoteAda) /\
  fst (DataService.getUser "ada@example.org"
         (snd (DataService.addUser remoteAda firstRun)))
  = Val (Some (User.set_isActive false (User.set_loginCount 0 remoteAda))).
Proof.
  destruct (lookup_by_email_returns_oldest firstRun remoteAda adminEmail)
    as (Hother & _).
  destruct (lookup_by_email_returns_oldest stockedStore remoteAda "ada@example.org")
    as (_ & Hearlier & _).
  destruct (lookup_by_email_returns_oldest firstRun remoteAda "ada@example.org")
    as (_ & _ & Hnew).
  split; [| split].
  - apply Hother. discriminate.
  - apply Hearlier. vm_compute. reflexivity.
  - apply Hnew. vm_compute. reflexivity.
Defined.

(** X10.  Adding then listing.  After [addRequest request] the list of
    all requests is the previous list followed by the request, and the
    list of a user's requests is that user's previous list, followed by
    the request when it is the user's own; every request listed for a
    user has that user as [studentId].  The same holds of
    [addNotification] and [getUserNotifications] with [userId]. *)
Theorem added_items_are_listed
    (w : World) (request : BorrowRequest.t) (notification : Notification.t)
    (userId : string) :
  (exists mine,
     fst (DataService.getUserRequests userId w) = Val mine /\
     Forall (fun r => BorrowRequest.studentId r = userId) mine /\
     fst (DataService.getUserRequests userId (snd (DataService.addRequest request w)))
     = Val (if bool_decide (BorrowRequest.studentId request = userId)
            then (mine ++ [request])%list else mine) /\
     fst (DataService.getRequests (snd (DataService.addRequest request w)))
     = Val (requests (currentData w) ++ [request])%list) /\
  (exists mine,
     fst (DataService.getUserNotifications userId w) = Val mine /\
     Forall (fun n => Notification.userId n = userId) mine /\
     fst (DataService.getUserNotifications userId
            (snd (DataService.addNotification notification w)))
     = Val (if bool_decide (Notification.userId notification = userId)
            then (mine ++ [notification])%list else mine)).
Proof.
  split.
  - exists (filter (fun r => BorrowRequest.studentId r = userId)
                   (requests (currentData w))).
    unfold DataService.getUserRequests, DataService.getRequests, bind.
    rewrite addRequest_eq, !getData_eq. cbv zeta. cbn [fst snd].
    rewrite ?getData_eq, currentData_persist. cbn [fst requests].
    repeat apply conj; try reflexivity.
    + apply Forall_forall. intros r Hr. now apply list_elem_of_filter in Hr.
    + rewrite filter_app. case_bool_decide.
      * now rewrite filter_cons_True by assumption.
      * rewrite filter_cons_False by assumption. cbn. now rewrite app_nil_r.
  - exists (filter (fun n => Notification.userId n = userId)
                   (notifications (currentData w))).
    unfold DataService.getUserNotifications, bind.
    rewrite addNotification_eq, !getData_eq. cbv zeta. cbn [fst snd].
    rewrite currentData_persist. cbn [fst notifications].
    repeat apply conj; try reflexivity.
    + apply Forall_forall. intros n Hn. now apply list_elem_of_filter in Hn.
    + rewrite filter_app. case_bool_decide.
      * now rewrite filter_cons_True by assumption.
      * rewrite filter_cons_False by assumption. cbn. now rewrite app_nil_r.
Qed.

(** ** Resynchronisation *)

(** X11.  [syncToLocal] is all or nothing.  When one of its five remote
    reads rejects, the call throws and the world is exactly as before (no
    partial snapshot, no sync time).  When all five resolve, the call
    returns, the snapshot is exactly the five remote lists (whatever the
    Local Store held before is replaced), the sync time is the clock read
    of the call, and the credential map and the session marker are
    untouched. *)
Theorem sync_is_all_or_nothing (fb : FirebaseService.t) (w : World) :
  (FirebaseService.getAllUsers fb = Rejected \/
   FirebaseService.getAllComponents fb = Rejected \/
   FirebaseService.getAllRequests fb = Rejected \/
   FirebaseService.getAllNotifications fb = Rejected \/
   FirebaseService.getAllLoginSessions fb = Rejected ->
   FirebaseService.syncToLocal fb w = (Exn, w)) /\
  (forall us cs rs ns ss,
     FirebaseService.getAllUsers fb = Resolved us ->
     FirebaseService.getAllComponents fb = Resolved cs ->
     FirebaseService.getAllRequests fb = Resolved rs ->
     FirebaseService.getAllNotifications fb = Resolved ns ->
     FirebaseService.getAllLoginSessions fb = Resolved ss ->
     let w' := snd (FirebaseService.syncToLocal fb w) in
     fst (FirebaseService.syncToLocal fb w) = Val tt /\
     currentData w' = mkSystemData us cs rs ns ss /\
     lastFirebaseSync (storage w') = Some (clock (host w) (tick w)) /\
     isaacLabPasswords (storage w') = isaacLabPasswords (storage w) /\
     currentUser (storage w') = currentUser (storage w)).
Proof.
  split.
  - intros Hfail. unfold FirebaseService.syncToLocal, bind, await, ret, throw.
    destruct (FirebaseService.getAllUsers fb); [| reflexivity].
    destruct (FirebaseService.getAllComponents fb); [| reflexivity].
    destruct (FirebaseService.getAllRequests fb); [| reflexivity].
    destruct (FirebaseService.getAllNotifications fb); [| reflexivity].
    destruct (FirebaseService.getAllLoginSessions fb); [| reflexivity].
    destruct Hfail as [H | [H | [H | [H | H]]]]; discriminate.
  - intros us cs rs ns ss Hu Hc Hr Hn Hs w'. subst w'.
    unfold FirebaseService.syncToLocal, bind, await, ret.
    rewrite Hu, Hc, Hr, Hn, Hs. cbn. auto.
Qed.

Lemma sync_is_all_or_nothing_witness :
  FirebaseService.syncToLocal unreachable adaRegistered = (Exn, adaRegistered) /\
  currentData (snd (FirebaseService.syncToLocal stocked adaRegistered))
  = mkSystemData [remoteAda] [remotePart] [remoteRequest] [remoteNote]
                 [remoteSession].
Proof.
  destruct (sync_is_all_or_nothing unreachable adaRegistered) as (Hfail & _).
  destruct (sync_is_all_or_nothing stocked adaRegistered) as (_ & Hok).
  split.
  - apply Hfail. left. reflexivity.
  - destruct (Hok [remoteAda] [remotePart] [remoteRequest] [remoteNote]
                [remoteSession] eq_refl eq_refl eq_refl eq_refl eq_refl)
      as (_ & Hdata & _).
    exact Hdata.
Defined.

Lemma syncToLocal_failure (fb : FirebaseService.t) (w w' : World) :
  FirebaseService.syncToLocal fb w = (Exn, w') -> w' = w.
Proof.
  unfold FirebaseService.syncToLocal, bind, await, ret, throw.
  destruct (FirebaseService.getAllUsers fb); [| now intros [= <-]].
  destruct (FirebaseService.getAllComponents fb); [| now intros [= <-]].
  destruct (FirebaseService.getAllRequests fb); [| now intros [= <-]].
  destruct (FirebaseService.getAllNotifications fb); [| now intros [= <-]].
  destruct (FirebaseService.getAllLoginSessions fb); [| now intros [= <-]].
  cbn. discriminate.
Qed.



(** X13.  Connectivity events.  [onOffline] only clears [isOnline].
    [onOnline] sets [isOnline]; with [useFirebase] false nothing else
    changes (no resync is attempted); with [useFirebase] true the world is
    the one the resync leaves when it succeeds, and only [isOnline] has
    changed when it fails. *)
Theorem connectivity_events (fb : FirebaseService.t) (w : World) :
  let online := with_isOnline true w in
  HybridDataService.onOffline w = (Val tt, with_isOnline false w) /\
  isOnline (snd (HybridDataService.onOnline fb w)) = true /\
  (useFirebase w = false -> snd (HybridDataService.onOnline fb w) = online) /\
  (useFirebase w = true ->
   fst (FirebaseService.syncToLocal fb online) = Val tt ->
   snd (HybridDataService.onOnline fb w)
   = snd (FirebaseService.syncToLocal fb online)) /\
  (useFirebase w = true ->
   fst (FirebaseService.syncToLocal fb online) = Exn ->
   snd (HybridDataService.onOnline fb w) = online).
Proof.
  intros online.
  assert (forall w0, isOnline w0 = true ->
            isOnline (snd (FirebaseService.syncToLocal fb w0)) = true) as Hkeep.
  { intros w0 H0. unfold FirebaseService.syncToLocal, bind, await, ret, throw.
    destruct (FirebaseService.getAllUsers fb); [| exact H0].
    destruct (FirebaseService.getAllComponents fb); [| exact H0].
    destruct (FirebaseService.getAllRequests fb); [| exact H0].
    destruct (FirebaseService.getAllNotifications fb); [| exact H0].
    destruct (FirebaseService.getAllLoginSessions fb); [| exact H0].
    cbn. exact H0. }
  specialize (Hkeep online eq_refl).
  unfold HybridDataService.onOnline, HybridDataService.onOffline,
    HybridDataService.setOnline, HybridDataService.setOffline,
    HybridDataService.syncWhenOnline, HybridDataService.remoteReady,
    try_catch, bind, get, modify, ret.
  fold online. cbn [fst snd].
  change (isOnline online) with true. change (useFirebase online) with (useFirebase w).
  cbn [andb].
  destruct (useFirebase w) eqn:Hflag.
  - destruct (FirebaseService.syncToLocal fb online) as [[[] |] w1] eqn:Hsync.
    + cbn [fst snd] in *. repeat apply conj; try reflexivity; try discriminate.
      exact Hkeep.
    + apply syncToLocal_failure in Hsync. subst w1.
      repeat apply conj; try reflexivity; try discriminate.
  - repeat apply conj; try reflexivity; try discriminate.
Qed.

Lemma connectivity_events_witness :
  snd (HybridDataService.onOnline stocked (with_useFirebase false firstRunOffline))
  = with_isOnline true (with_useFirebase false firstRunOffline) /\
  snd (HybridDataService.onOnline stocked firstRunOffline)
  = snd (FirebaseService.syncToLocal stocked (with_isOnline true firstRunOffline)) /\
  snd (HybridDataService.onOnline unreachable firstRunOffline)
  = with_isOnline true firstRunOffline.
Proof.
  destruct (connectivity_events stocked (with_useFirebase false firstRunOffline))
    as (_ & _ & Hoff & _).
  destruct (connectivity_events stocked firstRunOffline) as (_ & _ & _ & Hok & _).
  destruct (connectivity_events unreachable firstRunOffline)
    as (_ & _ & _ & _ & Hfail).
  split; [| split].
  - apply Hoff. reflexivity.
  - apply Hok; reflexivity.
  - apply Hfail; reflexivity.
Defined.

(** ** Authentication through the facade *)

Lemma facade_login_fallback (fb : FirebaseService.t) (w : World)
    (email password : string) :
  isOnline w && useFirebase w = false \/
  FirebaseService.signIn fb email password = Rejected \/
  FirebaseService.signIn fb email password = Resolved None \/
  FirebaseService.getUserByEmail fb email = Rejected \/
  FirebaseService.getUserByEmail fb email = Resolved None ->
  HybridDataService.authenticateUser fb email password w
  = DataService.authenticateUser email password w.
Proof.
  intros Hcase. unfold HybridDataService.authenticateUser.
  destruct (isOnline w && useFirebase w) eqn:Hready;
    [| now apply or_local_not_ready].
  rewrite or_local_ready by exact Hready.
  unfold bind, await, ret, throw.
  destruct (FirebaseService.signIn fb email password) as [[uid |] |];
    [| reflexivity | reflexivity].
  destruct (FirebaseService.getUserByEmail fb email) as [[userData |] |];
    [| reflexivity | reflexivity].
  destruct Hcase as [H | [H | [H | [H | H]]]]; discriminate.
Qed.

(** X14.  [authenticateUser] of the facade.  When the remote side is not
    consulted, or the remote sign-in rejects or yields no identity, or the
    remote profile fetch rejects or yields no user, the call is exactly
    the Local Store's [authenticateUser] (same result, same effects).
    When sign-in and profile fetch both succeed the remote profile is
    returned and mirrored with [updateUser]: the stored sessions and the
    credential map are untouched, and when no stored user has the
    profile's id the storage is unchanged (the profile is not inserted). *)
Theorem facade_authentication (fb : FirebaseService.t) (w : World)
    (email password : string) :
  (isOnline w && useFirebase w = false \/
   FirebaseService.signIn fb email password = Rejected \/
   FirebaseService.signIn fb email password = Resolved None \/
   FirebaseService.getUserByEmail fb email = Rejected \/
   FirebaseService.getUserByEmail fb email = Resolved None ->
   HybridDataService.authenticateUser fb email password w
   = DataService.authenticateUser email password w) /\
  (forall uid userData,
     isOnline w && useFirebase w = true ->
     FirebaseService.signIn fb email password = Resolved (Some uid) ->
     FirebaseService.getUserByEmail fb email = Resolved (Some userData) ->
     let w' := snd (HybridDataService.authenticateUser fb email password w) in
     fst (HybridDataService.authenticateUser fb email password w)
     = Val (Some userData) /\
     w' = snd (DataService.updateUser userData w) /\
     storedSessions (storage w') = storedSessions (storage w) /\
     isaacLabPasswords (storage w') = isaacLabPasswords (storage w) /\
     ((forall u, u ∈ users (currentData w) -> User.id u <> User.id userData) ->
      storage w' = storage w)).
Proof.
  split; [apply facade_login_fallback |].
  intros uid userData Hready Hsign Hfetch w'. subst w'.
  assert (HybridDataService.authenticateUser fb email password w
          = (Val (Some userData), snd (DataService.updateUser userData w))) as ->.
  { unfold HybridDataService.authenticateUser.
    rewrite or_local_ready by exact Hready.
    unfold bind, await. rewrite Hsign. unfold ret at 1. rewrite Hfetch.
    unfold ret at 1.
    destruct (total_run (DataService.updateUser userData) w
                (total_updateUser userData)) as ([] & w1 & ->).
    reflexivity. }
  cbn [fst snd]. repeat apply conj; try reflexivity.
  - apply sessions_updateUser.
  - apply passwords_updateUser.
  - intros Hunknown. now apply updateUser_unknown.
Qed.

Lemma facade_authentication_witness :
  HybridDataService.authenticateUser unreachable adminEmail "ralab" firstRun
  = DataService.authenticateUser adminEmail "ralab" firstRun /\
  fst (HybridDataService.authenticateUser stocked "ada@example.org" "pw" firstRun)
  = Val (Some remoteAda) /\
  storage (snd (HybridDataService.authenticateUser stocked "ada@example.org" "pw"
                  firstRun))
  = storage firstRun.
Proof.
  destruct (facade_authentication unreachable firstRun adminEmail "ralab")
    as (Hlocal & _).
  destruct (facade_authentication stocked firstRun "ada@example.org" "pw")
    as (_ & Hremote).
  destruct (Hremote "uid-1" remoteAda eq_refl eq_refl eq_refl)
    as (Hres & _ & _ & _ & Hsame).
  split; [| split].
  - apply Hlocal. right. left. reflexivity.
  - exact Hres.
  - apply Hsame. intros u Hin. apply list_elem_of_singleton in Hin. subst u.
    discriminate.
Defined.

(** ** Identities assigned by the remote side *)

Lemma create_offline {E B} (remote : outcome string) (set_id : string -> E -> E)
    (x : E) (local : E -> M B) (w : World) :
  (forall e, total (local e)) ->
  isOnline w && useFirebase w = false \/ remote = Rejected ->
  try_catch
    (do ready <- HybridDataService.remoteReady;
     do e <- (if ready then
                do firebaseId <- await remote; ret (set_id firebaseId x)
              else ret x);
     local e)
    (local x) w
  = local x w.
Proof.
  intros Ht Hcase.
  unfold HybridDataService.remoteReady, try_catch, bind, get, ret, await, throw.
  destruct (total_run (local x) w (Ht x)) as (b & w' & Hl).
  destruct (isOnline w && useFirebase w); cbn.
  - destruct Hcase as [Hoff | ->]; [discriminate | reflexivity].
  - now rewrite Hl.
Qed.

Lemma create_online {E B} (remote : outcome string) (set_id : string -> E -> E)
    (x : E) (local : E -> M B) (w : World) (firebaseId : string) :
  (forall e, total (local e)) ->
  isOnline w && useFirebase w = true -> remote = Resolved firebaseId ->
  try_catch
    (do ready <- HybridDataService.remoteReady;
     do e <- (if ready then
                do firebaseId <- await remote; ret (set_id firebaseId x)
              else ret x);
     local e)
    (local x) w
  = local (set_id firebaseId x) w.
Proof.
  intros Ht Hready ->.
  unfold HybridDataService.remoteReady, try_catch, bind, get, ret, await.
  rewrite Hready. cbn.
  destruct (total_run (local (set_id firebaseId x)) w (Ht _)) as (b & w' & Hl).
  now rewrite Hl.
Qed.

(** X15.  Which id a created entity is stored under.  For [addUser],
    [addComponent], [addRequest] and [addNotification]: when the remote
    side is not consulted or its create call rejects, the entity is
    written locally under the caller's id; when the remote create call
    resolves, it is written locally under the id the remote side returned
    (every other field as given).  [createLoginSession] differs: the
    session is always stored under its local id, and the remote id only
    replaces the id of the returned session. *)
Theorem created_entities_take_remote_id (fb : FirebaseService.t) (w : World) :
  (forall user,
     (isOnline w && useFirebase w = false \/
      FirebaseService.createUser fb user = Rejected ->
      HybridDataService.addUser fb user w = DataService.addUser user w) /\
     (forall firebaseId,
        isOnline w && useFirebase w = true ->
        FirebaseService.createUser fb user = Resolved firebaseId ->
        HybridDataService.addUser fb user w
        = DataService.addUser (User.set_id firebaseId user) w)) /\
  (forall component,
     (isOnline w && useFirebase w = false \/
      FirebaseService.createComponent fb component = Rejected ->
      snd (HybridDataService.addComponent fb component w)
      = snd (DataService.addComponent component w)) /\
     (forall firebaseId,
        isOnline w && useFirebase w = true ->
        FirebaseService.createComponent fb component = Resolved firebaseId ->
        snd (HybridDataService.addComponent fb component w)
        = snd (DataService.addComponent (Component.set_id firebaseId component) w))) /\
  (forall request,
     (isOnline w && useFirebase w = false \/
      FirebaseService.createRequest fb request = Rejected ->
      snd (HybridDataService.addRequest fb request w)
      = snd (DataService.addRequest request w)) /\
     (forall firebaseId,
        isOnline w && useFirebase w = true ->
        FirebaseService.createRequest fb request = Resolved firebaseId ->
        snd (HybridDataService.addRequest fb request w)
        = snd (DataService.addRequest (BorrowRequest.set_id firebaseId request) w))) /\
  (forall notification,
     (isOnline w && useFirebase w = false \/
      FirebaseService.createNotification fb notification = Rejected ->
      snd (HybridDataService.addNotification fb notification w)
      = snd (DataService.addNotification notification w)) /\
     (forall firebaseId,
        isOnline w && useFirebase w = true ->
        FirebaseService.createNotification fb notification = Resolved firebaseId ->
        snd (HybridDataService.addNotification fb notification w)
        = snd (DataService.addNotification
                 (Notification.set_id firebaseId notification) w))) /\
  (forall user firebaseId,
     isOnline w && useFirebase w = true ->
     FirebaseService.createLoginSession fb (newSession user w) = Resolved firebaseId ->
     fst (HybridDataService.createLoginSession fb user w)
     = Val (LoginSession.set_id firebaseId (newSession user w)) /\
     storedSessions (storage (snd (HybridDataService.createLoginSession fb user w)))
     = (storedSessions (storage w) ++ [newSession user w])%list).
Proof.
  repeat apply conj.
  - intros user. split.
    + intros Hcase.
      apply (create_offline (FirebaseService.createUser fb user) User.set_id user
               DataService.addUser w); auto with total.
    + intros firebaseId Hready Hok.
      apply (create_online (FirebaseService.createUser fb user) User.set_id user
               DataService.addUser w firebaseId); auto with total.
  - intros component. split.
    + intros Hcase. unfold HybridDataService.addComponent.
      rewrite (create_offline (FirebaseService.createComponent fb component)
                 Component.set_id component
                 (fun c => run DataService.addComponent c; ret c) w);
        [| intros e; prove_total | exact Hcase].
      unfold bind. rewrite addComponent_eq. reflexivity.
    + intros firebaseId Hready Hok. unfold HybridDataService.addComponent.
      rewrite (create_online (FirebaseService.createComponent fb component)
                 Component.set_id component
                 (fun c => run DataService.addComponent c; ret c) w firebaseId);
        [| intros e; prove_total | exact Hready | exact Hok].
      unfold bind. rewrite addComponent_eq. reflexivity.
  - intros request. split.
    + intros Hcase. unfold HybridDataService.addRequest.
      rewrite (create_offline (FirebaseService.createRequest fb request)
                 BorrowRequest.set_id request
                 (fun r => run DataService.addRequest r; ret r) w);
        [| intros e; prove_total | exact Hcase].
      unfold bind. rewrite addRequest_eq. reflexivity.
    + intros firebaseId Hready Hok. unfold HybridDataService.addRequest.
      rewrite (create_online (FirebaseService.createRequest fb request)
                 BorrowRequest.set_id request
                 (fun r => run DataService.addRequest r; ret r) w firebaseId);
        [| intros e; prove_total | exact Hready | exact Hok].
      unfold bind. rewrite addRequest_eq. reflexivity.
  - intros notification. split.
    + intros Hcase. unfold HybridDataService.addNotification.
      rewrite (create_offline (FirebaseService.createNotification fb notification)
                 Notification.set_id notification
                 (fun n => run DataService.addNotification n; ret n) w);
        [| intros e; prove_total | exact Hcase].
      unfold bind. rewrite addNotification_eq. reflexivity.
    + intros firebaseId Hready Hok. unfold HybridDataService.addNotification.
      rewrite (create_online (FirebaseService.createNotification fb notification)
                 Notification.set_id notification
                 (fun n => run DataService.addNotification n; ret n) w firebaseId);
        [| intros e; prove_total | exact Hready | exact Hok].
      unfold bind. rewrite addNotification_eq. reflexivity.
  - intros user firebaseId Hready Hok.
    assert (HybridDataService.createLoginSession fb user w
            = (Val (LoginSession.set_id firebaseId (newSession user w)),
               snd (DataService.createLoginSession user w))) as ->.
    { unfold HybridDataService.createLoginSession. unfold bind at 1.
      pose proof (createLoginSession_eq user w) as He. cbv zeta in He.
      rewrite He. cbn [snd].
      match goal with |- context [persist ?d ?v] => set (w1 := persist d v) end.
      assert (isOnline w1 && useFirebase w1 = true) as Hready1.
      { rewrite <- Hready. subst w1. unfold afterRead. cbn.
        destruct (isaacLabData (storage w)); reflexivity. }
      unfold HybridDataService.remoteReady, try_catch, bind, get, ret, await.
      rewrite Hready1, Hok. reflexivity. }
    cbn [fst snd]. split; [reflexivity |].
    pose proof (createLoginSession_eq user w) as He. cbv zeta in He.
    rewrite He. cbn [snd]. rewrite sessions_persist. cbn [loginSessions].
    now rewrite sessions_currentData.
Qed.

Lemma created_entities_take_remote_id_witness :
  HybridDataService.addUser unreachable remoteAda firstRun
  = DataService.addUser remoteAda firstRun /\
  HybridDataService.addUser stocked remoteAda firstRun
  = DataService.addUser (User.set_id "fb-u2" remoteAda) firstRun /\
  snd (HybridDataService.addComponent stocked remotePart firstRunOffline)
  = snd (DataService.addComponent remotePart firstRunOffline) /\
  snd (HybridDataService.addRequest stocked remoteRequest firstRun)
  = snd (DataService.addRequest (BorrowRequest.set_id "fb-r2" remoteRequest) firstRun) /\
  snd (HybridDataService.addNotification unreachable remoteNote firstRun)
  = snd (DataService.addNotification remoteNote firstRun) /\
  storedSessions
    (storage (snd (HybridDataService.createLoginSession stocked remoteAda firstRun)))
  = (storedSessions (storage firstRun) ++ [newSession remoteAda firstRun])%list.
Proof.
  destruct (created_entities_take_remote_id unreachable firstRun)
    as (Hu1 & _ & _ & Hn1 & _).
  destruct (created_entities_take_remote_id stocked firstRun)
    as (Hu2 & _ & Hr2 & _ & Hs2).
  destruct (created_entities_take_remote_id stocked firstRunOffline)
    as (_ & Hc3 & _).
  split; [| split; [| split; [| split; [| split]]]].
  - apply (proj1 (Hu1 remoteAda)). right. reflexivity.
  - apply (proj2 (Hu2 remoteAda)); reflexivity.
  - apply (proj1 (Hc3 remotePart)). left. reflexivity.
  - apply (proj2 (Hr2 remoteRequest)); reflexivity.
  - apply (proj1 (Hn1 remoteNote)). right. reflexivity.
  - apply (Hs2 remoteAda "fb-s2"); reflexivity.
Defined.

(** ** The orchestrator's login and logout *)

Lemma authenticateUser_rejected (email password : string) (w w' : World) :
  DataService.authenticateUser email password w = (Val None, w') ->
  w' = afterRead w.
Proof.
  unfold DataService.authenticateUser. unfold bind at 1. rewrite getUser_eq.
  destruct (bool_decide (email = "admin@issacasimov.in")).
  - unfold bind at 1. rewrite getUserPasswords_eq.
    destruct (bool_decide (password <> _)).
    + now intros [= <-].
    + destruct (find _ _) as [u0 |].
      * unfold bind at 1. unfold ret at 1.
        destruct (recordLogin_run u0 (afterRead w)) as (u' & s & w1 & -> & _).
        discriminate.
      * unfold bind at 1. unfold bind at 1. unfold now at 1. simpl.
        unfold bind at 1. rewrite addUser_eq. simpl.
        unfold bind at 1. rewrite setUserPassword_eq. unfold ret at 1.
        match goal with
        | |- context [DataService.recordLogin (Some ?u) ?w1] =>
            destruct (recordLogin_run u w1) as (u' & s & w2 & -> & _)
        end.
        discriminate.
  - destruct (find _ _) as [u0 |].
    + unfold bind at 1. rewrite verifyPassword_eq.
      destruct (bool_decide (credentials _ !! _ = _)).
      * destruct (recordLogin_run u0 (afterRead w)) as (u' & s & w1 & -> & _).
        discriminate.
      * now intros [= <-].
    + now intros [= <-].
Qed.

Lemma authUser_afterRead (w : World) : authUser (afterRead w) = authUser w.
Proof. unfold afterRead. destruct (isaacLabData (storage w)); reflexivity. Qed.

Lemma facade_login_rejected (fb : FirebaseService.t) (email password : string)
    (w w' : World) :
  HybridDataService.authenticateUser fb email password w = (Val None, w') ->
  w' = afterRead w.
Proof.
  unfold HybridDataService.authenticateUser.
  destruct (isaacLabData (storage w)) eqn:Hdata; revert Hdata; intros _;
  (destruct (isOnline w && useFirebase w) eqn:Hready;
   [| rewrite or_local_not_ready by exact Hready;
      apply authenticateUser_rejected]);
  (rewrite or_local_ready by exact Hready;
   unfold bind, await, ret, throw;
   destruct (FirebaseService.signIn fb email password) as [[uid |] |];
   [| apply authenticateUser_rejected | apply authenticateUser_rejected];
   destruct (FirebaseService.getUserByEmail fb email) as [[userData |] |];
   [| apply authenticateUser_rejected | apply authenticateUser_rejected];
   destruct (total_run (DataService.updateUser userData) w
               (total_updateUser userData)) as ([] & w1 & ->);
   discriminate).
Qed.

Lemma total_facade_authenticateUser (fb : FirebaseService.t) (email password : string) :
  total (HybridDataService.authenticateUser fb email password).
Proof.
  intros w.
  destruct (isOnline w && useFirebase w) eqn:Hready.
  - unfold HybridDataService.authenticateUser.
    rewrite or_local_ready by exact Hready.
    unfold bind, await, ret, throw.
    destruct (FirebaseService.signIn fb email password) as [[uid |] |];
      try apply total_authenticateUser.
    destruct (FirebaseService.getUserByEmail fb email) as [[userData |] |];
      try apply total_authenticateUser.
    destruct (total_run (DataService.updateUser userData) w
                (total_updateUser userData)) as ([] & w1 & ->).
    reflexivity.
  - unfold HybridDataService.authenticateUser.
    rewrite or_local_not_ready by exact Hready. apply total_authenticateUser.
Qed.

(** X16.  [login] of the orchestrator.  It never throws, whatever the
    remote side does.  It answers [true] exactly when the facade's
    [authenticateUser] produced a user, and then that very user is both
    the in-memory current user and the stored [currentUser] marker, the
    snapshot and the credential map being as [authenticateUser] left them.
    When it answers [false], the storage (marker included) and the
    in-memory current user are as before the call. *)
Theorem login_sets_current_user (fb : FirebaseService.t) (w : World)
    (email password : string) :
  let attempt := HybridDataService.authenticateUser fb email password w in
  let w' := snd (AuthContext.login fb email password w) in
  (forall user,
     fst attempt = Val (Some user) ->
     fst (AuthContext.login fb email password w) = Val true /\
     authUser w' = Some user /\
     currentUser (storage w') = Some user /\
     isaacLabData (storage w') = isaacLabData (storage (snd attempt)) /\
     isaacLabPasswords (storage w') = isaacLabPasswords (storage (snd attempt))) /\
  (fst attempt = Val None ->
   fst (AuthContext.login fb email password w) = Val false /\
   storage w' = storage w /\ authUser w' = authUser w) /\
  (fst (AuthContext.login fb email password w) = Val true \/
   fst (AuthContext.login fb email password w) = Val false).
Proof.
  intros attempt w'. subst attempt w'. unfold AuthContext.login, bind.
  destruct (total_run (HybridDataService.authenticateUser fb email password) w
              (total_facade_authenticateUser fb email password))
    as (r & w1 & Hrun).
  rewrite Hrun. cbn [fst snd].
  destruct r as [u |]; cbn.
  - repeat apply conj; try reflexivity.
    + intros user [= <-]. repeat apply conj; reflexivity.
    + discriminate.
    + now left.
  - repeat apply conj.
    + discriminate.
    + intros _. apply facade_login_rejected in Hrun. subst w1.
      repeat apply conj;
        [reflexivity | apply storage_afterRead | apply authUser_afterRead].
    + now right.
Qed.

Lemma login_sets_current_user_witness :
  authUser (snd (AuthContext.login stocked "ada@example.org" "pw" firstRun))
  = Some remoteAda /\
  storage (snd (AuthContext.login unreachable "nobody@example.org" "x" firstRun))
  = storage firstRun.
Proof.
  destruct (login_sets_current_user stocked firstRun "ada@example.org" "pw")
    as (Hyes & _).
  destruct (login_sets_current_user unreachable firstRun "nobody@example.org" "x")
    as (_ & Hno & _).
  split.
  - destruct (Hyes remoteAda) as (_ & Hauth & _); [reflexivity | exact Hauth].
  - destruct Hno as (_ & Hsame & _); [reflexivity | exact Hsame].
Defined.




(** ** What a registration leaves behind *)





Lemma sessions_with_tick (n : nat) (w : World) :
  loginSessions (currentData (with_tick n w)) = loginSessions (currentData w).
Proof.
  unfold currentData. cbn [with_tick storage].
  destruct (isaacLabData (storage w)); reflexivity.
Qed.






(** ** The CSV export, cell by cell *)

Lemma count_char_join (c : ascii) (sep : string) (l : list string) :
  count_char c (String.concat sep l)
  = (pred (length l) * count_char c sep + sum_list (map (count_char c) l))%nat.
Proof.
  induction l as [| x l IH]; [reflexivity |].
  destruct l as [| y l].
  - simpl. lia.
  - change (String.concat sep (x :: y :: l))
      with (x +:+ sep +:+ String.concat sep (y :: l)).
    rewrite !count_char_app, IH. simpl. lia.
Qed.

Lemma count_char_quoteCell (c : ascii) (cell : string) :
  count_char c (DataService.quoteCell cell)
  = (2 * count_char c dquote + count_char c cell)%nat.
Proof. unfold DataService.quoteCell. rewrite !count_char_app. lia. Qed.

Lemma count_char_csvLine (c : ascii) (row : list string) :
  count_char c (DataService.csvLine row)
  = (pred (length row) * count_char c ","
     + 2 * length row * count_char c dquote
     + sum_list (map (count_char c) row))%nat.
Proof.
  unfold DataService.csvLine. rewrite count_char_join, length_map.
  assert (sum_list (map (count_char c) (map DataService.quoteCell row))
          = (2 * length row * count_char c dquote
             + sum_list (map (count_char c) row))%nat) as ->; [| nia].
  induction row as [| cell row IH]; [simpl; lia |].
  cbn [map sum_list length]. rewrite IH, count_char_quoteCell. unfold id. nia.
Qed.

(** X20.  The export does not escape its cells.  A line has two double
    quotes per cell plus every double quote that occurs inside a cell, and
    one comma between cells plus every comma inside a cell; the exported
    text has one line break per stored session plus every line break
    inside a cell.  The user name and the user email of a session are
    cells 2 and 3 of its row as they are stored, so a quote, a comma or a
    line break in them reaches the file unchanged. *)
Theorem csv_cells_are_not_escaped (w : World) (row : list string) :
  let rows := map (DataService.sessionRow (host w)) (storedSessions (storage w)) in
  count_char "034" (DataService.csvLine row)
  = (2 * length row + sum_list (map (count_char "034") row))%nat /\
  count_char "," (DataService.csvLine row)
  = (pred (length row) + sum_list (map (count_char ",") row))%nat /\
  (exists csv,
     fst (DataService.exportLoginSessionsCSV w) = Val csv /\
     count_char "010" csv
     = (length (storedSessions (storage w))
        + sum_list (map (fun r => sum_list (map (count_char "010") r)) rows))%nat) /\
  (forall session,
     DataService.sessionRow (host w) session !! 2%nat
     = Some (LoginSession.userName session) /\
     DataService.sessionRow (host w) session !! 3%nat
     = Some (LoginSession.userEmail session)).
Proof.
  intros rows. repeat apply conj.
  - rewrite count_char_csvLine. cbn [count_char dquote].
    rewrite !bool_decide_eq_false_2 by discriminate.
    rewrite bool_decide_eq_true_2 by reflexivity. lia.
  - rewrite count_char_csvLine. cbn [count_char dquote].
    rewrite bool_decide_eq_true_2 by reflexivity.
    rewrite bool_decide_eq_false_2 by discriminate. lia.
  - eexists. rewrite exportLoginSessionsCSV_eq. split; [reflexivity |].
    fold rows. rewrite count_char_join.
    cbn [map length pred sum_list]. rewrite length_map.
    assert (count_char "010" (DataService.csvLine DataService.headers) = 0%nat)
      as -> by reflexivity.
    assert (length rows = length (storedSessions (storage w))) as <-
      by (unfold rows; apply length_map).
    assert (count_char "010" newline = 1%nat) as -> by reflexivity.
    assert (sum_list (map (count_char "010") (map DataService.csvLine rows))
            = sum_list (map (fun r => sum_list (map (count_char "010") r)) rows))
      as ->; [| unfold id; lia].
    clear. induction rows as [| r rows IH]; [reflexivity |].
    cbn [map sum_list]. rewrite IH, count_char_csvLine. cbn [count_char dquote].
    rewrite !bool_decide_eq_false_2 by discriminate. unfold id. lia.
  - intros session. split; reflexivity.
Qed.




(** ** System statistics *)

Lemma getSystemStats_eq (w : World) :
  let data := currentData w in
  let current := clock (host w) (tick (afterRead w)) in
  DataService.getSystemStats w
  = (Val {| totalUsers := length (users data);
            activeUsers :=
              length (filter (fun u => User.isActive u = true) (users data));
            totalLogins :=
              foldl (fun sum u => sum + num_or (User.loginCount u) 0) 0 (users data);
            onlineUsers :=
              length (filter (fun s => LoginSession.isActive s = true)
                             (loginSessions data));
            totalRequests := length (requests data);
            pendingRequests :=
              length (filter (fun r => BorrowRequest.status r = pending)
                             (requests data));
            totalComponents := length (components data);
            overdueItems :=
              length (filter (fun r => BorrowRequest.status r = approved
                                       /\ BorrowRequest.dueDate r < current)
                             (requests data)) |},
     with_tick (S (tick (afterRead w))) (afterRead w)).
Proof.
  unfold DataService.getSystemStats, bind. rewrite getData_eq.
  unfold now, ret. cbn [fst snd]. now rewrite host_afterRead.
Qed.

Lemma length_filter_disjoint {A} (P Q : A -> Prop)
    `{!forall x, Decision (P x)} `{!forall x, Decision (Q x)} (l : list A) :
  (forall x, P x -> Q x -> False) ->
  (length (filter P l) + length (filter Q l) <= length l)%nat.
Proof.
  intros Hdisjoint. induction l as [| x l IH]; [reflexivity |].
  destruct (decide (P x)) as [HP | HP]; destruct (decide (Q x)) as [HQ | HQ].
  - destruct (Hdisjoint x HP HQ).
  - rewrite (filter_cons_True P) by exact HP.
    rewrite (filter_cons_False Q) by exact HQ. simpl. lia.
  - rewrite (filter_cons_False P) by exact HP.
    rewrite (filter_cons_True Q) by exact HQ. simpl. lia.
  - rewrite (filter_cons_False P) by exact HP.
    rewrite (filter_cons_False Q) by exact HQ. simpl. lia.
Qed.

Lemma filter_none {A} (P : A -> Prop) `{!forall x, Decision (P x)} (l : list A) :
  Forall (fun x => ~ P x) l -> filter P l = [].
Proof.
  induction 1 as [| x l Hx _ IH]; [reflexivity |].
  now rewrite filter_cons_False.
Qed.

Lemma totalLogins_nonneg (l : list User.t) (start : Z) :
  0 <= start ->
  Forall (fun u => 0 <= User.loginCount u) l ->
  0 <= foldl (fun sum u => sum + num_or (User.loginCount u) 0) start l.
Proof.
  intros Hstart Hall. revert start Hstart.
  induction Hall as [| u l Hu _ IH]; intros start Hstart; [exact Hstart |].
  cbn [foldl]. apply IH. unfold num_or. case_bool_decide; lia.
Qed.

(** X22.  [getSystemStats] reads and never writes, and its counters are
    consistent: [activeUsers] is the length of what [getActiveUsers]
    returns and is at most [totalUsers]; pending and overdue requests
    together are at most [totalRequests] (an overdue request is an
    approved one, so no request is counted twice); [onlineUsers] is at
    most the number of stored sessions; with no approved request nothing
    is overdue; and [totalLogins] is non-negative when no stored login
    count is negative. *)
Theorem system_statistics_are_consistent (w : World) :
  exists stats active,
    fst (DataService.getSystemStats w) = Val stats /\
    fst (DataService.getActiveUsers w) = Val active /\
    storage (snd (DataService.getSystemStats w)) = storage w /\
    totalUsers stats = length (users (currentData w)) /\
    activeUsers stats = length active /\
    (activeUsers stats <= totalUsers stats)%nat /\
    (pendingRequests stats + overdueItems stats <= totalRequests stats)%nat /\
    (onlineUsers stats <= length (storedSessions (storage w)))%nat /\
    (Forall (fun r => BorrowRequest.status r <> approved) (requests (currentData w)) ->
     overdueItems stats = 0%nat) /\
    (Forall (fun u => 0 <= User.loginCount u) (users (currentData w)) ->
     0 <= totalLogins stats).
Proof.
  pose proof (getSystemStats_eq w) as Hstats. cbv zeta in Hstats.
  rewrite Hstats. clear Hstats.
  unfold DataService.getActiveUsers, bind. rewrite getData_eq. unfold ret.
  cbn [fst snd]. do 2 eexists.
  split; [reflexivity |]. split; [reflexivity |].
  cbn [totalUsers activeUsers totalLogins onlineUsers totalRequests pendingRequests
       overdueItems with_tick storage].
  repeat apply conj.
  - apply storage_afterRead.
  - reflexivity.
  - reflexivity.
  - apply length_filter.
  - apply length_filter_disjoint. intros r Hpending [Happroved _]. congruence.
  - rewrite <- sessions_currentData. apply length_filter.
  - intros Hnone. rewrite filter_none; [reflexivity |].
    eapply Forall_impl; [exact Hnone |]. intros r Hr [Happroved _]. contradiction.
  - intros Hall. now apply totalLogins_nonneg.
Qed.

Lemma system_statistics_are_consistent_witness :
  exists stats,
    fst (DataService.getSystemStats stockedStore) = Val stats /\
    overdueItems stats = 0%nat /\ 0 <= totalLogins stats.
Proof.
  destruct (system_statistics_are_consistent stockedStore)
    as (stats & active & Hstats & _ & _ & _ & _ & _ & _ & _ & Hnone & Hlogins).
  exists stats. split; [exact Hstats |]. split.
  - apply Hnone. repeat constructor. discriminate.
  - apply Hlogins. repeat constructor. discriminate.
Defined.
